(** * compliance_monitor: discovery, dedup and analysis pipeline

    A shallow embedding of the core of the repository
    (spiders.py, analysis_utils.py, app.py, models.py, pc_pwspider.py)
    and the properties its specification states about it.

    Conventions.
    - A Python [str] is a list of code points ([ord] of each character).
      Every code point of a real [str] is at most 0x10FFFF.
    - [bytes] are lists of numbers below 256.
    - An operation that may raise returns a [result]; the exception classes
      that matter to the code's [except] clauses are constructors of [exn].
    - The Unicode tables of the interpreter that are too large to write out
      ([str.isalnum], [str.lower]) are section variables; [str.isspace] is
      the interpreter's list and is written out. *)

From Stdlib Require Import NArith ZArith QArith Ascii String Lia.
From stdpp Require Import base numbers list sorting strings.

Local Open Scope N_scope.

(** ** Python values *)

Module Py.

Definition char := N.
Definition str := list char.
Definition bytes := list N.

(** A source literal; every literal of the repository is ASCII. *)
Definition lit (s : string) : str := N_of_ascii <$> list_ascii_of_string s.

Inductive exn :=
  | ValueError
  | UnicodeEncodeError   (* a subclass of ValueError *)
  | OverflowError
  | OSError
  | TypeError
  | RuntimeError
  | TimeoutError
  | IntegrityError.

Inductive result (A : Type) :=
  | Ok (a : A)
  | Raise (e : exn).
Global Arguments Ok {A} a.
Global Arguments Raise {A} e.

Definition bind {A B} (r : result A) (k : A -> result B) : result B :=
  match r with
  | Ok a => k a
  | Raise e => Raise e
  end.

(** [isinstance(e, ValueError)] *)
Definition is_ValueError (e : exn) : bool :=
  match e with
  | ValueError | UnicodeEncodeError => true
  | _ => false
  end.

(** [len(s)] as a Python int *)
Definition len {A} (s : list A) : Z := Z.of_nat (length s).

(** [s[:n]], with Python's reading of a negative bound *)
Definition slice_to {A} (s : list A) (n : Z) : list A :=
  if (0 <=? n)%Z then take (Z.to_nat n) s
  else take (Z.to_nat (len s + n)) s.

(** [sep.join(parts)] *)
Fixpoint join {A} (sep : list A) (parts : list (list A)) : list A :=
  match parts with
  | [] => []
  | [p] => p
  | p :: rest => p ++ sep ++ join sep rest
  end.

(** [str.isspace] of one character: the interpreter's whitespace table
    ([_PyUnicode_IsWhitespace]). *)
Definition isspace (c : char) : bool :=
  ((0x09 <=? c) && (c <=? 0x0D)) || ((0x1C <=? c) && (c <=? 0x20))
  || (c =? 0x85) || (c =? 0xA0) || (c =? 0x1680)
  || ((0x2000 <=? c) && (c <=? 0x200A))
  || (c =? 0x2028) || (c =? 0x2029) || (c =? 0x202F) || (c =? 0x205F)
  || (c =? 0x3000).

Fixpoint lstrip (s : str) : str :=
  match s with
  | [] => []
  | c :: s' => if isspace c then lstrip s' else s
  end.

Definition rstrip (s : str) : str := reverse (lstrip (reverse s)).

(** [s.strip()] *)
Definition strip (s : str) : str := rstrip (lstrip s).

(** [s.split()]: the maximal runs of non-whitespace characters.
    [cur] is the run being read, in reverse. *)
Fixpoint split_aux (cur : str) (s : str) : list str :=
  match s with
  | [] => match cur with [] => [] | _ => [reverse cur] end
  | c :: s' =>
      if isspace c then
        match cur with
        | [] => split_aux [] s'
        | _ => reverse cur :: split_aux [] s'
        end
      else split_aux (c :: cur) s'
  end.

Definition split (s : str) : list str := split_aux [] s.

(** [needle in hay] *)
Fixpoint is_prefix (p s : str) : bool :=
  match p, s with
  | [], _ => true
  | _ :: _, [] => false
  | a :: p', b :: s' => (a =? b) && is_prefix p' s'
  end.

Fixpoint contains (needle hay : str) : bool :=
  is_prefix needle hay ||
  match hay with
  | [] => false
  | _ :: hay' => contains needle hay'
  end.

(** [s.encode()]: UTF-8; a lone surrogate is refused. *)
Definition encode_char (c : char) : result bytes :=
  if c <? 0x80 then Ok [c]
  else if c <? 0x800 then
    Ok [N.lor 0xC0 (N.shiftr c 6); N.lor 0x80 (N.land c 0x3F)]
  else if c <? 0x10000 then
    if (0xD800 <=? c) && (c <=? 0xDFFF) then Raise UnicodeEncodeError
    else Ok [N.lor 0xE0 (N.shiftr c 12);
             N.lor 0x80 (N.land (N.shiftr c 6) 0x3F);
             N.lor 0x80 (N.land c 0x3F)]
  else
    Ok [N.lor 0xF0 (N.shiftr c 18);
        N.lor 0x80 (N.land (N.shiftr c 12) 0x3F);
        N.lor 0x80 (N.land (N.shiftr c 6) 0x3F);
        N.lor 0x80 (N.land c 0x3F)].

Fixpoint encode (s : str) : result bytes :=
  match s with
  | [] => Ok []
  | c :: s' =>
      bind (encode_char c) (fun b =>
      bind (encode s') (fun bs => Ok (b ++ bs)))
  end.

(** The strings [encode] accepts. *)
Definition is_surrogate (c : char) : bool := (0xD800 <=? c) && (c <=? 0xDFFF).
Definition encodable (s : str) : Prop := Forall (fun c => is_surrogate c = false) s.

(** [a == b] on two [str] *)
Fixpoint str_eqb (a b : str) : bool :=
  match a, b with
  | [], [] => true
  | x :: a', y :: b' => (x =? y) && str_eqb a' b'
  | _, _ => false
  end.

(** Comparison of two [str]: by code point, a proper prefix first. *)
Fixpoint str_leb (a b : str) : bool :=
  match a, b with
  | [], _ => true
  | _ :: _, [] => false
  | x :: a', y :: b' => (x <? y) || ((x =? y) && str_leb a' b')
  end.

Definition str_le (a b : str) : Prop := str_leb a b = true.

(** [datetime.date]; [str(d)] is the ISO form, years 1 to 9999. *)
Record date := Date { year : N; month : N; day : N }.

(** The last [w] decimal digits of [n], zero-padded. *)
Fixpoint dec_fixed (w : nat) (n : N) : str :=
  match w with
  | O => []
  | S w' => dec_fixed w' (n / 10) ++ [48 + n mod 10]
  end.

(** The ranges every [datetime.date] respects. *)
Definition date_wf (d : date) : Prop :=
  1 <= year d <= 9999 /\ 1 <= month d <= 12 /\ 1 <= day d <= 31.

Definition date_str (d : date) : str :=
  dec_fixed 4 (year d) ++ lit "-" ++ dec_fixed 2 (month d) ++ lit "-"
  ++ dec_fixed 2 (day d).

End Py.

(** ** hashlib: MD5 and SHA-256 on byte strings *)

Module Hashlib.
Import Py.

Definition w32 (x : N) : N := N.land x 0xFFFFFFFF.
Definition add32 (x y : N) : N := w32 (x + y).
Definition not32 (x : N) : N := N.lxor (w32 x) 0xFFFFFFFF.
Definition rotl32 (x c : N) : N :=
  w32 (N.lor (N.shiftl x c) (N.shiftr (w32 x) (32 - c))).
Definition rotr32 (x c : N) : N := rotl32 x (32 - c).

Fixpoint chunks_aux {A} (fuel n : nat) (l : list A) : list (list A) :=
  match fuel with
  | O => []
  | S f =>
      match l with
      | [] => []
      | _ => take n l :: chunks_aux f n (drop n l)
      end
  end.
Definition chunks {A} (n : nat) (l : list A) : list (list A) :=
  chunks_aux (length l) n l.

(** little- and big-endian bytes of a number *)
Fixpoint le_bytes (n : nat) (x : N) : bytes :=
  match n with
  | O => []
  | S n' => N.land x 0xFF :: le_bytes n' (N.shiftr x 8)
  end.
Definition be_bytes (n : nat) (x : N) : bytes := reverse (le_bytes n x).

Definition le_word (b : bytes) : N :=
  foldr (fun x acc => N.lor (N.land x 0xFF) (N.shiftl acc 8)) 0 b.
Definition be_word (b : bytes) : N := le_word (reverse b).

Definition pad_zeros (msg : bytes) : bytes :=
  replicate (N.to_nat ((119 - N.of_nat (length msg) mod 64) mod 64)) 0.
Definition bit_length (msg : bytes) : N :=
  N.land (8 * N.of_nat (length msg)) 0xFFFFFFFFFFFFFFFF.

Definition word_at (m : list N) (i : N) : N := nth (N.to_nat i) m 0.

(** *** MD5 (RFC 1321) *)

Definition md5_K : list N :=
  [3614090360; 3905402710; 606105819; 3250441966; 4118548399; 1200080426;
   2821735955; 4249261313; 1770035416; 2336552879; 4294925233; 2304563134;
   1804603682; 4254626195; 2792965006; 1236535329; 4129170786; 3225465664;
   643717713; 3921069994; 3593408605; 38016083; 3634488961; 3889429448;
   568446438; 3275163606; 4107603335; 1163531501; 2850285829; 4243563512;
   1735328473; 2368359562; 4294588738; 2272392833; 1839030562; 4259657740;
   2763975236; 1272893353; 4139469664; 3200236656; 681279174; 3936430074;
   3572445317; 76029189; 3654602809; 3873151461; 530742520; 3299628645;
   4096336452; 1126891415; 2878612391; 4237533241; 1700485571; 2399980690;
   4293915773; 2240044497; 1873313359; 4264355552; 2734768916; 1309151649;
   4149444226; 3174756917; 718787259; 3951481745].

Definition md5_S : list N :=
  [7; 12; 17; 22; 7; 12; 17; 22; 7; 12; 17; 22; 7; 12; 17; 22;
   5; 9; 14; 20; 5; 9; 14; 20; 5; 9; 14; 20; 5; 9; 14; 20;
   4; 11; 16; 23; 4; 11; 16; 23; 4; 11; 16; 23; 4; 11; 16; 23;
   6; 10; 15; 21; 6; 10; 15; 21; 6; 10; 15; 21; 6; 10; 15; 21].

Definition md5_state : Type := N * N * N * N.

Definition md5_init : md5_state :=
  (0x67452301, 0xefcdab89, 0x98badcfe, 0x10325476).

Definition md5_step (m : list N) (st : md5_state) (i : N) : md5_state :=
  let '(a, b, c, d) := st in
  let '(f, g) :=
    if i <? 16 then (N.lor (N.land b c) (N.land (not32 b) d), i)
    else if i <? 32 then
      (N.lor (N.land d b) (N.land (not32 d) c), (5 * i + 1) mod 16)
    else if i <? 48 then (N.lxor b (N.lxor c d), (3 * i + 5) mod 16)
    else (N.lxor c (N.lor b (not32 d)), (7 * i) mod 16) in
  let f' := add32 (add32 (add32 f a) (word_at md5_K i)) (word_at m g) in
  (d, add32 b (rotl32 f' (word_at md5_S i)), b, c).

Definition md5_block (st : md5_state) (block : bytes) : md5_state :=
  let m := le_word <$> chunks 4 block in
  let '(a, b, c, d) := st in
  let '(a', b', c', d') := foldl (md5_step m) st (N.of_nat <$> seq 0 64) in
  (add32 a a', add32 b b', add32 c c', add32 d d').

Definition md5_pad (msg : bytes) : bytes :=
  msg ++ [0x80] ++ pad_zeros msg ++ le_bytes 8 (bit_length msg).

(** [hashlib.md5(msg).digest()] *)
Definition md5 (msg : bytes) : bytes :=
  let '(a, b, c, d) := foldl md5_block md5_init (chunks 64 (md5_pad msg)) in
  le_bytes 4 a ++ le_bytes 4 b ++ le_bytes 4 c ++ le_bytes 4 d.

(** *** SHA-256 (FIPS 180-4) *)

Definition sha256_K : list N :=
  [1116352408; 1899447441; 3049323471; 3921009573; 961987163; 1508970993;
   2453635748; 2870763221; 3624381080; 310598401; 607225278; 1426881987;
   1925078388; 2162078206; 2614888103; 3248222580; 3835390401; 4022224774;
   264347078; 604807628; 770255983; 1249150122; 1555081692; 1996064986;
   2554220882; 2821834349; 2952996808; 3210313671; 3336571891; 3584528711;
   113926993; 338241895; 666307205; 773529912; 1294757372; 1396182291;
   1695183700; 1986661051; 2177026350; 2456956037; 2730485921; 2820302411;
   3259730800; 3345764771; 3516065817; 3600352804; 4094571909; 275423344;
   430227734; 506948616; 659060556; 883997877; 958139571; 1322822218;
   1537002063; 1747873779; 1955562222; 2024104815; 2227730452; 2361852424;
   2428436474; 2756734187; 3204031479; 3329325298].

Definition sha256_init : list N :=
  [1779033703; 3144134277; 1013904242; 2773480762; 1359893119; 2600822924;
   528734635; 1541459225].

Definition sha256_extend (w : list N) (i : N) : list N :=
  let w15 := word_at w (i - 15) in
  let w2 := word_at w (i - 2) in
  let s0 := N.lxor (rotr32 w15 7) (N.lxor (rotr32 w15 18) (N.shiftr w15 3)) in
  let s1 := N.lxor (rotr32 w2 17) (N.lxor (rotr32 w2 19) (N.shiftr w2 10)) in
  w ++ [add32 (add32 (add32 (word_at w (i - 16)) s0) (word_at w (i - 7))) s1].

Definition sha256_round (w : list N) (st : list N) (i : N) : list N :=
  match st with
  | [a; b; c; d; e; f; g; h] =>
      let s1 := N.lxor (rotr32 e 6) (N.lxor (rotr32 e 11) (rotr32 e 25)) in
      let ch := N.lxor (N.land e f) (N.land (not32 e) g) in
      let t1 :=
        add32 (add32 (add32 (add32 h s1) ch) (word_at sha256_K i))
              (word_at w i) in
      let s0 := N.lxor (rotr32 a 2) (N.lxor (rotr32 a 13) (rotr32 a 22)) in
      let maj := N.lxor (N.land a b) (N.lxor (N.land a c) (N.land b c)) in
      let t2 := add32 s0 maj in
      [add32 t1 t2; a; b; c; add32 d t1; e; f; g]
  | _ => st
  end.

Definition sha256_block (st : list N) (block : bytes) : list N :=
  let w16 := be_word <$> chunks 4 block in
  let w := foldl sha256_extend w16 (N.of_nat <$> seq 16 48) in
  let st' := foldl (sha256_round w) st (N.of_nat <$> seq 0 64) in
  zip_with add32 st st'.

Definition sha256_pad (msg : bytes) : bytes :=
  msg ++ [0x80] ++ pad_zeros msg ++ be_bytes 8 (bit_length msg).

(** [hashlib.sha256(msg).digest()] *)
Definition sha256 (msg : bytes) : bytes :=
  foldl sha256_block sha256_init (chunks 64 (sha256_pad msg))
    ≫= be_bytes 4.

(** [.hexdigest()] *)
Definition hex_digit (n : N) : char :=
  let n := N.land n 0xF in
  if n <? 10 then 48 + n else 87 + n.

Definition hex_byte (b : N) : str := [hex_digit (N.shiftr b 4); hex_digit b].

Definition hexdigest (digest : bytes) : str := digest ≫= hex_byte.

Definition is_hex_digit (c : char) : bool :=
  ((48 <=? c) && (c <=? 57)) || ((97 <=? c) && (c <=? 102)).

End Hashlib.

(** ** analysis_utils.py: the quality gate, text cleaning, extraction *)

Module AnalysisUtils.
Import Py.

Definition is_empty {A} (s : list A) : bool :=
  match s with [] => true | _ => false end.

(** [a < b] on exact quotients *)
Definition Qltb (a b : Q) : bool := negb (Qle_bool b a).

Section Gate.

(** [str.isalnum] of one character and [str.lower], from the interpreter's
    Unicode database. *)
Variable isalnum : char -> bool.
Variable lower : str -> str.

(** [len(clean) / total if total > 0 else 0].  The quotient is kept exact:
    Python's float quotient of two lengths compares with 0.4 as the exact
    one does for every length a string can have. *)
Definition clean_ratio (text : str) : Q :=
  let total := len text in
  let clean := List.filter (fun ch => isalnum ch || isspace ch) text in
  if (0 <? total)%Z then Qmake (len clean) (Z.to_pos total) else 0%Q.

Definition needs_ocr (extracted_text : str) : bool :=
  if is_empty extracted_text then true
  else
    let text := strip extracted_text in
    if (len text <? 200)%Z then true
    else if Qltb (clean_ratio text) (4 # 10) then true
    else if contains (lit "camscanner") (lower text) && (len text <? 1000)%Z
         then true
    else false.

(** What [extract_pdf_text] reads from outside the program. *)
Inductive page :=
  | PageText (t : option str)   (* page.extract_text() returned t *)
  | PageError (e : exn).        (* page.extract_text() raised *)

Record Env := {
  path_exists : str -> bool;                 (* os.path.exists *)
  pdf_reader : str -> result (list page);    (* PdfReader(path).pages *)
  gemini_model : bool;                       (* the model was initialised *)
  gemini_text : str -> result (option str);  (* response.text for the file *)
}.

(** [text or ""] *)
Definition or_empty (t : option str) : str := default [] t.

(** [s or None] *)
Definition or_None (s : str) : option str :=
  if is_empty s then None else Some s.

Definition extract_pdf_text_with_gemini
    (env : Env) (file_path : option str) (max_chars : Z) : option str :=
  if negb (gemini_model env) then None
  else
    match file_path with
    | None => None
    | Some p =>
        if is_empty p || negb (path_exists env p) then None
        else
          match gemini_text env p with
          | Raise _ => None
          | Ok response_text =>
              let text := strip (or_empty response_text) in
              if is_empty text then None
              else
                Some (if (len text >? max_chars)%Z then slice_to text max_chars
                      else text)
          end
    end.

(** The page loop: stop once the accumulated length reaches [max_chars]. *)
Fixpoint read_pages (pages : list page) (text_chunks : list str)
    (max_chars : Z) : result (list str) :=
  match pages with
  | [] => Ok text_chunks
  | PageError e :: _ => Raise e
  | PageText t :: rest =>
      let text_chunks := text_chunks ++ [or_empty t] in
      if (foldr Z.add 0 (len <$> text_chunks) >=? max_chars)%Z
      then Ok text_chunks
      else read_pages rest text_chunks max_chars
  end.

(** The [try] block of [extract_pdf_text]: the text PyPDF gives, [""] when
    anything in it raised. *)
Definition pypdf_text (env : Env) (p : str) (max_chars : Z) : str :=
  match bind (pdf_reader env p) (fun pages => read_pages pages [] max_chars) with
  | Raise _ => []
  | Ok text_chunks =>
      let full_text := join (lit (String "010" (String "010" EmptyString))) text_chunks in
      if (len full_text >? max_chars)%Z then slice_to full_text max_chars
      else full_text
  end.

Definition extract_pdf_text
    (env : Env) (file_path : option str) (max_chars : Z) (use_ocr : bool)
    : option str :=
  match file_path with
  | None => None
  | Some p =>
      if is_empty p || negb (path_exists env p) then None
      else
        let full_text := pypdf_text env p max_chars in
        if negb (is_empty full_text) && negb (needs_ocr full_text)
        then Some (strip full_text)
        else if negb use_ocr then or_None (strip full_text)
        else
          match extract_pdf_text_with_gemini env file_path max_chars with
          | Some ocr_text =>
              if negb (is_empty ocr_text) then Some ocr_text
              else or_None full_text
          | None => or_None full_text
          end
  end.

End Gate.

(** The replacement of control characters in [clean_for_bedrock]. *)
Definition clean_char (ch : char) : char :=
  if (ch =? 10) || (ch =? 9) then ch
  else if (ch <? 32) || (ch =? 127) then 32
  else ch.

Definition clean_for_bedrock (text : str) (max_chars : Z) : str :=
  if is_empty text then []
  else
    let cleaned := clean_char <$> text in
    let cleaned := join (lit " ") (split cleaned) in
    let cleaned :=
      if (len cleaned >? max_chars)%Z then slice_to cleaned max_chars
      else cleaned in
    strip cleaned.

(** A character that may stand in a word of the cleaned text: not white
    space, not a control character. *)
Definition word_char (c : char) : Prop :=
  isspace c = false /\ 32 <= c /\ c <> 127.

(** The classification of ASCII text, where [str.isalnum] and [str.lower]
    need no table. *)
Definition ascii_isalnum (c : char) : bool :=
  ((48 <=? c) && (c <=? 57)) || ((65 <=? c) && (c <=? 90))
  || ((97 <=? c) && (c <=? 122)).
Definition ascii_lower (s : str) : str :=
  (fun c => if (65 <=? c) && (c <=? 90) then c + 32 else c) <$> s.

End AnalysisUtils.

(** ** models.py: the tables, and the database they live in *)

Module Models.
Import Py.

(** A naive UTC instant. *)
Definition datetime := Z.

Module PageHash.
Record t := {
  id : Z;
  page_url : str;          (* unique *)
  content_hash : str;
  last_checked : datetime;
}.
End PageHash.

Module RegulationAnalysis.
Record t := {
  id : Z;
  regulation_id : Z;       (* foreign key: regulations.id *)
  model_id : str;
  created_at : datetime;
  summary : str;
  raw_response : option str;
}.
End RegulationAnalysis.

Module Regulation.
Record t := {
  id : Z;
  regulation_id : str;     (* unique: the canonical id *)
  source : str;
  page_url : str;
  document_url : option str;
  reference_number : str;
  title : str;
  issue_date : option date;
  effective_date : option date;
  category : option str;
  document_type : option str;
  domain : option str;
  content_hash : option str;
  file_path : option str;
  status : option str;
  discovered_at : datetime;
  last_checked : option datetime;
}.

Definition set_id (r : t) (i : Z) : t :=
  {| id := i; regulation_id := regulation_id r; source := source r;
     page_url := page_url r; document_url := document_url r;
     reference_number := reference_number r; title := title r;
     issue_date := issue_date r; effective_date := effective_date r;
     category := category r; document_type := document_type r;
     domain := domain r; content_hash := content_hash r;
     file_path := file_path r; status := status r;
     discovered_at := discovered_at r; last_checked := last_checked r |}.

Definition set_status (r : t) (st : option str) : t :=
  {| id := id r; regulation_id := regulation_id r; source := source r;
     page_url := page_url r; document_url := document_url r;
     reference_number := reference_number r; title := title r;
     issue_date := issue_date r; effective_date := effective_date r;
     category := category r; document_type := document_type r;
     domain := domain r; content_hash := content_hash r;
     file_path := file_path r; status := st;
     discovered_at := discovered_at r; last_checked := last_checked r |}.
End Regulation.

Module ScrapeLog.
Record t := {
  id : Z;
  started_at : datetime;
  completed_at : option datetime;
  status : option str;             (* running, success, failed *)
  regulations_found : Z;
  new_downloads : Z;
  error_message : option str;
}.
End ScrapeLog.

Record DB := {
  regulations : list Regulation.t;
  regulation_analyses : list RegulationAnalysis.t;
  page_hashes : list PageHash.t;
  scrape_logs : list ScrapeLog.t;
}.

Definition set_regulations (d : DB) (rs : list Regulation.t) : DB :=
  {| regulations := rs; regulation_analyses := regulation_analyses d;
     page_hashes := page_hashes d; scrape_logs := scrape_logs d |}.
Definition set_regulation_analyses (d : DB) (xs : list RegulationAnalysis.t) : DB :=
  {| regulations := regulations d; regulation_analyses := xs;
     page_hashes := page_hashes d; scrape_logs := scrape_logs d |}.
Definition set_page_hashes (d : DB) (hs : list PageHash.t) : DB :=
  {| regulations := regulations d; regulation_analyses := regulation_analyses d;
     page_hashes := hs; scrape_logs := scrape_logs d |}.
Definition set_scrape_logs (d : DB) (ls : list ScrapeLog.t) : DB :=
  {| regulations := regulations d; regulation_analyses := regulation_analyses d;
     page_hashes := page_hashes d; scrape_logs := ls |}.

(** What the program acts on: the committed database, the states committed
    before it (latest first), the files on disk, and the clock. *)
Record World := {
  db : DB;
  commits : list DB;
  files : list (str * bytes);
  utcnow : datetime;
}.

(** [db.session.commit()] of the pending state *)
Definition commit (w : World) (pending : DB) : World :=
  {| db := pending; commits := db w :: commits w;
     files := files w; utcnow := utcnow w |}.

(** What other writers committed in the meantime. *)
Definition interfere (w : World) (concurrent : DB -> DB) : World :=
  {| db := concurrent (db w); commits := commits w;
     files := files w; utcnow := utcnow w |}.

(** [open(path, 'wb').write(content)]: the file is created or replaced. *)
Definition write_file (w : World) (path : str) (content : bytes) : World :=
  {| db := db w; commits := commits w;
     files := (path, content)
              :: List.filter (fun f => negb (str_eqb (fst f) path)) (files w);
     utcnow := utcnow w |}.

(** The next value of an integer primary key. *)
Definition next_id (ids : list Z) : Z := (1 + foldr Z.max 0 ids)%Z.

(** [Regulation.query.filter_by(regulation_id=...).first()] *)
Definition find_regulation (d : DB) (regulation_id : str) : option Regulation.t :=
  List.find (fun r => str_eqb (Regulation.regulation_id r) regulation_id)
            (regulations d).

(** INSERT of a regulation: the unique constraint on [regulation_id] is
    checked when the session is flushed. *)
Definition add_regulation (d : DB) (r : Regulation.t) : result DB :=
  match find_regulation d (Regulation.regulation_id r) with
  | Some _ => Raise IntegrityError
  | None =>
      Ok (set_regulations d
            (regulations d
             ++ [Regulation.set_id r (next_id (Regulation.id <$> regulations d))]))
  end.

(** UPDATE of the row with the primary key of [r] *)
Definition update_regulation (d : DB) (r : Regulation.t) : DB :=
  set_regulations d
    ((fun r' => if (Regulation.id r' =? Regulation.id r)%Z then r else r')
     <$> regulations d).

(** No two regulations share a canonical id. *)
Definition unique_ids (d : DB) : Prop :=
  NoDup (Regulation.regulation_id <$> regulations d).

(** Every analysis belongs to a stored regulation. *)
Definition fk_ok (d : DB) : Prop :=
  forall a, a ∈ regulation_analyses d ->
    exists r, r ∈ regulations d /\ Regulation.id r = RegulationAnalysis.regulation_id a.

(** ORDER BY of a query: [before y x] says that [y] stays ahead of [x];
    rows that compare equal keep the order of the table. *)
Fixpoint insert_by {A} (before : A -> A -> bool) (x : A) (l : list A) : list A :=
  match l with
  | [] => [x]
  | y :: l' => if before y x then y :: insert_by before x l' else x :: l
  end.
Definition order_by {A} (before : A -> A -> bool) (l : list A) : list A :=
  foldl (fun acc x => insert_by before x acc) [] l.

(** LIMIT: a negative limit is no limit. *)
Definition limit {A} (n : Z) (l : list A) : list A :=
  if (n <? 0)%Z then l else take (Z.to_nat n) l.

Definition date_ltb (a b : date) : bool :=
  (year a <? year b)
  || ((year a =? year b)
      && ((month a <? month b) || ((month a =? month b) && (day a <? day b)))).
Definition date_eqb (a b : date) : bool :=
  (year a =? year b) && (month a =? month b) && (day a =? day b).

(** Comparison of a nullable date column: NULL sorts below every date. *)
Definition opt_date_ltb (a b : option date) : bool :=
  match a, b with
  | None, Some _ => true
  | Some x, Some y => date_ltb x y
  | _, None => false
  end.
Definition opt_date_eqb (a b : option date) : bool :=
  match a, b with
  | None, None => true
  | Some x, Some y => date_eqb x y
  | _, _ => false
  end.

End Models.

(** ** datetime.strptime on ASCII text

    The parser [parse_date] calls belongs to the interpreter, and its digit
    and month-name tables depend on the Unicode database and the locale; in
    the model it is a section variable.  [Strptime.strptime] is the parser
    for ASCII text in the C locale, for the directives the repository uses
    (%d %m %Y %B %b, literals, white space): it is the instance the
    properties are tried on. *)

Module Strptime.
Import Py.

Inductive item :=
  | Day | Month | Year | MonthName | MonthAbbr
  | Space                 (* a run of white space in the format: \s+ *)
  | Lit (c : char).

(** [in_space]: the character before was white space of the same run. *)
Fixpoint compile_aux (in_space : bool) (fmt : str) : list item :=
  match fmt with
  | [] => []
  | c :: rest =>
      if c =? 37 (* % *) then
        match rest with
        | d :: rest' =>
            (if d =? 100 then Day
             else if d =? 109 then Month
             else if d =? 89 then Year
             else if d =? 66 then MonthName
             else if d =? 98 then MonthAbbr
             else Lit d) :: compile_aux false rest'
        | [] => [Lit c]
        end
      else if isspace c then
        if in_space then compile_aux true rest
        else Space :: compile_aux true rest
      else Lit c :: compile_aux false rest
  end.

Definition compile (fmt : str) : list item := compile_aux false fmt.

Definition is_digit (c : char) : bool := (48 <=? c) && (c <=? 57).
Definition digit (c : char) : N := c - 48.
Definition fold_case (c : char) : char :=
  if (65 <=? c) && (c <=? 90) then c + 32 else c.

Definition month_names : list string :=
  ["january"; "february"; "march"; "april"; "may"; "june"; "july"; "august";
   "september"; "october"; "november"; "december"]%string.

(** The month whose name (cut to [n] letters when [n] is given) starts [s],
    case-insensitively, and what follows it. *)
Fixpoint month_lookup (cut : option nat) (names : list string) (k : N) (s : str)
    : option (N * str) :=
  match names with
  | [] => None
  | name :: rest =>
      let name := match cut with Some n => take n (lit name) | None => lit name end in
      if is_prefix name (fold_case <$> take (length name) s)
      then Some (k, drop (length name) s)
      else month_lookup cut rest (k + 1) s
  end.

(** %d: 3[0-1] | [1-2]\d | 0[1-9] | [1-9] | " "[1-9], in that order *)
Definition match_day (s : str) : option (N * str) :=
  match s with
  | a :: b :: rest =>
      if (a =? 51) && ((b =? 48) || (b =? 49)) then Some (30 + digit b, rest)
      else if ((a =? 49) || (a =? 50)) && is_digit b
           then Some (10 * digit a + digit b, rest)
      else if (a =? 48) && is_digit b && negb (b =? 48) then Some (digit b, rest)
      else if is_digit a && negb (a =? 48) then Some (digit a, b :: rest)
      else if (a =? 32) && is_digit b && negb (b =? 48) then Some (digit b, rest)
      else None
  | [a] => if is_digit a && negb (a =? 48) then Some (digit a, []) else None
  | [] => None
  end.

(** %m: 1[0-2] | 0[1-9] | [1-9] *)
Definition match_month (s : str) : option (N * str) :=
  match s with
  | a :: b :: rest =>
      if (a =? 49) && ((48 <=? b) && (b <=? 50)) then Some (10 + digit b, rest)
      else if (a =? 48) && is_digit b && negb (b =? 48) then Some (digit b, rest)
      else if is_digit a && negb (a =? 48) then Some (digit a, b :: rest)
      else None
  | [a] => if is_digit a && negb (a =? 48) then Some (digit a, []) else None
  | [] => None
  end.

(** %Y: \d\d\d\d *)
Definition match_year (s : str) : option (N * str) :=
  match s with
  | a :: b :: c :: d :: rest =>
      if is_digit a && is_digit b && is_digit c && is_digit d
      then Some (1000 * digit a + 100 * digit b + 10 * digit c + digit d, rest)
      else None
  | _ => None
  end.

(** The fields found so far; a field the format lacks keeps 1900-01-01. *)
Fixpoint match_items (fmt : list item) (s : str) (y m d : N) : option date :=
  match fmt with
  | [] => match s with [] => Some (Date y m d) | _ => None end
  | Day :: fmt' =>
      match match_day s with
      | Some (v, s') => match_items fmt' s' y m v
      | None => None
      end
  | Month :: fmt' =>
      match match_month s with
      | Some (v, s') => match_items fmt' s' y v d
      | None => None
      end
  | Year :: fmt' =>
      match match_year s with
      | Some (v, s') => match_items fmt' s' v m d
      | None => None
      end
  | MonthName :: fmt' =>
      match month_lookup None month_names 1 s with
      | Some (v, s') => match_items fmt' s' y v d
      | None => None
      end
  | MonthAbbr :: fmt' =>
      match month_lookup (Some 3%nat) month_names 1 s with
      | Some (v, s') => match_items fmt' s' y v d
      | None => None
      end
  | Space :: fmt' =>
      match s with
      | c :: s' => if isspace c then match_items fmt' (lstrip s') y m d else None
      | [] => None
      end
  | Lit c :: fmt' =>
      match s with
      | c' :: s' => if fold_case c =? fold_case c' then match_items fmt' s' y m d else None
      | [] => None
      end
  end.

Definition is_leap (y : N) : bool :=
  ((y mod 4 =? 0) && negb (y mod 100 =? 0)) || (y mod 400 =? 0).

Definition days_in_month (y m : N) : N :=
  if m =? 2 then (if is_leap y then 29 else 28)
  else if (m =? 4) || (m =? 6) || (m =? 9) || (m =? 11) then 30
  else 31.

(** [datetime.strptime(s, fmt).date()] *)
Definition strptime (s fmt : str) : result date :=
  match match_items (compile fmt) s 1900 1 1 with
  | None => Raise ValueError                 (* no match, or data remains *)
  | Some dt =>
      if (1 <=? year dt) && (1 <=? day dt) && (day dt <=? days_in_month (year dt) (month dt))
      then Ok dt
      else Raise ValueError                  (* day is out of range for month *)
  end.

(** [int(digits)] for ASCII digits; the interpreter refuses more than 4300
    digits. *)
Definition ascii_int (digits : str) : result Z :=
  if forallb is_digit digits && negb (Nat.ltb 4300 (length digits))
     && negb (match digits with [] => true | _ => false end)
  then Ok (Z.of_N (foldl (fun acc c => 10 * acc + digit c) 0 digits))
  else Raise ValueError.

(** [datetime.fromtimestamp(ms / 1000.0).date()] when the local time zone is
    UTC: the civil date of the day that holds the instant. *)
Definition utc_fromtimestamp (ms : Z) : result date :=
  let days := (ms / 86400000)%Z in
  let z := (days + 719468)%Z in
  let era := (z / 146097)%Z in
  let doe := (z - era * 146097)%Z in
  let yoe := ((doe - doe / 1460 + doe / 36524 - doe / 146096) / 365)%Z in
  let doy := (doe - (365 * yoe + yoe / 4 - yoe / 100))%Z in
  let mp := ((5 * doy + 2) / 153)%Z in
  let d := (doy - (153 * mp + 2) / 5 + 1)%Z in
  let m := (if mp <? 10 then mp + 3 else mp - 9)%Z in
  let y := (yoe + era * 400 + (if m <=? 2 then 1 else 0))%Z in
  if ((1 <=? y) && (y <=? 9999))%Z
  then Ok (Date (Z.to_N y) (Z.to_N m) (Z.to_N d))
  else Raise ValueError.        (* year is out of range *)

End Strptime.

(** ** spiders.py: identity, date parsing, change detection *)

Module Spiders.
Import Py Hashlib AnalysisUtils.

(** The spider instance, as far as the methods below read it. *)
Record BaseSpider := {
  flask_app : bool;    (* flask_app is set *)
  test_mode : bool;
}.

(** What a caller passes as [date]: nothing, a text, or a [datetime.date]. *)
Inductive date_arg :=
  | NoDate
  | DateText (s : str)
  | DateValue (d : date).

(** [if date:] *)
Definition date_truthy (d : date_arg) : bool :=
  match d with
  | NoDate => false
  | DateText s => negb (is_empty s)
  | DateValue _ => true
  end.

(** [f"{date}"] *)
Definition date_format (d : date_arg) : str :=
  match d with
  | NoDate => lit "None"
  | DateText s => s
  | DateValue d => date_str d
  end.

(** A date argument as the crawlers pass it: a calendar date or nothing. *)
Definition date_arg_wf (d : date_arg) : Prop :=
  match d with
  | NoDate => True
  | DateValue d => date_wf d
  | DateText _ => False
  end.

Definition identifier (source ref_number : str) (date : date_arg) : str :=
  if date_truthy date
  then source ++ lit "_" ++ ref_number ++ lit "_" ++ date_format date
  else source ++ lit "_" ++ ref_number ++ lit "_NODATE".

(** The text put after the second underscore. *)
Definition date_part (d : date_arg) : str :=
  if date_truthy d then date_format d else lit "NODATE".

Definition generate_regulation_id
    (self : BaseSpider) (source ref_number : str) (date : date_arg) : result str :=
  bind (encode (identifier source ref_number date)) (fun b =>
  Ok (hexdigest (md5 b))).

Section ParseDate.

(** \d of [re] on a [str], [int(digits)], and
    [datetime.fromtimestamp(ms / 1000.0).date()] in the local time zone. *)
Variable isdecimal : char -> bool.
Variable py_int : str -> result Z.
Variable fromtimestamp : Z -> result date.
(** [datetime.strptime(s, fmt).date()] *)
Variable strptime : str -> str -> result date.

Fixpoint take_while (f : char -> bool) (s : str) : str :=
  match s with
  | c :: s' => if f c then c :: take_while f s' else []
  | [] => []
  end.

(** [re.match(r'/Date\((\d+)\)/', s)]: group 1 of the match *)
Definition match_Date (s : str) : option str :=
  if is_prefix (lit "/Date(") s then
    let rest := drop 6 s in
    let digits := take_while isdecimal rest in
    if negb (is_empty digits) && is_prefix (lit ")/") (drop (length digits) rest)
    then Some digits
    else None
  else None.

Definition date_formats : list str :=
  lit <$> ["%d-%m-%Y"; "%d/%m/%Y"; "%Y-%m-%d"; "%d.%m.%Y";
           "%B %d, %Y"; "%B %d %Y"; "%d %B %Y"; "%d-%b-%Y";
           "%d %b %Y"; "%b %d %Y"; "%d/%b/%Y"; "%b %d, %Y"]%string.

(** The loop over the formats: [except ValueError: continue]; any other
    exception leaves the loop and the function. *)
Fixpoint try_formats (date_str : str) (fmts : list str) : result (option date) :=
  match fmts with
  | [] => Ok None
  | fmt :: rest =>
      match strptime date_str fmt with
      | Ok d => Ok (Some d)
      | Raise e =>
          if is_ValueError e then try_formats date_str rest else Raise e
      end
  end.

Definition parse_date (self : BaseSpider) (date_str : option str)
    : result (option date) :=
  match date_str with
  | None => Ok None
  | Some date_str =>
      if is_empty date_str then Ok None
      else
        let date_str := strip date_str in
        let from_ms :=
          match match_Date date_str with
          | Some digits =>
              match bind (py_int digits) fromtimestamp with
              | Ok d => Some d
              | Raise _ => None          (* except Exception: pass *)
              end
          | None => None
          end in
        match from_ms with
        | Some d => Ok (Some d)
        | None => try_formats date_str date_formats
        end
  end.

End ParseDate.

(** Python's [sorted] on strings gives the one ordered arrangement. *)
Global Instance str_le_dec : RelDecision str_le :=
  fun a b => decide (str_leb a b = true).

Definition sorted (l : list str) : list str := merge_sort str_le l.

(** The hash object, as the bytes fed to it so far. *)
Fixpoint update_all (m : bytes) (urls : list str) : result bytes :=
  match urls with
  | [] => Ok m
  | url :: rest => bind (encode url) (fun b => update_all (m ++ b) rest)
  end.

Definition hash_urls (urls : list str) : result str :=
  bind (update_all [] (sorted urls)) (fun m => Ok (hexdigest (sha256 m))).

(** *** The store, as the spiders use it *)

Import Models.

(** The [meta] of a download request. *)
Module Meta.
Record t := {
  regulation_id : str;
  source : str;
  page_url : str;
  document_url : str;
  reference_number : str;
  title : str;
  issue_date : option date;
  category : str;
  document_type : str;
}.
End Meta.

Record Request := { url : str; meta : Meta.t }.

Definition regulation_exists (self : BaseSpider) (w : World) (regulation_id : str)
    : result bool :=
  if negb (flask_app self) then Raise RuntimeError
  else Ok (match find_regulation (db w) regulation_id with
           | Some _ => true
           | None => false
           end).

Definition find_page_hash (d : DB) (page_url : str) : option PageHash.t :=
  List.find (fun h => str_eqb (PageHash.page_url h) page_url) (page_hashes d).

Definition get_stored_hash (self : BaseSpider) (w : World) (page_url : str)
    : result (option str) :=
  if negb (flask_app self) then Raise RuntimeError
  else Ok (PageHash.content_hash <$> find_page_hash (db w) page_url).

Definition store_hash (self : BaseSpider) (page_url new_hash : str) (w : World)
    : result unit * World :=
  if negb (flask_app self) then (Raise RuntimeError, w)
  else
    let d := db w in
    match find_page_hash d page_url with
    | Some hash_record =>
        let updated :=
          {| PageHash.id := PageHash.id hash_record;
             PageHash.page_url := PageHash.page_url hash_record;
             PageHash.content_hash := new_hash;
             PageHash.last_checked := utcnow w |} in
        (Ok tt,
         commit w (set_page_hashes d
           ((fun h => if (PageHash.id h =? PageHash.id hash_record)%Z
                      then updated else h) <$> page_hashes d)))
    | None =>
        let hash_record :=
          {| PageHash.id := next_id (PageHash.id <$> page_hashes d);
             PageHash.page_url := page_url;
             PageHash.content_hash := new_hash;
             PageHash.last_checked := utcnow w |} in
        (Ok tt, commit w (set_page_hashes d (page_hashes d ++ [hash_record])))
    end.

(** [stored_hash and stored_hash == current_hash]: the listing is skipped. *)
Definition page_unchanged (stored_hash : option str) (current_hash : str) : bool :=
  match stored_hash with
  | Some h => negb (is_empty h) && str_eqb h current_hash
  | None => false
  end.

(** [f"{issue_date}"] of a nullable date *)
Definition opt_date_format (d : option date) : str :=
  match d with
  | Some d => date_str d
  | None => lit "None"
  end.

Definition opt_date_arg (d : option date) : date_arg :=
  match d with
  | Some d => DateValue d
  | None => NoDate
  end.

(** [s.rstrip("/")] *)
Definition rstrip_slash (s : str) : str :=
  reverse (drop (length (take_while (fun c => c =? 47) (reverse s))) (reverse s)).

Section Crawl.

Variable isalnum : char -> bool.
Variable isdecimal : char -> bool.
Variable py_int : str -> result Z.
Variable fromtimestamp : Z -> result date.
Variable strptime : str -> str -> result date.
(** [generate_fallback_ref]: a reference made from the URL of the document. *)
Variable generate_fallback_ref : str -> str.

(** [re.sub(r'[^\w\-]', '_', s)] *)
Definition safe_ref (s : str) : str :=
  (fun c => if isalnum c || (c =? 95) || (c =? 45) then c else 95) <$> s.

(** [FBRSpider.save_pdf] (spiders.py): write the file, add the row, commit. *)
Definition save_pdf (self : BaseSpider) (meta : Meta.t) (pdf_content : bytes)
    (w : World) : result unit * World :=
  if negb (flask_app self) then (Raise RuntimeError, w)
  else
    let content_hash := hexdigest (sha256 pdf_content) in
    let filename :=
      Meta.source meta ++ lit "_" ++ safe_ref (Meta.reference_number meta)
      ++ lit "_" ++ opt_date_format (Meta.issue_date meta) ++ lit ".pdf" in
    let filepath := lit "./downloads/pdfs/" ++ filename in
    let w := write_file w filepath pdf_content in
    let regulation :=
      {| Regulation.id := 0;
         Regulation.regulation_id := Meta.regulation_id meta;
         Regulation.source := Meta.source meta;
         Regulation.page_url := Meta.page_url meta;
         Regulation.document_url := Some (Meta.document_url meta);
         Regulation.reference_number := Meta.reference_number meta;
         Regulation.title := Meta.title meta;
         Regulation.issue_date := Meta.issue_date meta;
         Regulation.effective_date := None;
         Regulation.category := Some (Meta.category meta);
         Regulation.document_type := Some (Meta.document_type meta);
         Regulation.domain := None;
         Regulation.content_hash := Some content_hash;
         Regulation.file_path := Some filepath;
         Regulation.status := Some (lit "new");
         Regulation.discovered_at := utcnow w;
         Regulation.last_checked := None |} in
    match add_regulation (db w) regulation with
    | Ok pending => (Ok tt, commit w pending)
    | Raise e => (Raise e, w)
    end.

(** A row of the FBR listing, after the adapter picked its fields. *)
Record FbrRow := {
  SRONumber : str;
  Title : str;
  CreationDate : str;
  UploadedFile1 : str;
}.

Record Target := { department : str; target_category : str; doc_type : str }.

(** The body of the loop over the rows in [FBRSpider.parse_api]: the request
    it yields, if any. *)
Definition parse_api_row (self : BaseSpider) (target : Target)
    (six_months_ago : date) (r : FbrRow) (w : World)
    : result (option Request) * World :=
  let ref_number := strip (SRONumber r) in
  let title_text := strip (Title r) in
  let date_str := strip (CreationDate r) in
  let file_field := UploadedFile1 r in
  let ref_number :=
    if is_empty ref_number
    then generate_fallback_ref (if is_empty file_field then title_text else file_field)
    else ref_number in
  match (if is_empty date_str then Ok None
         else parse_date isdecimal py_int fromtimestamp strptime self (Some date_str))
  with
  | Raise e => (Raise e, w)
  | Ok issue_date =>
  match generate_regulation_id self (lit "FBR") ref_number (opt_date_arg issue_date) with
  | Raise e => (Raise e, w)
  | Ok regulation_id =>
  match regulation_exists self w regulation_id with
  | Raise e => (Raise e, w)
  | Ok true => (Ok None, w)                       (* continue *)
  | Ok false =>
      let pdf_url :=
        if is_prefix (lit "http") file_field then file_field
        else rstrip_slash (lit "https://download1.fbr.gov.pk/Docs/" ++ file_field) in
      let is_recent :=
        match issue_date with
        | None => true
        | Some d => negb (date_ltb d six_months_ago)
        end in
      let title :=
        if is_empty title_text then lit "FBR " ++ ref_number
        else take 200 title_text in
      let page_url :=
        lit "https://www.fbr.gov.pk/ShowSROs?Department="
        ++ ((fun c => if c =? 32 then 43 else c) <$> department target) in
      if is_recent && negb (is_empty pdf_url) then
        (Ok (Some {| url := pdf_url;
                     meta := {| Meta.regulation_id := regulation_id;
                                Meta.source := lit "FBR";
                                Meta.page_url := page_url;
                                Meta.document_url := pdf_url;
                                Meta.reference_number := ref_number;
                                Meta.title := title;
                                Meta.issue_date := issue_date;
                                Meta.category := target_category target;
                                Meta.document_type := doc_type target |} |}), w)
      else
        let regulation :=
          {| Regulation.id := 0;
             Regulation.regulation_id := regulation_id;
             Regulation.source := lit "FBR";
             Regulation.page_url := page_url;
             Regulation.document_url := Some pdf_url;
             Regulation.reference_number := ref_number;
             Regulation.title := title;
             Regulation.issue_date := issue_date;
             Regulation.effective_date := None;
             Regulation.category := Some (target_category target);
             Regulation.document_type := Some (doc_type target);
             Regulation.domain := None;
             Regulation.content_hash := None;
             Regulation.file_path := None;
             Regulation.status := Some (lit "tracked_no_pdf");
             Regulation.discovered_at := utcnow w;
             Regulation.last_checked := None |} in
        match add_regulation (db w) regulation with
        | Ok pending => (Ok None, commit w pending)
        | Raise e => (Raise e, w)
        end
  end end end.

(** The loop over the rows: the requests yielded until a row raises. *)
Fixpoint parse_api_rows (self : BaseSpider) (target : Target)
    (six_months_ago : date) (rows : list FbrRow) (w : World)
    : (list Request * result unit) * World :=
  match rows with
  | [] => (([], Ok tt), w)
  | r :: rest =>
      match parse_api_row self target six_months_ago r w with
      | (Raise e, w) => (([], Raise e), w)
      | (Ok req, w) =>
          let '((reqs, res), w) :=
            parse_api_rows self target six_months_ago rest w in
          ((option_list req ++ reqs, res), w)
      end
  end.

(** [FBRSpider.parse_api], from the rows of the decoded answer on. *)
Definition parse_api (self : BaseSpider) (target : Target)
    (six_months_ago : date) (rows : list FbrRow) (w : World)
    : (list Request * result unit) * World :=
  if is_empty rows then (([], Ok tt), w)
  else
    let stable_ids :=
      (fun r => if negb (is_empty (SRONumber r)) then SRONumber r
                else if negb (is_empty (Title r)) then Title r
                else UploadedFile1 r) <$> rows in
    match hash_urls (sorted (List.filter (fun s => negb (is_empty s)) stable_ids)) with
    | Raise e => (([], Raise e), w)
    | Ok current_hash =>
    match get_stored_hash self w (lit "FBR:" ++ department target) with
    | Raise e => (([], Raise e), w)
    | Ok stored_hash =>
        if page_unchanged stored_hash current_hash then (([], Ok tt), w)
        else
          match parse_api_rows self target six_months_ago rows w with
          | ((reqs, Raise e), w) => ((reqs, Raise e), w)
          | ((reqs, Ok _), w) =>
              let '(res, w) :=
                store_hash self (lit "FBR:" ++ department target) current_hash w in
              ((reqs, res), w)
          end
    end end.

End Crawl.

End Spiders.

(** ** The scheduler of Scrapy

    A request built without [dont_filter], as the download requests of
    [parse_api] are, is dropped when a request with the same fingerprint was
    scheduled before it in the crawl.  The fingerprint is taken from the
    method, the canonical URL and the body; the downloads are GET requests
    without a body, and their URLs have no query and no fragment, so that
    the fingerprint is the URL. *)

Module Scrapy.
Import Py Spiders.

Fixpoint schedule (seen : list str) (requests : list Request) : list Request :=
  match requests with
  | [] => []
  | r :: rest =>
      if existsb (str_eqb (url r)) seen then schedule seen rest
      else r :: schedule (url r :: seen) rest
  end.

(** The requests of one crawl that reach the downloader. *)
Definition dupefilter (requests : list Request) : list Request :=
  schedule [] requests.

End Scrapy.

(** ** pc_pwspider.py: the Pakistan Code spider's [save_pdf] *)

Module PakistanCode.
Import Py Hashlib AnalysisUtils Models Spiders.

(** [concurrent] is what other writers commit between the query and the
    commit of this call. *)
Definition save_pdf (self : BaseSpider) (meta : Meta.t) (response_url : str)
    (body : bytes) (concurrent : DB -> DB) (w : World) : result unit * World :=
  let regulation_id := Meta.regulation_id meta in
  let pdf_url :=
    if is_empty (Meta.document_url meta) then response_url
    else Meta.document_url meta in
  let file_path :=
    lit "downloaded_pdfs/pakistancode/" ++ regulation_id ++ lit ".pdf" in
  let w := write_file w file_path body in
  let content_hash := hexdigest (sha256 body) in
  if negb (flask_app self) then (Raise RuntimeError, w)
  else
    let found := find_regulation (db w) regulation_id in
    let fill (reg : Regulation.t) : Regulation.t :=
      {| Regulation.id := Regulation.id reg;
         Regulation.regulation_id := Regulation.regulation_id reg;
         Regulation.source := Regulation.source reg;
         Regulation.page_url := Regulation.page_url reg;
         Regulation.document_url := Some pdf_url;
         Regulation.reference_number := Regulation.reference_number reg;
         Regulation.title := Regulation.title reg;
         Regulation.issue_date := Regulation.issue_date reg;
         Regulation.effective_date := Regulation.effective_date reg;
         Regulation.category := Regulation.category reg;
         Regulation.document_type := Regulation.document_type reg;
         Regulation.domain := Regulation.domain reg;
         Regulation.content_hash := Some content_hash;
         Regulation.file_path := Some file_path;
         Regulation.status := Some (lit "downloaded");
         Regulation.discovered_at := Regulation.discovered_at reg;
         Regulation.last_checked := Some (utcnow w) |} in
    let w := interfere w concurrent in
    match found with
    | Some reg => (Ok tt, commit w (update_regulation (db w) (fill reg)))
    | None =>
        let reg :=
          {| Regulation.id := 0;
             Regulation.regulation_id := regulation_id;
             Regulation.source := Meta.source meta;
             Regulation.page_url := Meta.page_url meta;
             Regulation.document_url := None;
             Regulation.reference_number := Meta.reference_number meta;
             Regulation.title := Meta.title meta;
             Regulation.issue_date := Meta.issue_date meta;
             Regulation.effective_date := None;
             Regulation.category := Some (Meta.category meta);
             Regulation.document_type := Some (Meta.document_type meta);
             Regulation.domain := None;
             Regulation.content_hash := None;
             Regulation.file_path := None;
             Regulation.status := Some (lit "new");
             Regulation.discovered_at := utcnow w;
             Regulation.last_checked := None |} in
        match add_regulation (db w) (fill reg) with
        | Ok pending => (Ok tt, commit w pending)
        | Raise IntegrityError => (Ok tt, w)     (* rollback, and a log line *)
        | Raise e => (Raise e, w)
        end
    end.

(** The gate of [parse_ordinances_list] and [parse_chrono]:
    [(not self.test_mode) and stored_hash and stored_hash == current_hash]. *)
Definition listing_unchanged (self : BaseSpider) (stored_hash : option str)
    (current_hash : str) : bool :=
  negb (test_mode self) && page_unchanged stored_hash current_hash.

(** The key under which the digest of the ordinances listing is kept. *)
Definition ordinances_key : str := lit "PAKCODE:ORDINANCES:PAGE1".

End PakistanCode.

(** ** app.py: the run, and the purge of the test tooling *)

Module App.
Import Py Hashlib AnalysisUtils Models Spiders.

(** The SQL pattern ['FBR:%'] of SQLite's LIKE, which ignores the case of
    ASCII letters. *)
Definition like_FBR (page_url : str) : bool :=
  is_prefix (ascii_lower (lit "FBR:")) (ascii_lower (take 4 page_url)).

(** [Regulation.query.filter(source == s)
      .order_by(issue_date.desc(), discovered_at.desc()).limit(count).all()] *)
Definition latest_of_source (d : DB) (count : Z) (s : str) : list Regulation.t :=
  limit count
    (order_by
       (fun y x =>
          opt_date_ltb (Regulation.issue_date x) (Regulation.issue_date y)
          || (opt_date_eqb (Regulation.issue_date x) (Regulation.issue_date y)
              && (Regulation.discovered_at x <=? Regulation.discovered_at y)%Z))
       (List.filter (fun r => str_eqb (Regulation.source r) s) (regulations d))).

Definition mem_id (i : Z) (ids : list Z) : bool := existsb (Z.eqb i) ids.

(** The three bulk DELETEs of [simulate_new_regulations], on the pending
    state of the session. *)
Definition delete_analyses_in (reg_ids : list Z) (d : DB) : DB :=
  set_regulation_analyses d
    (List.filter (fun a => negb (mem_id (RegulationAnalysis.regulation_id a) reg_ids))
                 (regulation_analyses d)).
Definition delete_regulations_in (reg_ids : list Z) (d : DB) : DB :=
  set_regulations d
    (List.filter (fun r => negb (mem_id (Regulation.id r) reg_ids)) (regulations d)).
Definition delete_page_hashes_like_FBR (d : DB) : DB :=
  set_page_hashes d
    (List.filter (fun h => negb (like_FBR (PageHash.page_url h))) (page_hashes d)).

Definition default_sources : list str := [lit "FBR"; lit "SECP"; lit "PCP"].

Definition simulate_new_regulations (count : Z) (sources : list str) (w : World)
    : list Z * World :=
  let regs := sources ≫= latest_of_source (db w) count in
  if is_empty regs then ([], w)
  else
    let reg_ids := Regulation.id <$> regs in
    let pending := delete_analyses_in reg_ids (db w) in       (* child table *)
    let pending := delete_regulations_in reg_ids pending in   (* parent table *)
    let pending := delete_page_hashes_like_FBR pending in
    (reg_ids, commit w pending).

(** [ScrapeLog(started_at=datetime.utcnow(), status='running')], and the
    world once it is added and committed. *)
Definition new_log (w : World) : ScrapeLog.t :=
  {| ScrapeLog.id := next_id (ScrapeLog.id <$> scrape_logs (db w));
     ScrapeLog.started_at := utcnow w;
     ScrapeLog.completed_at := None;
     ScrapeLog.status := Some (lit "running");
     ScrapeLog.regulations_found := 0;
     ScrapeLog.new_downloads := 0;
     ScrapeLog.error_message := None |}.
Definition log_started (w : World) : World :=
  commit w (set_scrape_logs (db w) (scrape_logs (db w) ++ [new_log w])).

Section Run.

(** [runner.crawl(FBRSpider, ...)], [runner.crawl(SECPSpider, ...)] and
    [runner.crawl(PCPGazetteSpider, ...)]: a whole crawl of one source, which
    may store documents and may fail. *)
Variable crawl_fbr crawl_secp crawl_pcp : World -> result unit * World.

(** The extraction environment, the Unicode tables, the analysis call and
    the alert mail. *)
Variable env : Env.
Variable isalnum : char -> bool.
Variable lower : str -> str.
Variable analyze_with_bedrock :
  str -> Regulation.t -> str -> World -> result (option RegulationAnalysis.t) * World.
Variable send_alert :
  list (Regulation.t * option RegulationAnalysis.t) -> ScrapeLog.t -> result unit.
Variable str_of_exn : exn -> str.

(** The generator [crawl] of [run_spiders]: the crawls one after the other;
    a failure leaves the generator, there is no [try] around a [yield].
    The 300 seconds that [wait_for] allows are real time and outside the
    model. *)
Definition run_spiders (w : World) : result unit * World :=
  match crawl_fbr w with
  | (Raise e, w) => (Raise e, w)
  | (Ok _, w) =>
      match crawl_secp w with
      | (Raise e, w) => (Raise e, w)
      | (Ok _, w) => crawl_pcp w
      end
  end.

Definition count_regulations (w : World) : Z := len (regulations (db w)).

(** The text of a regulation whose file was downloaded:
    [reg.file_path and os.path.exists(reg.file_path)], then
    [extract_pdf_text(reg.file_path)]. *)
Definition reg_text (reg : Regulation.t) : option str :=
  let has_file :=
    match Regulation.file_path reg with
    | Some fp => negb (is_empty fp) && path_exists env fp
    | None => false
    end in
  if has_file
  then extract_pdf_text isalnum lower env (Regulation.file_path reg) 12000 true
  else None.

(** The loop over the new regulations: extraction and analysis of those
    with a file. *)
Fixpoint analyze_new (new_regs : list Regulation.t) (analyzed_count : Z)
    (alerts_payload : list (Regulation.t * option RegulationAnalysis.t))
    (w : World)
    : result (Z * list (Regulation.t * option RegulationAnalysis.t)) * World :=
  match new_regs with
  | [] => (Ok (analyzed_count, alerts_payload), w)
  | reg :: rest =>
      match reg_text reg with
      | Some ((_ :: _) as text) =>
          match analyze_with_bedrock text reg (lit "identify") w with
          | (Raise e, w) => (Raise e, w)
          | (Ok analysis_obj, w) =>
              let analyzed_count :=
                match analysis_obj with
                | Some _ => (analyzed_count + 1)%Z
                | None => analyzed_count
                end in
              match analyze_with_bedrock text reg (lit "classify") w with
              | (Raise e, w) => (Raise e, w)
              | (Ok _, w) =>
                  analyze_new rest analyzed_count
                    (alerts_payload ++ [(reg, analysis_obj)]) w
              end
          end
      | _ => analyze_new rest analyzed_count (alerts_payload ++ [(reg, None)]) w
      end
  end.

Definition update_log (d : DB) (log : ScrapeLog.t) : DB :=
  set_scrape_logs d
    ((fun l => if (ScrapeLog.id l =? ScrapeLog.id log)%Z then log else l)
     <$> scrape_logs d).

Definition scrape_regulations (w : World) : (Z * Z) * World :=
  let log := new_log w in
  let w := log_started w in
  (* try: *)
  let count_before := count_regulations w in
  let '(spider_error, w) := run_spiders w in   (* except Exception: logged *)
  let count_after := count_regulations w in
  let new_downloads := (count_after - count_before)%Z in
  let is_new (r : Regulation.t) :=
    (ScrapeLog.started_at log <=? Regulation.discovered_at r)%Z in
  let marked :=
    (fun r => if is_new r then Regulation.set_status r (Some (lit "new")) else r)
    <$> regulations (db w) in
  let new_regs :=
    order_by (fun y x => (Regulation.discovered_at y <=? Regulation.discovered_at x)%Z)
             (List.filter is_new marked) in
  let w := commit w (set_regulations (db w) marked) in
  match analyze_new new_regs 0 [] w with
  | (Ok (analyzed_count, alerts_payload), w) =>
      let log :=
        {| ScrapeLog.id := ScrapeLog.id log;
           ScrapeLog.started_at := ScrapeLog.started_at log;
           ScrapeLog.completed_at := Some (utcnow w);
           ScrapeLog.status := Some (lit "success");
           ScrapeLog.regulations_found := count_after;
           ScrapeLog.new_downloads := new_downloads;
           ScrapeLog.error_message := None |} in
      let _ := send_alert alerts_payload log in  (* a failure is only logged *)
      ((new_downloads, analyzed_count), commit w (update_log (db w) log))
  | (Raise e, w) =>
      (* except Exception as e: *)
      let log :=
        {| ScrapeLog.id := ScrapeLog.id log;
           ScrapeLog.started_at := ScrapeLog.started_at log;
           ScrapeLog.completed_at := Some (utcnow w);
           ScrapeLog.status := Some (lit "failed");
           ScrapeLog.regulations_found := 0;
           ScrapeLog.new_downloads := 0;
           ScrapeLog.error_message := Some (str_of_exn e) |} in
      ((0, 0)%Z, commit w (update_log (db w) log))
  end.

(** The log row of the run that [scrape_regulations] started in [w]. *)
Definition run_log (w w' : World) : option ScrapeLog.t :=
  List.find
    (fun l => (ScrapeLog.id l =? next_id (ScrapeLog.id <$> scrape_logs (db w)))%Z)
    (scrape_logs (db w')).

End Run.

End App.

(** ** Concrete runs, on which the properties are tried *)

Module Scenario.
Import Py Hashlib AnalysisUtils Models Spiders App.

Definition spider : BaseSpider := {| flask_app := true; test_mode := false |}.

Definition empty_db : DB :=
  {| regulations := []; regulation_analyses := []; page_hashes := [];
     scrape_logs := [] |}.

Definition world0 : World :=
  {| db := empty_db; commits := []; files := []; utcnow := 1700000000%Z |}.

Definition id_of (source ref_number : str) (date : option date) : str :=
  match generate_regulation_id spider source ref_number (opt_date_arg date) with
  | Ok regulation_id => regulation_id
  | Raise _ => []
  end.

(** The request for a document of [source] with reference [ref_number]. *)
Definition meta_of (source ref_number : str) : Meta.t :=
  {| Meta.regulation_id := id_of source ref_number (Some (Date 2025 7 1));
     Meta.source := source;
     Meta.page_url := lit "https://example.org/list";
     Meta.document_url := lit "https://example.org/doc.pdf";
     Meta.reference_number := ref_number;
     Meta.title := ref_number;
     Meta.issue_date := Some (Date 2025 7 1);
     Meta.category := lit "Income Tax";
     Meta.document_type := lit "SRO" |}.

Definition pdf : bytes := lit "%PDF-1.4".

(** A crawl that finds one new document and stores it, and one that fails. *)
Definition crawl_one (source ref_number : str) (w : World) : result unit * World :=
  save_pdf ascii_isalnum spider (meta_of source ref_number) pdf w.
Definition crawl_broken (w : World) : result unit * World := (Raise OSError, w).

Definition no_files : Env :=
  {| path_exists := fun _ => false; pdf_reader := fun _ => Raise OSError;
     gemini_model := false; gemini_text := fun _ => Raise OSError |}.
Definition no_analysis (text : str) (reg : Regulation.t) (kind : str) (w : World)
    : result (option RegulationAnalysis.t) * World := (Ok None, w).
Definition no_alert (payload : list (Regulation.t * option RegulationAnalysis.t))
    (log : ScrapeLog.t) : result unit := Ok tt.
Definition exn_name (e : exn) : str := lit "error".

(** A run in which the SECP crawl fails between two crawls that each find
    one document. *)
Definition run_secp_broken : (Z * Z) * World :=
  scrape_regulations
    (crawl_one (lit "FBR") (lit "SRO 1437")) crawl_broken
    (crawl_one (lit "PCP") (lit "4521"))
    no_files ascii_isalnum ascii_lower no_analysis no_alert exn_name world0.

(** A store with two FBR documents, an analysis of each, the digest of an
    FBR listing and the digest of another feed. *)
Definition analysed_world : World :=
  let w := snd (crawl_one (lit "FBR") (lit "SRO 1437") world0) in
  let w := snd (crawl_one (lit "FBR") (lit "SRO 1438") w) in
  let w := snd (store_hash spider (lit "FBR:Income Tax") (lit "abc") w) in
  let w := snd (store_hash spider (lit "PAKCODE:ORDINANCES:PAGE1") (lit "def") w) in
  let analysis (i : Z) :=
    {| RegulationAnalysis.id := i; RegulationAnalysis.regulation_id := i;
       RegulationAnalysis.model_id := lit "model";
       RegulationAnalysis.created_at := 1700000001%Z;
       RegulationAnalysis.summary := lit "7. General Idea: x";
       RegulationAnalysis.raw_response := None |} in
  commit w (set_regulation_analyses (db w) [analysis 1%Z; analysis 2%Z]).

(** An FBR listing that shows one notification in two rows, and what
    [parse_api] makes of it on an empty store. *)
Definition income_tax : Target :=
  {| department := lit "Income Tax"; target_category := lit "Income Tax";
     doc_type := lit "SRO" |}.
Definition sro_1437 : FbrRow :=
  {| SRONumber := lit "SRO 1437"; Title := lit "Amendment of the rules";
     CreationDate := lit "01-07-2025"; UploadedFile1 := lit "2025/sro1437.pdf" |}.
Definition listing_twice : (list Request * result unit) * World :=
  parse_api Strptime.is_digit Strptime.ascii_int Strptime.utc_fromtimestamp
    Strptime.strptime (fun url => url) spider income_tax (Date 2025 4 1)
    [sro_1437; sro_1437] world0.

(** An FBR listing that shows one notification in two rows with two files,
    the notification and its translation, and what [parse_api] makes of it
    on an empty store. *)
Definition sro_1437_urdu : FbrRow :=
  {| SRONumber := lit "SRO 1437"; Title := lit "Amendment of the rules (Urdu)";
     CreationDate := lit "01-07-2025";
     UploadedFile1 := lit "2025/sro1437_urdu.pdf" |}.
Definition listing_two_files : (list Request * result unit) * World :=
  parse_api Strptime.is_digit Strptime.ascii_int Strptime.utc_fromtimestamp
    Strptime.strptime (fun url => url) spider income_tax (Date 2025 4 1)
    [sro_1437; sro_1437_urdu] world0.
Definition pdf_urdu : bytes := lit "%PDF-1.4 urdu".

(** A store with one Pakistan Code document and the digest of the listing
    it was found on. *)
Definition pakcode_listing : list str := [lit "https://pakistancode.gov.pk/a"].
Definition pakcode_digest : str :=
  match hash_urls pakcode_listing with
  | Ok h => h
  | Raise _ => []
  end.
Definition pakcode_world : World :=
  let w :=
    snd (PakistanCode.save_pdf spider (meta_of (lit "PAKCODE") (lit "Act X"))
           [] pdf (fun d => d) world0) in
  snd (store_hash spider PakistanCode.ordinances_key pakcode_digest w).

End Scenario.

(** ** Reading the store back *)

Module Store.
Import Py Hashlib AnalysisUtils Models Spiders.

(** [open(path, 'rb').read()] *)
Definition read_file (w : World) (path : str) : option bytes :=
  snd <$> List.find (fun f => str_eqb (fst f) path) (files w).

(** The path [FBRSpider.save_pdf] writes the document of a request to:
    [os.path.join('./downloads/pdfs', filename)], for a file name that does
    not begin with a slash (it begins with the name of the source). *)
Definition pdf_name (isalnum : char -> bool) (meta : Meta.t) : str :=
  Meta.source meta ++ lit "_" ++ safe_ref isalnum (Meta.reference_number meta)
  ++ lit "_" ++ opt_date_format (Meta.issue_date meta) ++ lit ".pdf".
Definition pdf_path (isalnum : char -> bool) (meta : Meta.t) : str :=
  lit "./downloads/pdfs/" ++ pdf_name isalnum meta.

(** The [page_hashes] table as the schema declares it: the primary key and
    [page_url] are unique. *)
Definition page_hashes_wf (d : DB) : Prop :=
  NoDup (PageHash.id <$> page_hashes d)
  /\ NoDup (PageHash.page_url <$> page_hashes d).

(** The primary key of [regulations] is unique. *)
Definition regulations_pk (d : DB) : Prop :=
  NoDup (Regulation.id <$> regulations d).

(** The file of a Pakistan Code document (pc_pwspider.py, [save_pdf]). *)
Definition pakcode_path (meta : Meta.t) : str :=
  lit "downloaded_pdfs/pakistancode/" ++ Meta.regulation_id meta ++ lit ".pdf".

(** [sum(len(c) for c in text_chunks)] *)
Definition total_len (text_chunks : list str) : Z :=
  foldr Z.add 0%Z (len <$> text_chunks).

(** The ORDER BY of the purge, [issue_date DESC, discovered_at DESC]: [y]
    stays ahead of [x]. *)
Definition latest_first (y x : Regulation.t) : bool :=
  opt_date_ltb (Regulation.issue_date x) (Regulation.issue_date y)
  || (opt_date_eqb (Regulation.issue_date x) (Regulation.issue_date y)
      && (Regulation.discovered_at x <=? Regulation.discovered_at y)%Z).

(** The identifiers [parse_api] takes the digest of an FBR listing from, and
    the key it keeps the digest under. *)
Definition listing_ids (rows : list FbrRow) : list str :=
  sorted
    (List.filter (fun s => negb (is_empty s))
       ((fun r => if negb (is_empty (SRONumber r)) then SRONumber r
                  else if negb (is_empty (Title r)) then Title r
                  else UploadedFile1 r) <$> rows)).
Definition listing_key (target : Target) : str := lit "FBR:" ++ department target.

(** What [parse_api] reads from one row before it looks at the store: the
    reference number, the issue date and the address of the file. *)
Definition row_ref (generate_fallback_ref : str -> str) (r : FbrRow) : str :=
  if is_empty (strip (SRONumber r))
  then generate_fallback_ref
         (if is_empty (UploadedFile1 r) then strip (Title r) else UploadedFile1 r)
  else strip (SRONumber r).
Definition row_issue_date (isdecimal : char -> bool) (py_int : str -> result Z)
    (fromtimestamp : Z -> result date) (strptime : str -> str -> result date)
    (self : BaseSpider) (r : FbrRow) : result (option date) :=
  if is_empty (strip (CreationDate r)) then Ok None
  else parse_date isdecimal py_int fromtimestamp strptime self
         (Some (strip (CreationDate r))).
Definition row_url (r : FbrRow) : str :=
  if is_prefix (lit "http") (UploadedFile1 r) then UploadedFile1 r
  else rstrip_slash (lit "https://download1.fbr.gov.pk/Docs/" ++ UploadedFile1 r).

End Store.

(** Further cases the properties are tried on. *)
Module Cases.
Import Py Hashlib AnalysisUtils Models Spiders App Store Scenario.

(** Every file exists and PyPDF reads two hundred letters from it; an
    analysis call that fails. *)
Definition readable_files : Env :=
  {| path_exists := fun _ => true;
     pdf_reader := fun _ => Ok [PageText (Some (replicate 200 97))];
     gemini_model := false; gemini_text := fun _ => Raise OSError |}.
Definition failing_analysis (text : str) (reg : Regulation.t) (kind : str)
    (w : World) : result (option RegulationAnalysis.t) * World :=
  (Raise TimeoutError, w).

(** A row of an FBR listing dated before the cutoff of the crawl. *)
Definition sro_0900 : FbrRow :=
  {| SRONumber := lit "SRO 900"; Title := lit "Rules of 2024";
     CreationDate := lit "01-01-2024"; UploadedFile1 := lit "2024/sro900.pdf" |}.

(** A run in which the FBR crawl stores one document and its analysis
    fails. *)
Definition run_analysis_fails : (Z * Z) * World :=
  scrape_regulations
    (crawl_one (lit "FBR") (lit "SRO 1437")) (fun w => (Ok tt, w))
    (fun w => (Ok tt, w))
    readable_files ascii_isalnum ascii_lower failing_analysis no_alert exn_name
    world0.

End Cases.

(** ** models.py: what a view reads from an analysis *)

Module Views.
Import Py Hashlib AnalysisUtils Models.

(** [hay.find(needle)]: the first index at which [needle] occurs, or -1;
    [i] is the index of the head of [hay]. *)
Fixpoint find_from (needle hay : str) (i : Z) : Z :=
  if is_prefix needle hay then i
  else match hay with
       | [] => (-1)%Z
       | _ :: hay' => find_from needle hay' (i + 1)
       end.
Definition str_find (hay needle : str) : Z := find_from needle hay 0.

(** [RegulationAnalysis.general_idea_and_impact] *)
Definition general_idea_and_impact (self : RegulationAnalysis.t) : option str :=
  if is_empty (RegulationAnalysis.summary self) then None
  else
    let text := RegulationAnalysis.summary self in
    let idx := str_find text (lit "7. General Idea") in
    let idx := if (idx =? -1)%Z then str_find text (lit "7.") else idx in
    if (idx =? -1)%Z then Some (strip text)
    else Some (strip (drop (Z.to_nat idx) text)).

(** [reg.analyses]: the rows that refer to the regulation, in the order of
    the table. *)
Definition analyses (d : DB) (self : Regulation.t) : list RegulationAnalysis.t :=
  List.filter
    (fun a => (RegulationAnalysis.regulation_id a =? Regulation.id self)%Z)
    (regulation_analyses d).

(** [max(xs, key=key)] from the first element on: a later element replaces
    the best so far only if its key is greater. *)
Fixpoint max_by {A} (key : A -> Z) (best : A) (xs : list A) : A :=
  match xs with
  | [] => best
  | x :: xs' => max_by key (if (key x >? key best)%Z then x else best) xs'
  end.

(** [Regulation.latest_analysis] *)
Definition latest_analysis (d : DB) (self : Regulation.t)
    : option RegulationAnalysis.t :=
  match analyses d self with
  | [] => None
  | a :: rest => Some (max_by RegulationAnalysis.created_at a rest)
  end.

End Views.

(** ** email_utils.py *)

Module EmailUtils.
Import Py Hashlib AnalysisUtils Models.

(** [s.split(sep)] for a separator of one character; [cur] is the piece
    being read, in reverse. *)
Fixpoint split_on (sep : char) (cur : str) (s : str) : list str :=
  match s with
  | [] => [reverse cur]
  | c :: s' =>
      if c =? sep then reverse cur :: split_on sep [] s'
      else split_on sep (c :: cur) s'
  end.

(** [get_alert_recipients], from the value of ALERT_EMAILS in the
    environment. *)
Definition get_alert_recipients (ALERT_EMAILS : option str) : list str :=
  let raw := default [] ALERT_EMAILS in
  strip <$> List.filter (fun e => negb (is_empty (strip e))) (split_on 44 [] raw).

(** [by_source[k] = by_source.get(k, 0) + 1] on a dict, which keeps its keys
    in the order of their first insertion. *)
Fixpoint count_up (k : str) (by_source : list (str * Z)) : list (str * Z) :=
  match by_source with
  | [] => [(k, 1%Z)]
  | (k', v) :: rest =>
      if str_eqb k' k then (k', (v + 1)%Z) :: rest
      else (k', v) :: count_up k rest
  end.

(** [by_source.get(k)] *)
Definition get (by_source : list (str * Z)) (k : str) : option Z :=
  snd <$> List.find (fun kv => str_eqb (fst kv) k) by_source.

(** The counts of [build_scrape_run_email]: [total] and [by_source]. *)
Definition total (new_regs_with_analysis :
                    list (Regulation.t * option RegulationAnalysis.t)) : Z :=
  len new_regs_with_analysis.
Definition by_source (new_regs_with_analysis :
                        list (Regulation.t * option RegulationAnalysis.t))
    : list (str * Z) :=
  foldl (fun acc ra => count_up (Regulation.source (fst ra)) acc) []
        new_regs_with_analysis.

End EmailUtils.

(* ================================================================= *)
(** * Properties *)

(** Known answers of the two digests. *)
Example md5_empty :
  Hashlib.hexdigest (Hashlib.md5 []) = Py.lit "d41d8cd98f00b204e9800998ecf8427e".
Proof. vm_compute. reflexivity. Qed.

Example md5_abc :
  Hashlib.hexdigest (Hashlib.md5 (Py.lit "abc"))
  = Py.lit "900150983cd24fb0d6963f7d28e17f72".
Proof. vm_compute. reflexivity. Qed.

Example sha256_abc :
  Hashlib.hexdigest (Hashlib.sha256 (Py.lit "abc"))
  = Py.lit "ba7816bf8f01cfea414140de5dae2223b00361a396177a9cb410ff61f20015ad".
Proof. vm_compute. reflexivity. Qed.

(** ** Identity: [generate_regulation_id] *)

Section Identity.
Import Py Hashlib Spiders AnalysisUtils.

Lemma md5_length (msg : bytes) : length (md5 msg) = 16%nat.
Proof.
  unfold md5.
  destruct (foldl md5_block md5_init (chunks 64 (md5_pad msg))) as [[[a b] c] d].
  reflexivity.
Qed.

Lemma hexdigest_length (d : bytes) : length (hexdigest d) = (2 * length d)%nat.
Proof.
  unfold hexdigest. induction d as [|x d IH]; [reflexivity|].
  cbn [mbind list_bind]. rewrite length_app, IH. simpl. lia.
Qed.

Lemma hex_digit_is_hex (n : N) : is_hex_digit (hex_digit n) = true.
Proof.
  unfold hex_digit, is_hex_digit.
  assert (H : N.land n 0xF < 16).
  { change 0xF with (N.ones 4). rewrite N.land_ones. apply N.mod_lt. discriminate. }
  destruct (N.ltb_spec (N.land n 0xF) 10) as [Hlt|Hge].
  - replace (48 <=? 48 + N.land n 15) with true by (symmetry; apply N.leb_le; lia).
    replace (48 + N.land n 15 <=? 57) with true by (symmetry; apply N.leb_le; lia).
    reflexivity.
  - replace (97 <=? 87 + N.land n 15) with true by (symmetry; apply N.leb_le; lia).
    replace (87 + N.land n 15 <=? 102) with true by (symmetry; apply N.leb_le; lia).
    apply orb_true_r.
Qed.

Lemma hexdigest_is_hex (d : bytes) :
  Forall (fun c => is_hex_digit c = true) (hexdigest d).
Proof.
  unfold hexdigest. induction d as [|x d IH]; [constructor|].
  cbn [mbind list_bind]. apply Forall_app. split; [|exact IH].
  unfold hex_byte. repeat constructor; apply hex_digit_is_hex.
Qed.

Lemma encode_char_ok (c : char) :
  is_surrogate c = false -> exists b, encode_char c = Ok b.
Proof.
  unfold is_surrogate, encode_char. intros H.
  destruct (c <? 0x80); [eauto|].
  destruct (c <? 0x800); [eauto|].
  destruct (c <? 0x10000); [|eauto].
  rewrite H. eauto.
Qed.

Lemma encode_ok (s : str) : encodable s -> exists b, encode s = Ok b.
Proof.
  induction 1 as [|c s Hc _ [bs IH]]; [exists []; reflexivity|].
  destruct (encode_char_ok c Hc) as [b Hb].
  exists (b ++ bs). simpl. rewrite Hb, IH. reflexivity.
Qed.

Lemma encodable_app (a b : str) : encodable a -> encodable b -> encodable (a ++ b).
Proof. intros Ha Hb. apply Forall_app. split; assumption. Qed.

Lemma encodable_ascii (s : string) :
  forallb (fun c => negb (is_surrogate c)) (lit s) = true -> encodable (lit s).
Proof.
  intros H. apply Forall_forall. intros c Hc.
  rewrite forallb_forall in H. apply negb_true_iff, H.
  apply list_elem_of_In, Hc.
Qed.

(** C1.  The canonical id is a function of (source, reference, date) alone:
    it does not depend on the spider instance, so two calls with the same
    three arguments have the same outcome.  Whenever the call returns, the id
    is a string of 32 hexadecimal digits; it returns for every text that
    UTF-8 can encode; and a missing date is replaced by the sentinel
    NODATE. *)
Theorem generate_regulation_id_pure :
  forall (self self' : BaseSpider) (source ref_number : str) (date : date_arg),
    generate_regulation_id self source ref_number date
      = generate_regulation_id self' source ref_number date
    /\ (forall id, generate_regulation_id self source ref_number date = Ok id ->
          length id = 32%nat /\ Forall (fun c => is_hex_digit c = true) id)
    /\ (encodable source -> encodable ref_number -> encodable (date_format date) ->
          exists id, generate_regulation_id self source ref_number date = Ok id)
    /\ (date_truthy date = false ->
          generate_regulation_id self source ref_number date
          = bind (encode (source ++ lit "_" ++ ref_number ++ lit "_NODATE"))
                 (fun b => Ok (hexdigest (md5 b)))).
Proof.
  intros self self' source ref_number date. repeat split.
  - unfold generate_regulation_id in H.
    destruct (encode _) as [b|e]; simpl in H; [|discriminate].
    injection H as <-. rewrite hexdigest_length, md5_length. reflexivity.
  - unfold generate_regulation_id in H.
    destruct (encode _) as [b|e]; simpl in H; [|discriminate].
    injection H as <-. apply hexdigest_is_hex.
  - intros Hs Hr Hd. unfold generate_regulation_id.
    assert (He : encodable (identifier source ref_number date)).
    { unfold identifier. destruct (date_truthy date);
        repeat apply encodable_app; try assumption;
        apply encodable_ascii; reflexivity. }
    destruct (encode_ok _ He) as [b ->]. simpl. eauto.
  - intros Hd. unfold generate_regulation_id, identifier. rewrite Hd. reflexivity.
Qed.

(** The scenario of the specification: FBR, "SRO 1437", 2025-07-01. *)
Lemma generate_regulation_id_pure_witness :
  let self := {| flask_app := true; test_mode := false |} in
  let self' := {| flask_app := false; test_mode := true |} in
  generate_regulation_id self (lit "FBR") (lit "SRO 1437") (DateText (lit "2025-07-01"))
    = Ok (lit "fc23ef7e03572d63e1969a427458d903")
  /\ generate_regulation_id self' (lit "FBR") (lit "SRO 1437") (DateText (lit "2025-07-01"))
    = Ok (lit "fc23ef7e03572d63e1969a427458d903")
  /\ length (lit "fc23ef7e03572d63e1969a427458d903") = 32%nat.
Proof.
  intros self self'.
  destruct (generate_regulation_id_pure self self' (lit "FBR") (lit "SRO 1437")
              (DateText (lit "2025-07-01"))) as [Heq [Hlen _]].
  assert (H : generate_regulation_id self (lit "FBR") (lit "SRO 1437")
                (DateText (lit "2025-07-01"))
              = Ok (lit "fc23ef7e03572d63e1969a427458d903"))
    by (vm_compute; reflexivity).
  split; [exact H|]. split; [rewrite <- Heq; exact H|].
  exact (proj1 (Hlen _ H)).
Defined.

End Identity.

(** ** Identity: what the id can and cannot tell apart *)

Section IdentityInjective.
Import Py Hashlib Spiders AnalysisUtils.

Lemma split_at_first (x : char) (a b u v : str) :
  x ∉ a -> x ∉ b -> a ++ x :: u = b ++ x :: v -> a = b /\ u = v.
Proof.
  revert b. induction a as [|y a IH]; intros [|z b] Ha Hb H; simpl in H.
  - injection H as H. subst. split; reflexivity.
  - injection H as H1 H2. subst. exfalso. apply Hb. left.
  - injection H as H1 H2. subst. exfalso. apply Ha. left.
  - injection H as H1 H2. subst.
    destruct (IH b) as [H3 H4]; auto.
    + intros Hin. apply Ha. right. exact Hin.
    + intros Hin. apply Hb. right. exact Hin.
    + subst. split; reflexivity.
Qed.

Lemma split_at_last (x : char) (a b u v : str) :
  x ∉ a -> x ∉ b -> u ++ x :: a = v ++ x :: b -> u = v /\ a = b.
Proof.
  intros Ha Hb H. apply (f_equal reverse) in H.
  rewrite !reverse_app, !reverse_cons, <- !app_assoc in H. simpl in H.
  apply split_at_first in H; try (rewrite elem_of_reverse; assumption).
  destruct H as [H1 H2].
  split; [apply (inj reverse), H2 | apply (inj reverse), H1].
Qed.

Lemma dec_fixed_length (w : nat) (n : N) : length (dec_fixed w n) = w.
Proof.
  revert n. induction w as [|w IH]; intros n; simpl; [reflexivity|].
  rewrite length_app, IH. simpl. lia.
Qed.

Lemma dec_fixed_digits (w : nat) (n : N) :
  Forall (fun c => 48 <= c <= 57) (dec_fixed w n).
Proof.
  revert n. induction w as [|w IH]; intros n; simpl; [constructor|].
  apply Forall_app. split; [apply IH|].
  constructor; [|constructor].
  pose proof (N.mod_lt n 10 ltac:(discriminate)) as H.
  revert H. generalize (n mod 10). intros r H. lia.
Qed.

Lemma dec_fixed_inj (w : nat) (n m : N) :
  n < 10 ^ N.of_nat w -> m < 10 ^ N.of_nat w ->
  dec_fixed w n = dec_fixed w m -> n = m.
Proof.
  revert n m. induction w as [|w IH]; intros n m Hn Hm H.
  - simpl in Hn, Hm. lia.
  - rewrite Nat2N.inj_succ, N.pow_succ_r' in Hn, Hm.
    simpl in H. apply app_inj_2 in H; [|reflexivity].
    destruct H as [H1 H2]. injection H2 as H2.
    assert (Hq : n / 10 = m / 10).
    { apply IH; [apply N.Div0.div_lt_upper_bound; lia
                |apply N.Div0.div_lt_upper_bound; lia|exact H1]. }
    rewrite (N.div_mod n 10), (N.div_mod m 10) by discriminate. lia.
Qed.

Lemma date_str_no_underscore (d : date) : 95 ∉ date_str d.
Proof.
  unfold date_str. change (lit "-") with [45].
  rewrite !elem_of_app, !list_elem_of_singleton.
  pose proof (dec_fixed_digits 4 (year d)) as Hy.
  pose proof (dec_fixed_digits 2 (month d)) as Hm.
  pose proof (dec_fixed_digits 2 (day d)) as Hd.
  rewrite Forall_forall in Hy, Hm, Hd.
  intros [H|[H|[H|[H|H]]]]; try discriminate;
    [apply Hy in H|apply Hm in H|apply Hd in H]; lia.
Qed.

Lemma date_str_inj (d1 d2 : date) :
  date_wf d1 -> date_wf d2 -> date_str d1 = date_str d2 -> d1 = d2.
Proof.
  destruct d1 as [y1 m1 a1], d2 as [y2 m2 a2].
  unfold date_wf, date_str. cbn [year month day]. change (lit "-") with [45].
  intros (Hy1 & Hm1 & Ha1) (Hy2 & Hm2 & Ha2) H.
  apply app_inj_1 in H; [|rewrite !dec_fixed_length; reflexivity].
  destruct H as [Hy H].
  apply app_inj_1 in H; [|reflexivity]. destruct H as [_ H].
  apply app_inj_1 in H; [|rewrite !dec_fixed_length; reflexivity].
  destruct H as [Hm H].
  apply app_inj_1 in H; [|reflexivity]. destruct H as [_ H].
  apply (dec_fixed_inj 4) in Hy; [|simpl; lia..].
  apply (dec_fixed_inj 2) in Hm; [|simpl; lia..].
  apply (dec_fixed_inj 2) in H; [|simpl; lia..].
  subst. reflexivity.
Qed.

Lemma identifier_parts (s r : str) (d : date_arg) :
  identifier s r d = s ++ 95 :: (r ++ 95 :: date_part d).
Proof. unfold identifier, date_part. destruct (date_truthy d); reflexivity. Qed.

Lemma date_part_no_underscore (d : date_arg) : date_arg_wf d -> 95 ∉ date_part d.
Proof.
  destruct d as [|t|d]; cbn [date_arg_wf]; intros H.
  - vm_compute. intros Hin.
    repeat (apply elem_of_cons in Hin as [Hin|Hin]; [discriminate|]).
    inversion Hin.
  - destruct H.
  - apply date_str_no_underscore.
Qed.

Lemma date_part_inj (d1 d2 : date_arg) :
  date_arg_wf d1 -> date_arg_wf d2 -> date_part d1 = date_part d2 -> d1 = d2.
Proof.
  assert (Hlen : forall d, length (date_str d) = 10%nat).
  { intros d. unfold date_str. rewrite !length_app, !dec_fixed_length. reflexivity. }
  destruct d1 as [|t1|d1], d2 as [|t2|d2]; cbn [date_arg_wf]; intros H1 H2 H;
    try contradiction; try reflexivity.
  - apply (f_equal length) in H. unfold date_part in H.
    cbn [date_truthy date_format] in H. rewrite Hlen in H. discriminate H.
  - apply (f_equal length) in H. unfold date_part in H.
    cbn [date_truthy date_format] in H. rewrite Hlen in H. discriminate H.
  - f_equal. apply date_str_inj; assumption.
Qed.

Lemma identifier_injective (s1 r1 s2 r2 : str) (d1 d2 : date_arg) :
  95 ∉ s1 -> 95 ∉ s2 -> date_arg_wf d1 -> date_arg_wf d2 ->
  identifier s1 r1 d1 = identifier s2 r2 d2 ->
  s1 = s2 /\ r1 = r2 /\ d1 = d2.
Proof.
  intros Hs1 Hs2 Hd1 Hd2 H. rewrite !identifier_parts in H.
  apply split_at_first in H; try assumption.
  destruct H as [-> H].
  apply split_at_last in H; try (apply date_part_no_underscore; assumption).
  destruct H as [-> H].
  apply date_part_inj in H; try assumption. auto.
Qed.

(** C7, as the specification states it, fails: the two distinct triples
    ("A_B", "C", no date) and ("A", "B_C", no date) are joined into the same
    string A_B_C_NODATE and so get the same id. *)
Lemma generate_regulation_id_not_injective :
  ~ (forall (self : BaseSpider) (s1 r1 : str) (d1 : date_arg)
            (s2 r2 : str) (d2 : date_arg),
       (s1, r1, d1) <> (s2, r2, d2) ->
       generate_regulation_id self s1 r1 d1 <> generate_regulation_id self s2 r2 d2).
Proof.
  intros H.
  apply (H {| flask_app := true; test_mode := false |}
           (lit "A_B") (lit "C") NoDate (lit "A") (lit "B_C") NoDate).
  - intros Heq. vm_compute in Heq. discriminate Heq.
  - reflexivity.
Qed.

(** C7, amended.  The id depends on the triple only through the joined
    string source_reference_date (NODATE for a missing date): triples joined
    into the same string get the same id.  For triples whose source has no
    underscore and whose date is a calendar date or missing, as every crawler
    passes them, distinct triples are joined into distinct strings, so that
    their ids can coincide only through a collision of MD5. *)
Theorem generate_regulation_id_identity :
  forall (self : BaseSpider) (s1 r1 : str) (d1 : date_arg)
         (s2 r2 : str) (d2 : date_arg),
    (identifier s1 r1 d1 = identifier s2 r2 d2 ->
       generate_regulation_id self s1 r1 d1 = generate_regulation_id self s2 r2 d2)
    /\ (95 ∉ s1 -> 95 ∉ s2 -> date_arg_wf d1 -> date_arg_wf d2 ->
        (s1, r1, d1) <> (s2, r2, d2) ->
        identifier s1 r1 d1 <> identifier s2 r2 d2).
Proof.
  intros self s1 r1 d1 s2 r2 d2. split.
  - intros H. unfold generate_regulation_id. rewrite H. reflexivity.
  - intros Hs1 Hs2 Hd1 Hd2 Hne Heq. apply Hne.
    destruct (identifier_injective _ _ _ _ _ _ Hs1 Hs2 Hd1 Hd2 Heq) as (-> & -> & ->).
    reflexivity.
Qed.

Lemma generate_regulation_id_identity_witness :
  let self := {| flask_app := true; test_mode := false |} in
  (generate_regulation_id self (lit "A_B") (lit "C") NoDate
     = generate_regulation_id self (lit "A") (lit "B_C") NoDate)
  /\ identifier (lit "FBR") (lit "SRO 1437") (DateValue (Date 2025 7 1))
     <> identifier (lit "FBR") (lit "SRO 1437") NoDate.
Proof.
  intros self. split.
  - apply (proj1 (generate_regulation_id_identity self
                    (lit "A_B") (lit "C") NoDate (lit "A") (lit "B_C") NoDate)).
    reflexivity.
  - apply (proj2 (generate_regulation_id_identity self
                    (lit "FBR") (lit "SRO 1437") (DateValue (Date 2025 7 1))
                    (lit "FBR") (lit "SRO 1437") NoDate)).
    + vm_compute. intros Hin.
      repeat (apply elem_of_cons in Hin as [Hin|Hin]; [discriminate|]).
      inversion Hin.
    + vm_compute. intros Hin.
      repeat (apply elem_of_cons in Hin as [Hin|Hin]; [discriminate|]).
      inversion Hin.
    + unfold date_arg_wf, date_wf. simpl. lia.
    + exact I.
    + discriminate.
Defined.

End IdentityInjective.

(** ** Change detection: [hash_urls] *)

Section ChangeDetection.
Import Py Hashlib Spiders AnalysisUtils.

Global Instance str_le_total : Total str_le.
Proof.
  intros a. induction a as [|x a IH]; intros [|y b]; unfold str_le; simpl; auto.
  destruct (N.ltb_spec x y), (N.ltb_spec y x), (N.eqb_spec x y), (N.eqb_spec y x);
    simpl; auto; try lia.
  apply IH.
Qed.

Global Instance str_le_antisymm : AntiSymm (=) str_le.
Proof.
  intros a. induction a as [|x a IH]; intros [|y b]; unfold str_le; simpl;
    try discriminate; auto.
  destruct (N.ltb_spec x y), (N.ltb_spec y x), (N.eqb_spec x y), (N.eqb_spec y x);
    simpl; try discriminate; try lia.
  intros H1 H2. subst. f_equal. apply IH; assumption.
Qed.

Global Instance str_le_trans : Transitive str_le.
Proof.
  intros a. induction a as [|x a IH]; intros [|y b] [|z c]; unfold str_le; simpl;
    try discriminate; auto.
  destruct (N.ltb_spec x y), (N.ltb_spec y z), (N.ltb_spec x z),
    (N.eqb_spec x y), (N.eqb_spec y z), (N.eqb_spec x z);
    simpl; try discriminate; auto; try lia.
  apply IH.
Qed.

Lemma sorted_perm (l1 l2 : list str) : l1 ≡ₚ l2 -> sorted l1 = sorted l2.
Proof.
  intros H. unfold sorted.
  apply (Sorted_unique str_le); try apply Sorted_merge_sort; try apply _.
  rewrite !merge_sort_Permutation. exact H.
Qed.

(** C6.  The digest of a listing does not depend on the order in which its
    identifiers are supplied: two arrangements of the same identifiers have
    the same outcome of [hash_urls]. *)
Theorem hash_urls_order_independent :
  forall urls1 urls2 : list str,
    urls1 ≡ₚ urls2 -> hash_urls urls1 = hash_urls urls2.
Proof.
  intros urls1 urls2 H. unfold hash_urls. rewrite (sorted_perm _ _ H). reflexivity.
Qed.

(** hash_of({a,b,c}) = hash_of({c,a,b}) *)
Lemma hash_urls_order_independent_witness :
  hash_urls [lit "a"; lit "b"; lit "c"] = hash_urls [lit "c"; lit "a"; lit "b"].
Proof.
  apply hash_urls_order_independent.
  symmetry. apply (Permutation_cons_append [lit "a"; lit "b"] (lit "c")).
Defined.

End ChangeDetection.

(** ** The quality gate: [needs_ocr] *)

Section QualityGate.
Import Py Hashlib Spiders AnalysisUtils.

Variable isalnum : char -> bool.
Variable lower : str -> str.


Lemma is_empty_nil {A} (s : list A) : is_empty s = true <-> s = [].
Proof. destruct s; simpl; split; congruence. Qed.



End QualityGate.

Section QualityGateWitness.
Import Py Hashlib Spiders AnalysisUtils.


End QualityGateWitness.

(** ** Text cleaning: [clean_for_bedrock] *)

Section Cleaning.
Import Py Hashlib Spiders AnalysisUtils.

Lemma lstrip_suffix (s : str) : exists k, s = k ++ lstrip s.
Proof.
  induction s as [|c s [k IH]]; [exists []; reflexivity|].
  simpl. destruct (isspace c).
  - exists (c :: k). simpl. f_equal. exact IH.
  - exists []. reflexivity.
Qed.

Lemma rstrip_prefix (s : str) : exists k, s = rstrip s ++ k.
Proof.
  unfold rstrip. destruct (lstrip_suffix (reverse s)) as [k Hk].
  exists (reverse k). apply (inj reverse).
  rewrite reverse_app, !reverse_involutive. exact Hk.
Qed.

Lemma strip_infix (s : str) : exists p q, s = p ++ strip s ++ q.
Proof.
  unfold strip. destruct (lstrip_suffix s) as [p Hp].
  destruct (rstrip_prefix (lstrip s)) as [q Hq].
  exists p, q. rewrite <- Hq. exact Hp.
Qed.

Lemma strip_length (s : str) : (length (strip s) <= length s)%nat.
Proof.
  destruct (strip_infix s) as (p & q & H).
  rewrite H at 2. rewrite !length_app. lia.
Qed.

Lemma clean_char_word (c : char) :
  isspace (clean_char c) = false -> word_char (clean_char c).
Proof.
  unfold clean_char, word_char.
  destruct ((c =? 10) || (c =? 9)) eqn:E1.
  { apply orb_true_iff in E1. destruct E1 as [E|E]; apply N.eqb_eq in E; subst;
      discriminate. }
  destruct ((c <? 32) || (c =? 127)) eqn:E2; [discriminate|].
  apply orb_false_iff in E2. destruct E2 as [E3 E4].
  apply N.ltb_ge in E3. apply N.eqb_neq in E4. auto.
Qed.

Lemma split_aux_words (P : char -> Prop) (cur s : str) :
  Forall P cur ->
  Forall (fun c => isspace c = false -> P c) s ->
  Forall (fun w => w <> [] /\ Forall P w) (split_aux cur s).
Proof.
  revert cur. induction s as [|c s IH]; intros cur Hcur Hs; simpl.
  - destruct cur as [|x cur]; [constructor|].
    constructor; [|constructor]. split.
    + rewrite reverse_cons. destruct (reverse cur); discriminate.
    + apply Forall_reverse. exact Hcur.
  - inversion Hs as [|? ? Hc Hs']; subst.
    destruct (isspace c) eqn:E.
    + destruct cur as [|x cur]; [apply IH; [constructor|exact Hs']|].
      constructor; [|apply IH; [constructor|exact Hs']]. split.
      * rewrite reverse_cons. destruct (reverse cur); discriminate.
      * apply Forall_reverse. exact Hcur.
    + apply IH; [|exact Hs']. constructor; [apply Hc; reflexivity|exact Hcur].
Qed.

Lemma join_space_cons (w : str) (ws : list str) :
  ws <> [] -> join [32] (w :: ws) = w ++ 32 :: join [32] ws.
Proof. destruct ws; [congruence|reflexivity]. Qed.

Lemma join_chars (P : char -> Prop) (ws : list str) :
  Forall (fun w => w <> [] /\ Forall P w) ws ->
  Forall (fun c => c = 32 \/ P c) (join [32] ws).
Proof.
  induction 1 as [|w ws [_ Hw] Hws IH]; [constructor|].
  destruct ws as [|w' ws].
  - simpl. eapply Forall_impl; [exact Hw|]. auto.
  - rewrite join_space_cons by discriminate.
    apply Forall_app. split; [eapply Forall_impl; [exact Hw|]; auto|].
    constructor; [left; reflexivity|exact IH].
Qed.

Lemma join_head (P : char -> Prop) (ws : list str) :
  ~ P 32 -> ws <> [] ->
  Forall (fun w => w <> [] /\ Forall P w) ws ->
  forall l, join [32] ws <> 32 :: l.
Proof.
  intros HP Hne Hws l. destruct ws as [|w ws]; [contradiction|].
  inversion Hws as [|? ? [Hw1 Hw2] Hws']; subst.
  destruct w as [|c w]; [contradiction|].
  inversion Hw2; subst.
  destruct ws; simpl; intros Heq; injection Heq as Hc _; subst; contradiction.
Qed.

Lemma join_single_spaced (P : char -> Prop) (ws : list str) :
  ~ P 32 ->
  Forall (fun w => w <> [] /\ Forall P w) ws ->
  forall l1 l2, join [32] ws <> l1 ++ [32; 32] ++ l2.
Proof.
  intros HP. induction 1 as [|w ws [Hw1 Hw2] Hws IH]; intros l1 l2.
  - destruct l1; discriminate.
  - assert (Hw : 32 ∉ w).
    { intros Hin. rewrite Forall_forall in Hw2. apply HP, Hw2, Hin. }
    destruct ws as [|w' ws].
    + simpl. intros Heq. apply Hw. rewrite Heq.
      apply elem_of_app. right. left.
    + rewrite join_space_cons by discriminate. intros Heq.
      destruct (decide (32 ∈ l1)) as [Hin|Hnin].
      * apply list_elem_of_split_l in Hin. destruct Hin as (a & b & -> & Ha).
        rewrite <- app_assoc in Heq. simpl in Heq.
        apply split_at_first in Heq; [|assumption..].
        destruct Heq as [_ Heq]. exact (IH b l2 Heq).
      * simpl in Heq. apply split_at_first in Heq; [|assumption..].
        destruct Heq as [_ Heq].
        exact (join_head P (w' :: ws) HP ltac:(discriminate) Hws _ Heq).
Qed.

Lemma slice_to_prefix {A} (l : list A) (n : Z) : exists q, l = slice_to l n ++ q.
Proof.
  unfold slice_to. destruct (0 <=? n)%Z; eexists; symmetry; apply take_drop.
Qed.

Lemma slice_to_length {A} (l : list A) (n : Z) :
  (0 <= n)%Z -> (len (slice_to l n) <= n)%Z.
Proof.
  intros Hn. unfold slice_to, len.
  destruct (Z.leb_spec 0 n); [|lia]. rewrite length_take. lia.
Qed.



End Cleaning.

(** ** Extraction with fallback: [extract_pdf_text] *)

Section Extraction.
Import Py Hashlib Spiders AnalysisUtils.

Variable isalnum : char -> bool.
Variable lower : str -> str.

(** C4.  For a document that exists, with the fallback allowed: when the
    gate passes, the (stripped) PyPDF text is returned; when the gate
    triggers and OCR gives a non-empty text, that text is returned; when OCR
    gives nothing, the PyPDF text is returned as it is, however weak, and
    the answer is None only if that text is empty too.  So None means that
    both PyPDF and OCR produced nothing. *)
Theorem extract_pdf_text_fallback :
  forall (env : Env) (p : str) (max_chars : Z),
    p <> [] -> path_exists env p = true ->
    let primary := pypdf_text env p max_chars in
    let ocr := extract_pdf_text_with_gemini env (Some p) max_chars in
    let out := extract_pdf_text isalnum lower env (Some p) max_chars true in
    (needs_ocr isalnum lower primary = false -> out = Some (strip primary))
    /\ (needs_ocr isalnum lower primary = true ->
        forall t, ocr = Some t -> t <> [] -> out = Some t)
    /\ (needs_ocr isalnum lower primary = true ->
        ocr = None \/ ocr = Some [] ->
        out = if is_empty primary then None else Some primary)
    /\ (out = None -> primary = [] /\ (ocr = None \/ ocr = Some [])).
Proof.
  intros env p max_chars Hp Hex primary ocr out.
  assert (Hout : out =
    if negb (is_empty primary) && negb (needs_ocr isalnum lower primary)
    then Some (strip primary)
    else match ocr with
         | Some t => if negb (is_empty t) then Some t else or_None primary
         | None => or_None primary
         end).
  { subst out. unfold extract_pdf_text. rewrite Hex.
    destruct p; [congruence|]. reflexivity. }
  assert (Hgate : needs_ocr isalnum lower primary = false -> is_empty primary = false).
  { destruct primary; [discriminate|reflexivity]. }
  repeat split.
  - intros Hn. rewrite Hout, Hn, (Hgate Hn). reflexivity.
  - intros Hn t Ht Hne. rewrite Hout, Hn, Ht, andb_false_r.
    destruct t; [congruence|reflexivity].
  - intros Hn Hocr. rewrite Hout, Hn, andb_false_r.
    destruct Hocr as [->| ->]; reflexivity.
  - rewrite Hout in H.
    destruct (negb (is_empty primary) && negb (needs_ocr isalnum lower primary));
      [discriminate|].
    destruct ocr as [[|c t]|]; simpl in H; try discriminate;
      destruct primary; try discriminate; reflexivity.
  - rewrite Hout in H.
    destruct (negb (is_empty primary) && negb (needs_ocr isalnum lower primary));
      [discriminate|].
    destruct ocr as [[|c t]|]; simpl in H; try discriminate; auto.
Qed.

End Extraction.

Section ExtractionWitness.
Import Py Hashlib Spiders AnalysisUtils.

(** Fifty characters of noise and an OCR answer that is empty: the noise
    comes back. *)
Lemma extract_pdf_text_fallback_witness :
  let noise := replicate 50 35 in
  let env := {| path_exists := fun _ => true;
                pdf_reader := fun _ => Ok [PageText (Some noise)];
                gemini_model := true;
                gemini_text := fun _ => Ok (Some []) |} in
  extract_pdf_text ascii_isalnum ascii_lower env (Some (lit "doc.pdf")) 12000 true
  = Some noise.
Proof.
  intros noise env.
  destruct (extract_pdf_text_fallback ascii_isalnum ascii_lower env
              (lit "doc.pdf") 12000 ltac:(discriminate) eq_refl)
    as (_ & _ & H & _).
  apply H; [vm_compute; reflexivity|left; vm_compute; reflexivity].
Defined.

End ExtractionWitness.

(** ** Date parsing: [parse_date] *)

Section ParseDateTotal.
Import Py Hashlib Spiders AnalysisUtils.

Variable isdecimal : char -> bool.
Variable py_int : str -> result Z.
Variable fromtimestamp : Z -> result date.
Variable strptime : str -> str -> result date.

(** On a [str] and a format, [strptime] reports every failure as a
    ValueError. *)
Hypothesis strptime_raises :
  forall s fmt e, strptime s fmt = Raise e -> is_ValueError e = true.

Lemma try_formats_total (s : str) (fmts : list str) :
  exists r, try_formats strptime s fmts = Ok r.
Proof.
  induction fmts as [|fmt fmts [r IH]]; simpl; [eauto|].
  destruct (strptime s fmt) as [d|e] eqn:E; [eauto|].
  rewrite (strptime_raises _ _ _ E). eauto.
Qed.

Lemma try_formats_none (s : str) (fmts : list str) :
  (forall fmt, fmt ∈ fmts -> exists e, strptime s fmt = Raise e) ->
  try_formats strptime s fmts = Ok None.
Proof.
  induction fmts as [|fmt fmts IH]; intros H; simpl; [reflexivity|].
  destruct (H fmt ltac:(left)) as [e E]. rewrite E, (strptime_raises _ _ _ E).
  apply IH. intros f Hf. apply H. right. exact Hf.
Qed.

(** C10.  [parse_date] returns for every input, a date or None, and never
    raises.  A missing or empty string gives None; so does a string from
    which the /Date(ms)/ form gives no date and which no format of the list
    parses. *)
Theorem parse_date_total :
  forall (self : BaseSpider) (date_str : option str),
    let parse := parse_date isdecimal py_int fromtimestamp strptime self in
    (exists r, parse date_str = Ok r)
    /\ (date_str = None \/ date_str = Some [] -> parse date_str = Ok None)
    /\ (forall s, date_str = Some s ->
          (match_Date isdecimal (strip s) = None
           \/ exists digits e, match_Date isdecimal (strip s) = Some digits
                /\ bind (py_int digits) fromtimestamp = Raise e) ->
          (forall fmt, fmt ∈ date_formats -> exists e, strptime (strip s) fmt = Raise e) ->
          parse date_str = Ok None).
Proof.
  intros self date_str parse. subst parse. split; [|split].
  - unfold parse_date. destruct date_str as [s|]; [|eauto].
    destruct (is_empty s); [eauto|].
    destruct (match_Date isdecimal (strip s)) as [digits|].
    + destruct (bind (py_int digits) fromtimestamp); [eauto|].
      apply try_formats_total.
    + apply try_formats_total.
  - intros [->| ->]; reflexivity.
  - intros s -> Hms Hfmt. unfold parse_date.
    destruct (is_empty s); [reflexivity|].
    destruct Hms as [->|(digits & e & -> & ->)]; apply try_formats_none, Hfmt.
Qed.

End ParseDateTotal.

Section ParseDateWitness.
Import Py Hashlib Spiders AnalysisUtils.

Lemma strptime_ascii_raises (s fmt : str) (e : exn) :
  Strptime.strptime s fmt = Raise e -> is_ValueError e = true.
Proof.
  unfold Strptime.strptime.
  destruct (Strptime.match_items _ _ _ _ _) as [dt|].
  - destruct (_ && _); intros H; [discriminate H|].
    injection H as <-. reflexivity.
  - intros H. injection H as <-. reflexivity.
Qed.

(** A listing date that is no date gives None, not an exception. *)
Lemma parse_date_total_witness :
  parse_date Strptime.is_digit Strptime.ascii_int Strptime.utc_fromtimestamp
    Strptime.strptime {| flask_app := true; test_mode := false |}
    (Some (lit "31-02-2020")) = Ok None.
Proof.
  apply (parse_date_total Strptime.is_digit Strptime.ascii_int
           Strptime.utc_fromtimestamp Strptime.strptime strptime_ascii_raises
           {| flask_app := true; test_mode := false |} (Some (lit "31-02-2020")))
    with (s := lit "31-02-2020").
  - reflexivity.
  - left. vm_compute. reflexivity.
  - intros fmt Hin. vm_compute in Hin.
    repeat (apply elem_of_cons in Hin as [->|Hin];
            [exists ValueError; vm_compute; reflexivity|]).
    inversion Hin.
Defined.

(** The forms the sources publish. *)
Example parse_date_forms :
  let parse s :=
    parse_date Strptime.is_digit Strptime.ascii_int Strptime.utc_fromtimestamp
      Strptime.strptime {| flask_app := true; test_mode := false |} (Some (lit s)) in
  parse "01-07-2025"%string = Ok (Some (Date 2025 7 1))
  /\ parse "May 11, 2024"%string = Ok (Some (Date 2024 5 11))
  /\ parse "/Date(1751328000000)/"%string = Ok (Some (Date 2025 7 1))
  /\ parse "soon"%string = Ok None.
Proof. vm_compute. repeat split; reflexivity. Qed.

End ParseDateWitness.

(** ** The store: discovery of an id that is already stored *)

Section Dedup.
Import Py Hashlib AnalysisUtils Models Spiders App.

Variable isalnum : char -> bool.

Lemma str_eqb_eq (a b : str) : str_eqb a b = true <-> a = b.
Proof.
  revert b. induction a as [|x a IH]; intros [|y b]; simpl; split;
    try discriminate; try reflexivity.
  - intros H. apply andb_true_iff in H. destruct H as [H1 H2].
    apply N.eqb_eq in H1. apply IH in H2. subst. reflexivity.
  - intros H. injection H as -> ->. rewrite N.eqb_refl. simpl. apply IH. reflexivity.
Qed.

Lemma find_regulation_Some (d : DB) (rid : str) (r : Regulation.t) :
  find_regulation d rid = Some r ->
  r ∈ regulations d /\ Regulation.regulation_id r = rid.
Proof.
  unfold find_regulation. intros H. apply find_some in H. destruct H as [H1 H2].
  split; [apply list_elem_of_In, H1 | apply str_eqb_eq, H2].
Qed.

Lemma find_regulation_None (d : DB) (rid : str) :
  find_regulation d rid = None ->
  rid ∉ (Regulation.regulation_id <$> regulations d).
Proof.
  unfold find_regulation. intros H Hin.
  apply list_elem_of_fmap in Hin. destruct Hin as (r & -> & Hr).
  apply list_elem_of_In in Hr.
  pose proof (find_none _ _ H r Hr) as Hn. simpl in Hn.
  assert (Ht : str_eqb (Regulation.regulation_id r) (Regulation.regulation_id r) = true)
    by (apply str_eqb_eq; reflexivity).
  congruence.
Qed.

(** The unique constraint holds after every insert that succeeds. *)
Lemma add_regulation_unique (d d' : DB) (r : Regulation.t) :
  unique_ids d -> add_regulation d r = Ok d' -> unique_ids d'.
Proof.
  unfold add_regulation, unique_ids. intros Hu H.
  destruct (find_regulation d (Regulation.regulation_id r)) eqn:E; [discriminate|].
  injection H as <-. simpl. rewrite fmap_app. simpl.
  apply NoDup_app. split; [exact Hu|]. split.
  - intros x Hx Hx'. apply list_elem_of_singleton in Hx'. subst x.
    exact (find_regulation_None _ _ E Hx).
  - apply NoDup_singleton.
Qed.

(** A discovery of an id that is stored is skipped by the listing loop: no
    request, no write. *)
Lemma regulation_exists_stored (self : BaseSpider) (w : World) (r : Regulation.t) :
  flask_app self = true -> r ∈ regulations (db w) ->
  regulation_exists self w (Regulation.regulation_id r) = Ok true.
Proof.
  intros Hf Hr. unfold regulation_exists. rewrite Hf. simpl.
  destruct (find_regulation (db w) (Regulation.regulation_id r)) eqn:E; [reflexivity|].
  exfalso. apply (find_regulation_None _ _ E).
  apply list_elem_of_fmap. exists r. split; [reflexivity|exact Hr].
Qed.

(** A row of the FBR listing whose id is stored: the loop goes on to the
    next row. *)
Lemma parse_api_row_skips_stored
    (isdecimal : char -> bool) (py_int : str -> result Z)
    (fromtimestamp : Z -> result date) (strptime : str -> str -> result date)
    (generate_fallback_ref : str -> str)
    (self : BaseSpider) (target : Target) (six_months_ago : date)
    (r : FbrRow) (w : World) (stored : Regulation.t) :
  flask_app self = true ->
  strip (SRONumber r) <> [] ->
  strip (CreationDate r) = [] ->
  stored ∈ regulations (db w) ->
  generate_regulation_id self (lit "FBR") (strip (SRONumber r)) NoDate
    = Ok (Regulation.regulation_id stored) ->
  parse_api_row isdecimal py_int fromtimestamp strptime generate_fallback_ref
    self target six_months_ago r w = (Ok None, w).
Proof.
  intros Hf Href Hdate Hin Hid. unfold parse_api_row.
  rewrite Hdate. cbn [is_empty].
  destruct (strip (SRONumber r)) as [|c ref] eqn:E; [contradiction|].
  cbn [is_empty opt_date_arg]. rewrite Hid.
  rewrite (regulation_exists_stored self w stored Hf Hin). reflexivity.
Qed.

(** [FBRSpider.save_pdf] on an id that is stored: the commit raises, and the
    table is as it was. *)
Lemma save_pdf_stored_raises (self : BaseSpider) (meta : Meta.t) (body : bytes)
    (w : World) (r : Regulation.t) :
  flask_app self = true -> r ∈ regulations (db w) ->
  Regulation.regulation_id r = Meta.regulation_id meta ->
  fst (save_pdf isalnum self meta body w) = Raise IntegrityError
  /\ db (snd (save_pdf isalnum self meta body w)) = db w.
Proof.
  intros Hf Hr Hid. unfold save_pdf. rewrite Hf. simpl.
  unfold add_regulation. simpl.
  destruct (find_regulation (db w) (Meta.regulation_id meta)) eqn:E.
  - split; reflexivity.
  - exfalso. apply (find_regulation_None _ _ E).
    apply list_elem_of_fmap. exists r. split; [symmetry; exact Hid|exact Hr].
Qed.

(** [pc_pwspider.save_pdf] returns normally whatever other writers did. *)
Lemma pakistan_code_save_pdf_ok (self : BaseSpider) (meta : Meta.t)
    (response_url : str) (body : bytes) (concurrent : DB -> DB) (w : World) :
  flask_app self = true ->
  fst (PakistanCode.save_pdf self meta response_url body concurrent w) = Ok tt.
Proof.
  intros Hf. unfold PakistanCode.save_pdf. rewrite Hf. simpl.
  destruct (find_regulation _ _); [reflexivity|].
  unfold add_regulation. destruct (find_regulation _ _); reflexivity.
Qed.

End Dedup.

Section DedupScenario.
Import Py Hashlib AnalysisUtils Models Spiders App Scenario.

(** C2.  One notification shown in two rows of an FBR listing, with a file
    each: [parse_api] yields two downloads of the same canonical id, since
    neither is stored when the rows are read, and their addresses differ, so
    that the scheduler lets both through.  The first [FBRSpider.save_pdf]
    stores the row; the second raises IntegrityError out of the callback,
    and the table keeps its one row.  The Pakistan Code spider's [save_pdf]
    returns normally in the same situation, whether the row was stored
    before its query or between its query and its commit. *)
Lemma save_pdf_conflict_raises :
  match listing_two_files with
  | (([r1; r2], Ok _), w) =>
      let first := save_pdf ascii_isalnum spider (meta r1) pdf w in
      let second := save_pdf ascii_isalnum spider (meta r2) pdf_urdu (snd first) in
      url r1 = lit "https://download1.fbr.gov.pk/Docs/2025/sro1437.pdf"
      /\ url r2 = lit "https://download1.fbr.gov.pk/Docs/2025/sro1437_urdu.pdf"
      /\ Scrapy.dupefilter [r1; r2] = [r1; r2]
      /\ Meta.regulation_id (meta r1) = Meta.regulation_id (meta r2)
      /\ Meta.regulation_id (meta r1) = lit "fc23ef7e03572d63e1969a427458d903"
      /\ fst first = Ok tt
      /\ fst second = Raise IntegrityError
      /\ length (regulations (db (snd second))) = 1%nat
      /\ fst (PakistanCode.save_pdf spider (meta r2) [] pdf_urdu (fun d => d)
                (snd first))
         = Ok tt
      /\ fst (PakistanCode.save_pdf spider (meta r2) [] pdf_urdu
                (fun _ => db (snd first)) w) = Ok tt
      /\ length (regulations (db (snd
           (PakistanCode.save_pdf spider (meta r2) [] pdf_urdu
              (fun _ => db (snd first)) w)))) = 1%nat
  | _ => False
  end.
Proof. vm_compute. repeat split; reflexivity. Qed.

(** Two rows that are the same row give two requests for one address: the
    scheduler drops the second, and [save_pdf] is called once. *)
Example listing_twice_filtered :
  match listing_twice with
  | (([r1; r2], Ok _), w) =>
      Scrapy.dupefilter [r1; r2] = [r1]
      /\ fst (save_pdf ascii_isalnum spider (meta r1) pdf w) = Ok tt
  | _ => False
  end.
Proof. vm_compute. repeat split; reflexivity. Qed.

End DedupScenario.

(** ** The purge of the test tooling: [simulate_new_regulations] *)

Section Purge.
Import Py Hashlib AnalysisUtils Models Spiders App.

Lemma mem_id_elem (i : Z) (ids : list Z) : mem_id i ids = true <-> i ∈ ids.
Proof.
  unfold mem_id. rewrite existsb_exists. split.
  - intros (x & Hx & Hix). apply Z.eqb_eq in Hix. subst. apply list_elem_of_In, Hx.
  - intros H. exists i. split; [apply list_elem_of_In, H|apply Z.eqb_refl].
Qed.

Lemma elem_of_filter_bool {A} (f : A -> bool) (l : list A) (x : A) :
  x ∈ List.filter f l <-> x ∈ l /\ f x = true.
Proof. rewrite !list_elem_of_In. apply filter_In. Qed.

Lemma like_FBR_key (dept : str) : like_FBR (lit "FBR:" ++ dept) = true.
Proof. reflexivity. Qed.

Lemma find_page_hash_purged (d : DB) (dept : str) :
  find_page_hash (delete_page_hashes_like_FBR d) (lit "FBR:" ++ dept) = None.
Proof.
  unfold find_page_hash.
  destruct (List.find _ _) as [h|] eqn:E; [|reflexivity].
  apply find_some in E. destruct E as [Hin Heq].
  apply str_eqb_eq in Heq. simpl in Hin.
  apply filter_In in Hin. destruct Hin as [_ Hl].
  rewrite Heq, like_FBR_key in Hl. discriminate Hl.
Qed.

(** C8, amended.  When the purge selects documents, it deletes their
    analyses, then the documents, then the digests of the FBR listings, on
    the pending state of one session, and commits once: the database goes in
    one commit from its state before to the state with all three deletions.
    After it no analysis refers to a purged document, no purged document is
    stored, every analysis still belongs to a stored document if that held
    before, and no stored digest makes the FBR crawler skip a listing.  The
    digests of other feeds are not touched. *)
Theorem simulate_new_regulations_purges :
  forall (count : Z) (sources : list str) (w : World),
    let reg_ids := fst (simulate_new_regulations count sources w) in
    let w' := snd (simulate_new_regulations count sources w) in
    reg_ids <> [] ->
    (forall a, a ∈ regulation_analyses (db w') ->
       RegulationAnalysis.regulation_id a ∉ reg_ids)
    /\ (forall r, r ∈ regulations (db w') -> Regulation.id r ∉ reg_ids)
    /\ (fk_ok (db w) -> fk_ok (db w'))
    /\ db w' = delete_page_hashes_like_FBR
                 (delete_regulations_in reg_ids (delete_analyses_in reg_ids (db w)))
    /\ commits w' = db w :: commits w
    /\ (forall self dept stored current_hash,
          get_stored_hash self w' (lit "FBR:" ++ dept) = Ok stored ->
          page_unchanged stored current_hash = false).
Proof.
  intros count sources w reg_ids w' Hne. subst reg_ids w'.
  unfold simulate_new_regulations in *.
  destruct (is_empty (sources ≫= latest_of_source (db w) count)); [contradiction|].
  cbn [fst snd] in *.
  set (ids := Regulation.id <$> (sources ≫= latest_of_source (db w) count)) in *.
  repeat split.
  - intros a Ha Hin. simpl in Ha. apply elem_of_filter_bool in Ha.
    destruct Ha as [_ Ha]. apply negb_true_iff in Ha.
    apply mem_id_elem in Hin. congruence.
  - intros r Hr Hin. simpl in Hr. apply elem_of_filter_bool in Hr.
    destruct Hr as [_ Hr]. apply negb_true_iff in Hr.
    apply mem_id_elem in Hin. congruence.
  - intros Hfk a Ha. simpl in Ha. apply elem_of_filter_bool in Ha.
    destruct Ha as [Ha Hn]. destruct (Hfk a Ha) as (r & Hr & Hid).
    exists r. split; [|exact Hid]. simpl. apply elem_of_filter_bool.
    split; [exact Hr|]. rewrite Hid. exact Hn.
  - intros self dept stored current_hash H.
    assert (Hs : stored = None); [|rewrite Hs; reflexivity].
    unfold get_stored_hash in H.
    destruct (negb (flask_app self)); [discriminate|].
    injection H as <-.
    exact (f_equal (fmap PageHash.content_hash) (find_page_hash_purged _ dept)).
Qed.

End Purge.

Section PurgeScenario.
Import Py Hashlib AnalysisUtils Models Spiders App Scenario.

(** The two FBR documents of [analysed_world] are purged with their
    analyses and the FBR digest; the digest of the other feed stays. *)
Lemma simulate_new_regulations_purges_witness :
  let out := simulate_new_regulations 5 default_sources analysed_world in
  fst out = [1; 2]%Z
  /\ regulations (db (snd out)) = []
  /\ regulation_analyses (db (snd out)) = []
  /\ (PageHash.page_url <$> page_hashes (db (snd out)))
     = [lit "PAKCODE:ORDINANCES:PAGE1"]
  /\ commits (snd out) = db analysed_world :: commits analysed_world.
Proof.
  intros out.
  assert (Hids : fst out = [1; 2]%Z) by (vm_compute; reflexivity).
  destruct (simulate_new_regulations_purges 5 default_sources analysed_world)
    as (_ & _ & _ & _ & Hc & _).
  { fold out. rewrite Hids. discriminate. }
  split; [exact Hids|]. split; [vm_compute; reflexivity|].
  split; [vm_compute; reflexivity|]. split; [vm_compute; reflexivity|].
  exact Hc.
Defined.

(** C8, as the specification states it, fails for a document of a feed
    other than FBR.  The purge of the Pakistan Code document deletes the
    document but keeps the digest of its listing, and with that digest the
    Pakistan Code spider skips the unchanged listing at the next crawl: the
    document is not found again. *)
Lemma simulate_new_regulations_keeps_other_digests :
  let out := simulate_new_regulations 5 [lit "PAKCODE"] pakcode_world in
  (Regulation.source <$> regulations (db pakcode_world)) = [lit "PAKCODE"]
  /\ fst out = [1]%Z
  /\ regulations (db (snd out)) = []
  /\ get_stored_hash spider (snd out) PakistanCode.ordinances_key
     = Ok (Some pakcode_digest)
  /\ hash_urls pakcode_listing = Ok pakcode_digest
  /\ PakistanCode.listing_unchanged spider (Some pakcode_digest) pakcode_digest
     = true.
Proof. vm_compute. repeat split; reflexivity. Qed.

End PurgeScenario.

(** ** The run: a crawler that fails *)

Section RunFailure.
Import Py Hashlib AnalysisUtils Models Spiders App.

Variable crawl_fbr crawl_secp crawl_pcp : World -> result unit * World.
Variable env : Env.
Variable isalnum : char -> bool.
Variable lower : str -> str.
Variable analyze_with_bedrock :
  str -> Regulation.t -> str -> World -> result (option RegulationAnalysis.t) * World.
Variable send_alert :
  list (Regulation.t * option RegulationAnalysis.t) -> ScrapeLog.t -> result unit.
Variable str_of_exn : exn -> str.

(** The orchestration itself does not fail: the analysis call catches its
    own errors.  Neither it nor a crawler writes the log of runs. *)
Hypothesis analysis_returns :
  forall text reg kind w, exists a w',
    analyze_with_bedrock text reg kind w = (Ok a, w').
Hypothesis analysis_keeps_logs :
  forall text reg kind w,
    scrape_logs (db (snd (analyze_with_bedrock text reg kind w))) = scrape_logs (db w).
Hypothesis crawl_fbr_keeps_logs :
  forall w, scrape_logs (db (snd (crawl_fbr w))) = scrape_logs (db w).
Hypothesis crawl_secp_keeps_logs :
  forall w, scrape_logs (db (snd (crawl_secp w))) = scrape_logs (db w).
Hypothesis crawl_pcp_keeps_logs :
  forall w, scrape_logs (db (snd (crawl_pcp w))) = scrape_logs (db w).

Lemma analyze_new_returns (regs : list Regulation.t) (n : Z)
    (payload : list (Regulation.t * option RegulationAnalysis.t)) (w : World) :
  exists n' payload' w',
    analyze_new env isalnum lower analyze_with_bedrock regs n payload w
      = (Ok (n', payload'), w')
    /\ scrape_logs (db w') = scrape_logs (db w).
Proof.
  revert n payload w. induction regs as [|reg regs IH]; intros n payload w;
    cbn [analyze_new].
  - eauto.
  - destruct (reg_text env isalnum lower reg) as [[|c text]|].
    + apply IH.
    + destruct (analysis_returns (c :: text) reg (lit "identify") w) as (a & w1 & H1).
      pose proof (analysis_keeps_logs (c :: text) reg (lit "identify") w) as K1.
      rewrite H1 in K1 |- *. simpl in K1.
      destruct (analysis_returns (c :: text) reg (lit "classify") w1) as (a2 & w2 & H2).
      pose proof (analysis_keeps_logs (c :: text) reg (lit "classify") w1) as K2.
      rewrite H2 in K2 |- *. simpl in K2.
      destruct (IH (match a with Some _ => (n + 1)%Z | None => n end)
                   (payload ++ [(reg, a)]) w2) as (n' & p' & w' & H & K).
      exists n', p', w'. split; [exact H|]. congruence.
    + apply IH.
Qed.

Lemma run_spiders_keeps_logs (w : World) :
  scrape_logs (db (snd (run_spiders crawl_fbr crawl_secp crawl_pcp w)))
  = scrape_logs (db w).
Proof.
  unfold run_spiders.
  pose proof (crawl_fbr_keeps_logs w) as K1.
  destruct (crawl_fbr w) as [[[]|e] w1]; simpl in K1; [|exact K1].
  pose proof (crawl_secp_keeps_logs w1) as K2.
  destruct (crawl_secp w1) as [[[]|e] w2]; simpl in K2; [|simpl; congruence].
  rewrite crawl_pcp_keeps_logs. congruence.
Qed.

(** A failure of [run_spiders] is the failure of one crawl, and no crawl
    sequenced after it has run. *)
Lemma run_spiders_raise (w w1 : World) (e : exn) :
  run_spiders crawl_fbr crawl_secp crawl_pcp w = (Raise e, w1) ->
  crawl_fbr w = (Raise e, w1)
  \/ (exists wa, crawl_fbr w = (Ok tt, wa) /\ crawl_secp wa = (Raise e, w1))
  \/ (exists wa wb, crawl_fbr w = (Ok tt, wa) /\ crawl_secp wa = (Ok tt, wb)
                    /\ crawl_pcp wb = (Raise e, w1)).
Proof.
  unfold run_spiders.
  destruct (crawl_fbr w) as [[[]|e1] wa]; [|intros H; left; exact H].
  destruct (crawl_secp wa) as [[[]|e2] wb] eqn:E2.
  - intros H. right. right. exists wa, wb. auto.
  - intros H. right. left. exists wa. injection H as -> ->. auto.
Qed.

Lemma next_id_fresh (ids : list Z) (i : Z) : i ∈ ids -> (i < next_id ids)%Z.
Proof.
  unfold next_id. induction ids as [|j ids IH]; intros H; [inversion H|].
  apply elem_of_cons in H. simpl. destruct H as [->|H]; [lia|].
  specialize (IH H). lia.
Qed.

Lemma find_updated_log (pre : list ScrapeLog.t) (nl log : ScrapeLog.t) (n : Z) :
  (forall l, l ∈ pre -> ScrapeLog.id l <> n) ->
  ScrapeLog.id nl = n -> ScrapeLog.id log = n ->
  List.find (fun l => (ScrapeLog.id l =? n)%Z)
    ((fun l => if (ScrapeLog.id l =? ScrapeLog.id log)%Z then log else l)
     <$> (pre ++ [nl]))
  = Some log.
Proof.
  intros Hpre Hnl Hlog. rewrite Hlog. induction pre as [|l pre IH]; simpl.
  - rewrite Hnl, Z.eqb_refl. simpl. rewrite Hlog, Z.eqb_refl. reflexivity.
  - assert (Hl : ScrapeLog.id l <> n) by (apply Hpre; left).
    destruct (Z.eqb_spec (ScrapeLog.id l) n) as [|_]; [contradiction|]. simpl.
    destruct (Z.eqb_spec (ScrapeLog.id l) n) as [|_]; [contradiction|].
    apply IH. intros l' Hl'. apply Hpre. right. exact Hl'.
Qed.

(** C5, amended.  When a crawl raises and the orchestration itself does not
    fail, [scrape_regulations] catches the failure and closes the run as a
    success; its count of new documents is the number of rows the table
    gained up to the failure; and the crawls sequenced after the failing
    one have not run. *)
Theorem scrape_regulations_crawler_failure :
  forall (w w1 : World) (e : exn),
    run_spiders crawl_fbr crawl_secp crawl_pcp (log_started w) = (Raise e, w1) ->
    let run :=
      scrape_regulations crawl_fbr crawl_secp crawl_pcp env isalnum lower
        analyze_with_bedrock send_alert str_of_exn w in
    fst (fst run) = (count_regulations w1 - count_regulations w)%Z
    /\ (exists log, run_log w (snd run) = Some log
          /\ ScrapeLog.status log = Some (lit "success")
          /\ ScrapeLog.new_downloads log
             = (count_regulations w1 - count_regulations w)%Z
          /\ ScrapeLog.regulations_found log = count_regulations w1)
    /\ (crawl_fbr (log_started w) = (Raise e, w1)
        \/ (exists wa, crawl_fbr (log_started w) = (Ok tt, wa)
                       /\ crawl_secp wa = (Raise e, w1))
        \/ (exists wa wb, crawl_fbr (log_started w) = (Ok tt, wa)
                          /\ crawl_secp wa = (Ok tt, wb)
                          /\ crawl_pcp wb = (Raise e, w1))).
Proof.
  intros w w1 e Hrun run. subst run.
  pose proof (run_spiders_keeps_logs (log_started w)) as Klogs.
  rewrite Hrun in Klogs. simpl in Klogs.
  unfold scrape_regulations. rewrite Hrun.
  match goal with
  | |- context [analyze_new _ _ _ _ ?regs ?n ?p ?w0] =>
      destruct (analyze_new_returns regs n p w0) as (n' & p' & w2 & Ha & Ka)
  end.
  rewrite Ha. simpl in Ka. cbn [fst snd].
  split; [reflexivity|]. split; [|apply run_spiders_raise, Hrun].
  eexists. split.
  { unfold run_log, update_log. cbn [db commit scrape_logs set_scrape_logs].
    rewrite Ka, Klogs.
    apply find_updated_log; try reflexivity.
    intros l Hl Heq.
    assert (Hin : ScrapeLog.id l ∈ (ScrapeLog.id <$> scrape_logs (db w))).
    { apply list_elem_of_fmap. exists l. auto. }
    apply next_id_fresh in Hin. lia. }
  repeat split; reflexivity.
Qed.

End RunFailure.

Section RunScenario.
Import Py Hashlib AnalysisUtils Models Spiders App Scenario.

Lemma crawl_one_keeps_logs (source ref_number : str) (w : World) :
  scrape_logs (db (snd (crawl_one source ref_number w))) = scrape_logs (db w).
Proof.
  unfold crawl_one, save_pdf. cbn [spider flask_app negb].
  unfold add_regulation.
  destruct (find_regulation _ _); reflexivity.
Qed.

(** C5, as the specification states it, fails.  The SECP crawl raises
    between an FBR crawl and a PCP crawl that each find one new document.
    The run ends as a success, but the PCP crawl never ran: its document is
    not stored, and the count of new documents is 1, not the 2 that FBR and
    PCP account for. *)
Lemma scrape_regulations_skips_later_crawlers :
  let new_downloads := fst (fst run_secp_broken) in
  let w' := snd run_secp_broken in
  (ScrapeLog.status <$> run_log world0 w') = Some (Some (lit "success"))
  /\ new_downloads = 1%Z
  /\ new_downloads <> 2%Z
  /\ (Regulation.source <$> regulations (db w')) = [lit "FBR"]
  /\ fst (crawl_one (lit "PCP") (lit "4521") w') = Ok tt
  /\ (Regulation.source <$>
        regulations (db (snd (crawl_one (lit "PCP") (lit "4521") w'))))
     = [lit "FBR"; lit "PCP"].
Proof. vm_compute. repeat split; try reflexivity. discriminate. Qed.

(** The run of the scenario, through the theorem. *)
Lemma scrape_regulations_crawler_failure_witness :
  fst (fst run_secp_broken) = 1%Z
  /\ exists log, run_log world0 (snd run_secp_broken) = Some log
       /\ ScrapeLog.status log = Some (lit "success").
Proof.
  destruct (scrape_regulations_crawler_failure
              (crawl_one (lit "FBR") (lit "SRO 1437")) crawl_broken
              (crawl_one (lit "PCP") (lit "4521"))
              no_files ascii_isalnum ascii_lower no_analysis no_alert exn_name
              ltac:(intros; eexists; eexists; reflexivity)
              ltac:(intros; reflexivity)
              (crawl_one_keeps_logs _ _)
              ltac:(intros; reflexivity)
              (crawl_one_keeps_logs _ _)
              world0
              (snd (crawl_one (lit "FBR") (lit "SRO 1437") (log_started world0)))
              OSError ltac:(vm_compute; reflexivity))
    as (Hn & (log & Hl & Hs & _) & _).
  split.
  - etrans; [exact Hn|]. vm_compute. reflexivity.
  - exists log. split; [exact Hl|exact Hs].
Defined.

End RunScenario.

(* ================================================================= *)
(** * Further properties of the code *)

(** ** The digests of listings: [store_hash], [get_stored_hash] *)

Section PageHashes.
Import Py Hashlib AnalysisUtils Models Spiders App Store.

Lemma find_page_hash_Some (d : DB) (key : str) (h : PageHash.t) :
  find_page_hash d key = Some h -> h ∈ page_hashes d /\ PageHash.page_url h = key.
Proof.
  unfold find_page_hash. intros H. apply find_some in H. destruct H as [H1 H2].
  split; [apply list_elem_of_In, H1|apply str_eqb_eq, H2].
Qed.

Lemma find_page_hash_None (d : DB) (key : str) :
  find_page_hash d key = None -> key ∉ (PageHash.page_url <$> page_hashes d).
Proof.
  unfold find_page_hash. intros H Hin.
  apply list_elem_of_fmap in Hin. destruct Hin as (h & -> & Hh).
  apply list_elem_of_In in Hh. pose proof (find_none _ _ H h Hh) as Hn.
  simpl in Hn.
  assert (Ht : str_eqb (PageHash.page_url h) (PageHash.page_url h) = true)
    by (apply str_eqb_eq; reflexivity).
  congruence.
Qed.

Lemma str_eqb_neq (a b : str) : a <> b -> str_eqb a b = false.
Proof.
  intros H. destruct (str_eqb a b) eqn:E; [|reflexivity].
  apply str_eqb_eq in E. contradiction.
Qed.

(** Two rows of a table with a unique key that agree on the key are one
    row. *)
Lemma unique_key_row {A K} (key : A -> K) (l : list A) (x y : A) :
  NoDup (key <$> l) -> x ∈ l -> y ∈ l -> key x = key y -> x = y.
Proof.
  induction l as [|z l IH]; intros Hnd Hx Hy Hk; [inversion Hx|].
  rewrite fmap_cons in Hnd. apply NoDup_cons in Hnd. destruct Hnd as [Hz Hnd].
  apply elem_of_cons in Hx. apply elem_of_cons in Hy.
  destruct Hx as [->|Hx], Hy as [->|Hy].
  - reflexivity.
  - exfalso. apply Hz. rewrite Hk. apply list_elem_of_fmap. eauto.
  - exfalso. apply Hz. rewrite <- Hk. apply list_elem_of_fmap. eauto.
  - apply IH; assumption.
Qed.

(** The first row with the key, in a table where rows were replaced by rows
    that keep the answer of the test. *)
Lemma find_fmap_same {A} (f : A -> bool) (g : A -> A) (l : list A) :
  (forall x, x ∈ l -> f (g x) = f x /\ (f x = true -> g x = x)) ->
  List.find f (g <$> l) = List.find f l.
Proof.
  induction l as [|x l IH]; intros H; [reflexivity|].
  rewrite fmap_cons. simpl.
  destruct (H x ltac:(left)) as [H1 H2]. rewrite H1.
  destruct (f x) eqn:E; [rewrite H2; reflexivity|].
  apply IH. intros y Hy. apply H. right. exact Hy.
Qed.

Lemma find_app_None {A} (f : A -> bool) (l k : list A) :
  List.find f l = None -> List.find f (l ++ k) = List.find f k.
Proof.
  induction l as [|x l IH]; simpl; [reflexivity|].
  destruct (f x); [discriminate|exact IH].
Qed.

Lemma find_app_Some {A} (f : A -> bool) (l k : list A) (x : A) :
  List.find f l = Some x -> List.find f (l ++ k) = Some x.
Proof.
  induction l as [|y l IH]; simpl; [discriminate|].
  destruct (f y); [auto|exact IH].
Qed.

Lemma store_hash_read_back (self : BaseSpider) (key h : str) (w : World) :
  flask_app self = true ->
  get_stored_hash self (snd (store_hash self key h w)) key = Ok (Some h).
Proof.
  intros Hf. unfold store_hash, get_stored_hash. rewrite Hf. cbn [negb].
  destruct (find_page_hash (db w) key) as [hr|] eqn:E; cbn [fst snd].
  - destruct (find_page_hash_Some _ _ _ E) as [Hin Hkey].
    f_equal. unfold find_page_hash in *. cbn [db commit page_hashes set_page_hashes].
    revert E. generalize (page_hashes (db w)). intros l.
    induction l as [|x l IH]; intros E; [discriminate|].
    rewrite fmap_cons. simpl in E |- *.
    destruct (Z.eqb_spec (PageHash.id x) (PageHash.id hr)) as [Hid|Hid].
    + cbn [PageHash.page_url]. rewrite Hkey.
      rewrite (proj2 (str_eqb_eq key key) eq_refl). reflexivity.
    + destruct (str_eqb (PageHash.page_url x) key) eqn:Ex.
      { injection E as ->. contradiction. }
      apply IH, E.
  - f_equal. unfold find_page_hash in *. cbn [db commit page_hashes set_page_hashes].
    rewrite (find_app_None _ _ _ E). simpl.
    rewrite (proj2 (str_eqb_eq key key) eq_refl). reflexivity.
Qed.

(** X1.  [store_hash] then [get_stored_hash]: the digest stored under a key
    is the digest read back under it; the digest of every other key and the
    table of regulations are as before. *)
Theorem store_hash_get_stored_hash :
  forall (self : BaseSpider) (key h : str) (w : World),
    flask_app self = true ->
    NoDup (PageHash.id <$> page_hashes (db w)) ->
    let w' := snd (store_hash self key h w) in
    fst (store_hash self key h w) = Ok tt
    /\ get_stored_hash self w' key = Ok (Some h)
    /\ (forall key', key' <> key ->
          get_stored_hash self w' key' = get_stored_hash self w key')
    /\ regulations (db w') = regulations (db w).
Proof.
  intros self key h w Hf Hpk w'. subst w'.
  unfold store_hash, get_stored_hash. rewrite Hf. cbn [negb].
  destruct (find_page_hash (db w) key) as [hr|] eqn:E; cbn [fst snd].
  - destruct (find_page_hash_Some _ _ _ E) as [Hin Hkey].
    split; [reflexivity|]. split; [|split; [|reflexivity]].
    + f_equal. unfold find_page_hash in *. cbn [db commit page_hashes set_page_hashes].
      revert E. generalize (page_hashes (db w)). intros l.
      induction l as [|x l IH]; intros E; [discriminate|].
      rewrite fmap_cons. simpl in E |- *.
      destruct (Z.eqb_spec (PageHash.id x) (PageHash.id hr)) as [Hid|Hid].
      * cbn [PageHash.page_url]. rewrite Hkey.
        rewrite (proj2 (str_eqb_eq key key) eq_refl). reflexivity.
      * destruct (str_eqb (PageHash.page_url x) key) eqn:Ex.
        { injection E as ->. contradiction. }
        apply IH, E.
    + intros key' Hne. f_equal. f_equal. unfold find_page_hash.
      cbn [db commit page_hashes set_page_hashes].
      apply find_fmap_same. intros x Hx.
      destruct (Z.eqb_spec (PageHash.id x) (PageHash.id hr)) as [Hid|Hid];
        [|split; reflexivity].
      assert (x = hr) by (eapply (unique_key_row PageHash.id); eassumption).
      subst x. cbn [PageHash.page_url]. rewrite Hkey.
      rewrite (str_eqb_neq key key') by congruence. split; [reflexivity|discriminate].
  - split; [reflexivity|]. split; [|split; [|reflexivity]].
    + f_equal. unfold find_page_hash in *. cbn [db commit page_hashes set_page_hashes].
      rewrite (find_app_None _ _ _ E). simpl.
      rewrite (proj2 (str_eqb_eq key key) eq_refl). reflexivity.
    + intros key' Hne. f_equal. f_equal. unfold find_page_hash.
      cbn [db commit page_hashes set_page_hashes].
      destruct (List.find _ (page_hashes (db w))) as [x|] eqn:E'.
      * apply (find_app_Some _ _ _ _ E').
      * rewrite (find_app_None _ _ _ E'). simpl.
        rewrite (str_eqb_neq key key') by congruence. reflexivity.
Qed.

End PageHashes.

Section PageHashesInvariant.
Import Py Hashlib AnalysisUtils Models Spiders App Store Scenario.

Lemma store_hash_get_stored_hash_witness :
  get_stored_hash spider
    (snd (store_hash spider (lit "FBR:Customs") (lit "0f") analysed_world))
    (lit "FBR:Customs") = Ok (Some (lit "0f"))
  /\ get_stored_hash spider
       (snd (store_hash spider (lit "FBR:Customs") (lit "0f") analysed_world))
       (lit "FBR:Income Tax") = Ok (Some (lit "abc")).
Proof.
  destruct (store_hash_get_stored_hash spider (lit "FBR:Customs") (lit "0f")
              analysed_world eq_refl) as (_ & H1 & H2 & _).
  { vm_compute. repeat constructor; intros H;
      repeat (apply elem_of_cons in H as [H|H]; [discriminate H|]); inversion H. }
  split; [exact H1|]. rewrite H2; [vm_compute; reflexivity|].
  intros H. vm_compute in H. discriminate H.
Defined.

(** X2.  [store_hash] keeps one record per page key: on a table whose
    primary keys and page keys are unique it leaves them unique; it changes
    the record of the key if there is one, and adds one record otherwise. *)
Theorem store_hash_one_record_per_key :
  forall (self : BaseSpider) (key h : str) (w : World),
    page_hashes_wf (db w) ->
    let w' := snd (store_hash self key h w) in
    page_hashes_wf (db w')
    /\ (key ∈ (PageHash.page_url <$> page_hashes (db w)) ->
        (PageHash.page_url <$> page_hashes (db w'))
        = (PageHash.page_url <$> page_hashes (db w)))
    /\ (flask_app self = true ->
        key ∉ (PageHash.page_url <$> page_hashes (db w)) ->
        (PageHash.page_url <$> page_hashes (db w'))
        = (PageHash.page_url <$> page_hashes (db w)) ++ [key]).
Proof.
  intros self key h w [Hpk Hurl] w'. subst w'. unfold store_hash, page_hashes_wf.
  destruct (negb (flask_app self)) eqn:Hf.
  { cbn [snd]. split; [split; assumption|]. split; [reflexivity|].
    intros Ht. rewrite Ht in Hf. discriminate Hf. }
  destruct (find_page_hash (db w) key) as [hr|] eqn:E; cbn [snd].
  - destruct (find_page_hash_Some _ _ _ E) as [Hin Hkey].
    cbn [db commit page_hashes set_page_hashes].
    assert (Hids : (PageHash.id <$>
              ((fun x => if (PageHash.id x =? PageHash.id hr)%Z
                         then {| PageHash.id := PageHash.id hr;
                                 PageHash.page_url := PageHash.page_url hr;
                                 PageHash.content_hash := h;
                                 PageHash.last_checked := utcnow w |}
                         else x) <$> page_hashes (db w)))
            = (PageHash.id <$> page_hashes (db w))).
    { rewrite <- list_fmap_compose. apply list_fmap_ext. intros i x _. simpl.
      destruct (Z.eqb_spec (PageHash.id x) (PageHash.id hr)); [symmetry; assumption|reflexivity]. }
    assert (Hurls : (PageHash.page_url <$>
              ((fun x => if (PageHash.id x =? PageHash.id hr)%Z
                         then {| PageHash.id := PageHash.id hr;
                                 PageHash.page_url := PageHash.page_url hr;
                                 PageHash.content_hash := h;
                                 PageHash.last_checked := utcnow w |}
                         else x) <$> page_hashes (db w)))
            = (PageHash.page_url <$> page_hashes (db w))).
    { rewrite <- list_fmap_compose. apply list_fmap_ext. intros i x Hx. simpl.
      destruct (Z.eqb_spec (PageHash.id x) (PageHash.id hr)) as [Hid|]; [|reflexivity].
      apply list_elem_of_lookup_2 in Hx.
      rewrite (unique_key_row PageHash.id _ x hr Hpk Hx Hin Hid). reflexivity. }
    split; [split; [rewrite Hids|rewrite Hurls]; assumption|].
    split; [intros _; exact Hurls|].
    intros _ Hnin. exfalso. apply Hnin. rewrite <- Hkey.
    apply list_elem_of_fmap. eauto.
  - pose proof (find_page_hash_None _ _ E) as Hnin.
    cbn [db commit page_hashes set_page_hashes].
    rewrite !fmap_app. cbn [fmap list_fmap PageHash.id PageHash.page_url].
    split; [split|].
    + apply NoDup_app. split; [exact Hpk|]. split; [|apply NoDup_singleton].
      intros i Hi Hi'. apply list_elem_of_singleton in Hi'. subst i.
      apply next_id_fresh in Hi. lia.
    + apply NoDup_app. split; [exact Hurl|]. split; [|apply NoDup_singleton].
      intros k Hk Hk'. apply list_elem_of_singleton in Hk'. subst k. contradiction.
    + split; [intros Hin; contradiction|reflexivity].
Qed.

Lemma store_hash_one_record_per_key_witness :
  (PageHash.page_url <$> page_hashes (db (snd
     (store_hash spider (lit "FBR:Income Tax") (lit "0f") analysed_world))))
  = [lit "FBR:Income Tax"; lit "PAKCODE:ORDINANCES:PAGE1"].
Proof.
  destruct (store_hash_one_record_per_key spider (lit "FBR:Income Tax") (lit "0f")
              analysed_world) as (_ & H & _).
  { split; vm_compute; repeat constructor; intros H;
      repeat (apply elem_of_cons in H as [H|H]; [discriminate H|]); inversion H. }
  rewrite H; [vm_compute; reflexivity|].
  vm_compute. left.
Defined.

End PageHashesInvariant.

(** ** The digest of a listing: [hash_urls] *)

Section ListingDigest.
Import Py Hashlib AnalysisUtils Models Spiders App Store.

Lemma sha256_round_length (w st : list N) (i : N) :
  length (sha256_round w st i) = length st.
Proof.
  unfold sha256_round.
  destruct st as [|a [|b [|c [|d [|e [|f [|g [|h [|x st]]]]]]]]]; reflexivity.
Qed.

Lemma foldl_length_inv {A B} (f : list A -> B -> list A) (l : list B) (st : list A) :
  (forall s x, length (f s x) = length s) -> length (foldl f st l) = length st.
Proof.
  intros H. revert st. induction l as [|x l IH]; intros st; simpl; [reflexivity|].
  rewrite IH. apply H.
Qed.

Lemma sha256_block_length (st : list N) (block : bytes) :
  length (sha256_block st block) = length st.
Proof.
  unfold sha256_block. rewrite length_zip_with.
  rewrite (foldl_length_inv (sha256_round _)) by apply sha256_round_length. lia.
Qed.

Lemma bind_length_const {A B} (f : A -> list B) (n : nat) (l : list A) :
  (forall x, length (f x) = n) -> length (l ≫= f) = (length l * n)%nat.
Proof.
  intros H. induction l as [|x l IH]; [reflexivity|].
  cbn [mbind list_bind]. rewrite length_app, H. simpl. rewrite <- IH. reflexivity.
Qed.

Lemma le_bytes_length (n : nat) (x : N) : length (le_bytes n x) = n.
Proof. revert x. induction n as [|n IH]; intros x; simpl; [|rewrite IH]; reflexivity. Qed.

Lemma sha256_length (msg : bytes) : length (sha256 msg) = 32%nat.
Proof.
  unfold sha256. rewrite (bind_length_const _ 4).
  - rewrite (foldl_length_inv sha256_block) by apply sha256_block_length. reflexivity.
  - intros x. unfold be_bytes. rewrite length_reverse. apply le_bytes_length.
Qed.

Lemma update_all_ok (m : bytes) (urls : list str) :
  Forall encodable urls -> exists m', update_all m urls = Ok m'.
Proof.
  intros H. revert m. induction H as [|u urls Hu _ IH]; intros m; simpl; [eauto|].
  destruct (encode_ok u Hu) as [b ->]. simpl. apply IH.
Qed.

(** X3.  Whenever [hash_urls] returns, the digest is a string of 64
    hexadecimal digits, so never the empty string; and it returns for every
    list of identifiers that UTF-8 can encode, the empty list included. *)
Theorem hash_urls_digest :
  forall urls : list str,
    (forall h, hash_urls urls = Ok h ->
       length h = 64%nat /\ Forall (fun c => is_hex_digit c = true) h)
    /\ (Forall encodable urls -> exists h, hash_urls urls = Ok h).
Proof.
  intros urls. split.
  - intros h H. unfold hash_urls in H.
    destruct (update_all [] (sorted urls)) as [m|e]; simpl in H; [|discriminate].
    injection H as <-. split; [|apply hexdigest_is_hex].
    rewrite hexdigest_length, sha256_length. reflexivity.
  - intros He. unfold hash_urls.
    destruct (update_all_ok [] (sorted urls)) as [m ->]; [|simpl; eauto].
    unfold sorted. rewrite merge_sort_Permutation. exact He.
Qed.

Lemma hash_urls_digest_witness :
  exists h, hash_urls [lit "SRO 2"; lit "SRO 1"] = Ok h /\ length h = 64%nat.
Proof.
  destruct (hash_urls_digest [lit "SRO 2"; lit "SRO 1"]) as [H1 H2].
  destruct H2 as [h Hh].
  { repeat constructor. }
  exists h. split; [exact Hh|]. exact (proj1 (H1 h Hh)).
Defined.

End ListingDigest.

(** ** A listing that has not changed: [parse_api] *)

Section Recrawl.
Import Py Hashlib AnalysisUtils Models Spiders App Store.

Variable isdecimal : char -> bool.
Variable py_int : str -> result Z.
Variable fromtimestamp : Z -> result date.
Variable strptime : str -> str -> result date.
Variable generate_fallback_ref : str -> str.

Lemma page_unchanged_same (h : str) : h <> [] -> page_unchanged (Some h) h = true.
Proof.
  intros Hne. unfold page_unchanged.
  rewrite (proj2 (str_eqb_eq h h) eq_refl). destruct h; [contradiction|reflexivity].
Qed.

(** X4.  A crawl of an FBR listing that [parse_api] has read to the end is
    not repeated while the listing shows the same rows: the next
    [parse_api] yields no request and writes nothing, whether or not the
    documents requested the first time were stored. *)
Theorem parse_api_unchanged_listing_skipped :
  forall (self : BaseSpider) (target : Target) (six_months_ago later : date)
         (rows : list FbrRow) (w w1 : World) (reqs : list Request),
    parse_api isdecimal py_int fromtimestamp strptime generate_fallback_ref
      self target six_months_ago rows w = ((reqs, Ok tt), w1) ->
    parse_api isdecimal py_int fromtimestamp strptime generate_fallback_ref
      self target later rows w1 = (([], Ok tt), w1).
Proof.
  intros self target c c' rows w w1 reqs H. unfold parse_api in *.
  destruct (is_empty rows); [injection H as _ <-; reflexivity|].
  destruct (hash_urls _) as [h|e] eqn:Eh; [|discriminate H].
  destruct (get_stored_hash self w _) as [stored|e] eqn:Eg; [|discriminate H].
  assert (Hf : flask_app self = true).
  { unfold get_stored_hash in Eg. destruct (flask_app self); [reflexivity|discriminate Eg]. }
  destruct (page_unchanged stored h) eqn:Ep.
  { injection H as _ <-. rewrite Eg, Ep. reflexivity. }
  destruct (parse_api_rows _ _ _ _ _ _ _ _ _ _) as [[reqs' [u|e]] wm];
    [|discriminate H].
  destruct (store_hash self _ h wm) as [res w2] eqn:Es.
  injection H as _ -> <-.
  assert (Hw : w2 = snd (store_hash self (lit "FBR:" ++ department target) h wm))
    by (rewrite Es; reflexivity).
  rewrite Hw, (store_hash_read_back self _ h wm Hf).
  rewrite page_unchanged_same; [reflexivity|].
  destruct (proj1 (hash_urls_digest _) h Eh) as [Hlen _].
  intros ->. discriminate Hlen.
Qed.

(** X5.  No write of the FBR spider lets two regulations share a canonical
    id: [save_pdf] and [parse_api] leave the ids unique, whatever they are
    given and whether they return or raise. *)
Theorem fbr_spider_keeps_ids_unique :
  forall (isalnum : char -> bool) (self : BaseSpider) (meta : Meta.t)
         (body : bytes) (target : Target) (six_months_ago : date)
         (rows : list FbrRow) (w : World),
    unique_ids (db w) ->
    unique_ids (db (snd (save_pdf isalnum self meta body w)))
    /\ unique_ids (db (snd (parse_api isdecimal py_int fromtimestamp strptime
                              generate_fallback_ref self target six_months_ago
                              rows w))).
Proof.
  intros isalnum self meta body target c rows w Hu. split.
  - unfold save_pdf. destruct (negb (flask_app self)); [exact Hu|].
    destruct (add_regulation _ _) as [pending|e] eqn:E; cbn [snd]; [|exact Hu].
    cbn [db commit]. eapply add_regulation_unique; [|exact E]. exact Hu.
  - assert (Hrow : forall r w, unique_ids (db w) ->
        unique_ids (db (snd (parse_api_row isdecimal py_int fromtimestamp strptime
                               generate_fallback_ref self target c r w)))).
    { clear w Hu. intros r w Hu. unfold parse_api_row.
      destruct (if is_empty (strip (CreationDate r)) then _ else _) as [issue|e];
        [|exact Hu].
      destruct (generate_regulation_id _ _ _ _) as [rid|e]; [|exact Hu].
      destruct (regulation_exists self w rid) as [[|]|e]; try exact Hu.
      destruct (_ && _); [exact Hu|].
      destruct (add_regulation _ _) as [pending|e] eqn:E; cbn [snd]; [|exact Hu].
      cbn [db commit]. eapply add_regulation_unique; [|exact E]. exact Hu. }
    assert (Hrows : forall rows w, unique_ids (db w) ->
        unique_ids (db (snd (parse_api_rows isdecimal py_int fromtimestamp strptime
                               generate_fallback_ref self target c rows w)))).
    { clear w Hu rows. intros rows. induction rows as [|r rows IH]; intros w Hu;
        cbn [parse_api_rows]; [exact Hu|].
      pose proof (Hrow r w Hu) as Hr.
      destruct (parse_api_row _ _ _ _ _ _ _ _ r w) as [[req|e] w']; cbn [snd] in Hr |- *;
        [|exact Hr].
      specialize (IH w' Hr).
      destruct (parse_api_rows _ _ _ _ _ _ _ _ rows w') as [[reqs res] w''].
      exact IH. }
    unfold parse_api. destruct (is_empty rows); [exact Hu|].
    destruct (hash_urls _) as [h|e]; [|exact Hu].
    destruct (get_stored_hash self w _) as [stored|e]; [|exact Hu].
    destruct (page_unchanged stored h); [exact Hu|].
    specialize (Hrows rows w Hu).
    destruct (parse_api_rows _ _ _ _ _ _ _ _ rows w) as [[reqs [u|e]] wm];
      cbn [snd] in Hrows |- *; [|exact Hrows].
    destruct (store_hash self _ h wm) as [res w2] eqn:Es. cbn [snd].
    assert (Hw : w2 = snd (store_hash self (lit "FBR:" ++ department target) h wm))
      by (rewrite Es; reflexivity).
    rewrite Hw. unfold store_hash, unique_ids in *.
    destruct (negb (flask_app self)); [exact Hrows|].
    destruct (find_page_hash (db wm) _); exact Hrows.
Qed.

End Recrawl.

Section RecrawlScenario.
Import Py Hashlib AnalysisUtils Models Spiders App Store Scenario Cases.

(** The listing of the scenario, read a second time. *)
Lemma parse_api_unchanged_listing_skipped_witness :
  parse_api Strptime.is_digit Strptime.ascii_int Strptime.utc_fromtimestamp
    Strptime.strptime (fun url => url) spider income_tax (Date 2025 9 1)
    [sro_1437; sro_1437] (snd listing_twice)
  = (([], Ok tt), snd listing_twice).
Proof.
  assert (H : exists reqs, listing_twice = ((reqs, Ok tt), snd listing_twice)).
  { eexists. vm_compute. reflexivity. }
  destruct H as [reqs H].
  exact (parse_api_unchanged_listing_skipped _ _ _ _ _ spider income_tax
           (Date 2025 4 1) (Date 2025 9 1) [sro_1437; sro_1437] world0 _ reqs H).
Defined.

(** A store that holds SRO 1437: a second download of it is refused, and a
    listing that shows it beside an older notification adds the older one
    only. *)
Lemma fbr_spider_keeps_ids_unique_witness :
  let w := snd (crawl_one (lit "FBR") (lit "SRO 1437") world0) in
  let downloaded :=
    save_pdf ascii_isalnum spider (meta_of (lit "FBR") (lit "SRO 1437")) pdf w in
  let listed :=
    parse_api Strptime.is_digit Strptime.ascii_int Strptime.utc_fromtimestamp
      Strptime.strptime (fun url => url) spider income_tax (Date 2025 4 1)
      [sro_1437; sro_0900] w in
  fst downloaded = Raise IntegrityError
  /\ unique_ids (db (snd downloaded))
  /\ snd (fst listed) = Ok tt
  /\ length (regulations (db (snd listed))) = 2%nat
  /\ unique_ids (db (snd listed)).
Proof.
  intros w downloaded listed.
  destruct (fbr_spider_keeps_ids_unique Strptime.is_digit Strptime.ascii_int
              Strptime.utc_fromtimestamp Strptime.strptime (fun url => url)
              ascii_isalnum spider (meta_of (lit "FBR") (lit "SRO 1437")) pdf
              income_tax (Date 2025 4 1) [sro_1437; sro_0900] w) as [H1 H2].
  { vm_compute. repeat constructor. intros H. inversion H. }
  split; [vm_compute; reflexivity|]. split; [exact H1|].
  split; [vm_compute; reflexivity|]. split; [vm_compute; reflexivity|exact H2].
Defined.

End RecrawlScenario.

(** ** Storing a download: [save_pdf] *)

Section SavePdf.
Import Py Hashlib AnalysisUtils Models Spiders App Store.

Variable isalnum : char -> bool.

Lemma read_file_written (w : World) (path : str) (content : bytes) :
  read_file (write_file w path content) path = Some content.
Proof.
  unfold read_file, write_file. cbn [files List.find fst].
  rewrite (proj2 (str_eqb_eq path path) eq_refl). reflexivity.
Qed.

Lemma save_pdf_writes_file (self : BaseSpider) (meta : Meta.t) (body : bytes)
    (w : World) :
  flask_app self = true ->
  read_file (snd (save_pdf isalnum self meta body w)) (pdf_path isalnum meta)
  = Some body.
Proof.
  intros Hf. unfold save_pdf. rewrite Hf. cbn [negb].
  destruct (add_regulation _ _); cbn [snd]; apply read_file_written.
Qed.

(** X6.  A download of an id that is not stored: [save_pdf] returns, the
    table gains exactly one row, found under the id, with status new, the
    SHA-256 of the body as content hash and as file path the path of a file
    that holds the body; and it is one commit. *)
Theorem save_pdf_stores :
  forall (self : BaseSpider) (meta : Meta.t) (body : bytes) (w : World),
    flask_app self = true ->
    regulation_exists self w (Meta.regulation_id meta) = Ok false ->
    let w' := snd (save_pdf isalnum self meta body w) in
    fst (save_pdf isalnum self meta body w) = Ok tt
    /\ regulation_exists self w' (Meta.regulation_id meta) = Ok true
    /\ (exists row,
          regulations (db w') = regulations (db w) ++ [row]
          /\ find_regulation (db w') (Meta.regulation_id meta) = Some row
          /\ Regulation.status row = Some (lit "new")
          /\ Regulation.content_hash row = Some (hexdigest (sha256 body))
          /\ Regulation.file_path row = Some (pdf_path isalnum meta)
          /\ read_file w' (pdf_path isalnum meta) = Some body)
    /\ commits w' = db w :: commits w.
Proof.
  intros self meta body w Hf Hex w'.
  assert (Hnone : find_regulation (db w) (Meta.regulation_id meta) = None).
  { unfold regulation_exists in Hex. rewrite Hf in Hex. cbn [negb] in Hex.
    destruct (find_regulation _ _); [injection Hex as Hex; discriminate Hex|reflexivity]. }
  pose proof (save_pdf_writes_file self meta body w Hf) as Hfile. fold w' in Hfile.
  subst w'. unfold save_pdf in *. rewrite Hf in *. cbn [negb] in *.
  unfold add_regulation in *.
  cbn [db write_file Regulation.regulation_id] in *. rewrite Hnone in *.
  cbn [fst snd db commit regulations set_regulations commits] in *.
  assert (Hfind : forall row,
    Regulation.regulation_id row = Meta.regulation_id meta ->
    find_regulation (set_regulations (db w) (regulations (db w) ++ [row]))
      (Meta.regulation_id meta) = Some row).
  { intros row Hid. unfold find_regulation in *. cbn [regulations set_regulations].
    rewrite (find_app_None _ _ _ Hnone). cbn [List.find]. rewrite Hid.
    rewrite (proj2 (str_eqb_eq _ _) eq_refl). reflexivity. }
  split; [reflexivity|]. split; [|split; [|reflexivity]].
  - unfold regulation_exists. rewrite Hf. cbn [negb db commit].
    rewrite Hfind; reflexivity.
  - eexists. split; [reflexivity|]. split; [apply Hfind; reflexivity|].
    split; [reflexivity|]. split; [reflexivity|]. split; [reflexivity|].
    exact Hfile.
Qed.

(** X7.  A download of an id that is stored replaces the file on disk all
    the same: [save_pdf] writes the body before the commit that raises, so
    the stored row keeps its content hash while its file holds the new
    body. *)
Theorem save_pdf_conflict_replaces_file :
  forall (self : BaseSpider) (meta : Meta.t) (body : bytes) (w : World)
         (stored : Regulation.t),
    flask_app self = true ->
    find_regulation (db w) (Meta.regulation_id meta) = Some stored ->
    let w' := snd (save_pdf isalnum self meta body w) in
    fst (save_pdf isalnum self meta body w) = Raise IntegrityError
    /\ db w' = db w
    /\ find_regulation (db w') (Meta.regulation_id meta) = Some stored
    /\ read_file w' (pdf_path isalnum meta) = Some body.
Proof.
  intros self meta body w stored Hf Hs w'.
  pose proof (save_pdf_writes_file self meta body w Hf) as Hfile. fold w' in Hfile.
  destruct (find_regulation_Some _ _ _ Hs) as [Hin Hid].
  destruct (save_pdf_stored_raises isalnum self meta body w stored Hf Hin Hid)
    as [H1 H2].
  fold w' in H2. split; [exact H1|]. split; [exact H2|].
  split; [rewrite H2; exact Hs|exact Hfile].
Qed.

(** X8.  Two documents whose names on disk coincide: the second download
    overwrites the file of the first.  Both rows are stored with the same
    file path, and the file holds the body of the second. *)
Theorem save_pdf_shared_file :
  forall (self : BaseSpider) (m1 m2 : Meta.t) (b1 b2 : bytes) (w : World),
    flask_app self = true ->
    Meta.regulation_id m1 <> Meta.regulation_id m2 ->
    regulation_exists self w (Meta.regulation_id m1) = Ok false ->
    regulation_exists self w (Meta.regulation_id m2) = Ok false ->
    pdf_path isalnum m1 = pdf_path isalnum m2 ->
    let w1 := snd (save_pdf isalnum self m1 b1 w) in
    let w2 := snd (save_pdf isalnum self m2 b2 w1) in
    fst (save_pdf isalnum self m2 b2 w1) = Ok tt
    /\ (exists r1 r2,
          regulations (db w2) = regulations (db w) ++ [r1; r2]
          /\ Regulation.regulation_id r1 = Meta.regulation_id m1
          /\ Regulation.regulation_id r2 = Meta.regulation_id m2
          /\ Regulation.file_path r1 = Some (pdf_path isalnum m1)
          /\ Regulation.file_path r2 = Some (pdf_path isalnum m1)
          /\ Regulation.content_hash r1 = Some (hexdigest (sha256 b1)))
    /\ read_file w2 (pdf_path isalnum m1) = Some b2.
Proof.
  intros self m1 m2 b1 b2 w Hf Hne Hex1 Hex2 Hpath w1 w2.
  destruct (save_pdf_stores self m1 b1 w Hf Hex1)
    as (_ & _ & (r1 & Hr1 & Hf1 & _ & Hc1 & Hp1 & _) & _).
  fold w1 in Hr1, Hf1.
  assert (Hex2' : regulation_exists self w1 (Meta.regulation_id m2) = Ok false).
  { assert (E : find_regulation (db w) (Meta.regulation_id m2) = None).
    { unfold regulation_exists in Hex2. rewrite Hf in Hex2. cbn [negb] in Hex2.
      destruct (find_regulation (db w) (Meta.regulation_id m2));
        [injection Hex2 as Hex2; discriminate Hex2|reflexivity]. }
    destruct (find_regulation_Some _ _ _ Hf1) as [_ Hid1].
    unfold regulation_exists. rewrite Hf. cbn [negb].
    f_equal. unfold find_regulation in *. rewrite Hr1.
    rewrite (find_app_None _ _ _ E). cbn [List.find]. rewrite Hid1.
    rewrite (str_eqb_neq _ _ Hne). reflexivity. }
  destruct (save_pdf_stores self m2 b2 w1 Hf Hex2')
    as (Hok & _ & (r2 & Hr2 & Hf2 & _ & _ & Hp2 & Hfile) & _).
  fold w2 in Hr2, Hf2, Hfile.
  split; [exact Hok|]. split.
  - exists r1, r2. rewrite Hr2, Hr1, <- app_assoc.
    destruct (find_regulation_Some _ _ _ Hf1) as [_ Hid1].
    destruct (find_regulation_Some _ _ _ Hf2) as [_ Hid2].
    rewrite Hpath. repeat split; try assumption. rewrite <- Hpath. exact Hp1.
  - rewrite Hpath. exact Hfile.
Qed.

Lemma safe_ref_chars (s : str) (c : char) :
  c ∈ safe_ref isalnum s -> isalnum c = true \/ c = 95 \/ c = 45.
Proof.
  unfold safe_ref. intros H. apply list_elem_of_fmap in H.
  destruct H as (x & -> & _).
  destruct (isalnum x) eqn:E1; simpl; [left; exact E1|].
  destruct (N.eqb_spec x 95) as [->|]; simpl; [right; left; reflexivity|].
  destruct (N.eqb_spec x 45) as [->|]; simpl; right; [right|left]; reflexivity.
Qed.

(** X9.  The name of the file of a document has no slash, so the file is
    written directly into the downloads directory, whatever the reference
    number looks like: every character of the reference that is not
    alphanumeric, an underscore or a hyphen has become an underscore. *)
Theorem pdf_name_no_slash :
  forall meta : Meta.t,
    isalnum 47 = false ->
    (47 ∉ Meta.source meta) ->
    (47 ∉ pdf_name isalnum meta)
    /\ length (safe_ref isalnum (Meta.reference_number meta))
       = length (Meta.reference_number meta)
    /\ Forall (fun c => isalnum c = true \/ c = 95 \/ c = 45)
         (safe_ref isalnum (Meta.reference_number meta)).
Proof.
  intros meta Hal Hsrc. split; [|split].
  - unfold pdf_name. rewrite !elem_of_app.
    intros [H|[H|[H|[H|[H|H]]]]].
    + contradiction.
    + vm_compute in H. apply elem_of_cons in H as [H|H]; [discriminate H|inversion H].
    + apply safe_ref_chars in H. destruct H as [H|[H|H]]; [congruence|discriminate..].
    + vm_compute in H. apply elem_of_cons in H as [H|H]; [discriminate H|inversion H].
    + destruct (Meta.issue_date meta) as [d|]; cbn [opt_date_format] in H.
      * unfold date_str in H. change (lit "-") with [45] in H.
        rewrite !elem_of_app, !list_elem_of_singleton in H.
        pose proof (dec_fixed_digits 4 (year d)) as Hy.
        pose proof (dec_fixed_digits 2 (month d)) as Hm.
        pose proof (dec_fixed_digits 2 (day d)) as Hd.
        rewrite Forall_forall in Hy, Hm, Hd.
        destruct H as [H|[H|[H|[H|H]]]]; try discriminate;
          [apply Hy in H|apply Hm in H|apply Hd in H]; lia.
      * vm_compute in H.
        repeat (apply elem_of_cons in H as [H|H]; [discriminate H|]). inversion H.
    + vm_compute in H.
      repeat (apply elem_of_cons in H as [H|H]; [discriminate H|]). inversion H.
  - unfold safe_ref. apply length_fmap.
  - apply Forall_forall. intros c Hc. apply (safe_ref_chars _ _ Hc).
Qed.

End SavePdf.

Section SavePdfScenario.
Import Py Hashlib AnalysisUtils Models Spiders App Store Scenario.

Lemma save_pdf_stores_witness :
  regulation_exists spider
    (snd (save_pdf ascii_isalnum spider (meta_of (lit "FBR") (lit "SRO 1")) pdf
            world0))
    (Meta.regulation_id (meta_of (lit "FBR") (lit "SRO 1"))) = Ok true
  /\ read_file
       (snd (save_pdf ascii_isalnum spider (meta_of (lit "FBR") (lit "SRO 1")) pdf
               world0))
       (lit "./downloads/pdfs/FBR_SRO_1_2025-07-01.pdf") = Some pdf.
Proof.
  destruct (save_pdf_stores ascii_isalnum spider (meta_of (lit "FBR") (lit "SRO 1"))
              pdf world0 eq_refl eq_refl)
    as (_ & H1 & (row & _ & _ & _ & _ & _ & H2) & _).
  split; [exact H1|exact H2].
Defined.

Lemma save_pdf_conflict_replaces_file_witness :
  let w1 := snd (crawl_one (lit "FBR") (lit "SRO 1") world0) in
  let w2 := snd (save_pdf ascii_isalnum spider (meta_of (lit "FBR") (lit "SRO 1"))
                   (lit "%PDF-1.7") w1) in
  db w2 = db w1
  /\ read_file w2 (lit "./downloads/pdfs/FBR_SRO_1_2025-07-01.pdf")
     = Some (lit "%PDF-1.7").
Proof.
  intros w1 w2.
  assert (H : exists stored,
            find_regulation (db w1)
              (Meta.regulation_id (meta_of (lit "FBR") (lit "SRO 1"))) = Some stored).
  { eexists. vm_compute. reflexivity. }
  destruct H as [stored H].
  destruct (save_pdf_conflict_replaces_file ascii_isalnum spider
              (meta_of (lit "FBR") (lit "SRO 1")) (lit "%PDF-1.7") w1 stored
              eq_refl H) as (_ & H1 & _ & H2).
  split; [exact H1|exact H2].
Defined.

Lemma save_pdf_shared_file_witness :
  let w1 := snd (save_pdf ascii_isalnum spider (meta_of (lit "FBR") (lit "SRO 1"))
                   (lit "first") world0) in
  let w2 := snd (save_pdf ascii_isalnum spider (meta_of (lit "FBR") (lit "SRO_1"))
                   (lit "second") w1) in
  length (regulations (db w2)) = 2%nat
  /\ read_file w2 (lit "./downloads/pdfs/FBR_SRO_1_2025-07-01.pdf")
     = Some (lit "second").
Proof.
  intros w1 w2.
  assert (Hne : Meta.regulation_id (meta_of (lit "FBR") (lit "SRO 1"))
                <> Meta.regulation_id (meta_of (lit "FBR") (lit "SRO_1"))).
  { intros H. vm_compute in H. discriminate H. }
  destruct (save_pdf_shared_file ascii_isalnum spider
              (meta_of (lit "FBR") (lit "SRO 1")) (meta_of (lit "FBR") (lit "SRO_1"))
              (lit "first") (lit "second") world0 eq_refl Hne eq_refl eq_refl eq_refl)
    as (_ & (r1 & r2 & H1 & _) & H2).
  split; [|exact H2].
  fold w1 w2 in H1. rewrite H1. reflexivity.
Defined.

Lemma pdf_name_no_slash_witness :
  (47 ∉ pdf_name ascii_isalnum (meta_of (lit "FBR") (lit "S.R.O. 1437(I)/2025")))
  /\ pdf_name ascii_isalnum (meta_of (lit "FBR") (lit "S.R.O. 1437(I)/2025"))
     = lit "FBR_S_R_O__1437_I__2025_2025-07-01.pdf".
Proof.
  destruct (pdf_name_no_slash ascii_isalnum
              (meta_of (lit "FBR") (lit "S.R.O. 1437(I)/2025")) eq_refl) as (H & _).
  { intros H. vm_compute in H.
    repeat (apply elem_of_cons in H as [H|H]; [discriminate H|]). inversion H. }
  split; [exact H|vm_compute; reflexivity].
Defined.

End SavePdfScenario.

(** ** The Pakistan Code spider's [save_pdf] *)

Section PakistanCodeSavePdf.
Import Py Hashlib AnalysisUtils Models Spiders App Store.

Lemma find_fmap_test {A} (f : A -> bool) (g : A -> A) (l : list A) :
  (forall x, x ∈ l -> f (g x) = f x) ->
  List.find f (g <$> l) = g <$> List.find f l.
Proof.
  induction l as [|x l IH]; intros H; [reflexivity|].
  rewrite fmap_cons. simpl. rewrite (H x ltac:(left)).
  destruct (f x); [reflexivity|].
  apply IH. intros y Hy. apply H. right. exact Hy.
Qed.

(** X10.  The Pakistan Code spider's [save_pdf], with no other writer in
    between, stores or updates: it returns; a stored row is updated in
    place, the table keeping its rows' canonical ids and primary keys, and a
    missing row is added at the end; afterwards the row of the id has status
    downloaded, the SHA-256 of the body as content hash, and as file path
    the path of a file that holds the body.  Unique primary keys stay
    unique. *)
Theorem pakistan_code_save_pdf_upserts :
  forall (self : BaseSpider) (meta : Meta.t) (response_url : str) (body : bytes)
         (w : World),
    flask_app self = true ->
    regulations_pk (db w) ->
    let run := PakistanCode.save_pdf self meta response_url body (fun d => d) w in
    let ids := Regulation.regulation_id <$> regulations (db w) in
    fst run = Ok tt
    /\ Regulation.regulation_id <$> regulations (db (snd run))
       = match find_regulation (db w) (Meta.regulation_id meta) with
         | Some _ => ids
         | None => ids ++ [Meta.regulation_id meta]
         end
    /\ (exists row,
          find_regulation (db (snd run)) (Meta.regulation_id meta) = Some row
          /\ Regulation.status row = Some (lit "downloaded")
          /\ Regulation.content_hash row = Some (hexdigest (sha256 body))
          /\ Regulation.file_path row = Some (pakcode_path meta)
          /\ read_file (snd run) (pakcode_path meta) = Some body)
    /\ regulations_pk (db (snd run)).
Proof.
  intros self meta response_url body w Hf Hpk run ids. subst run ids.
  unfold PakistanCode.save_pdf. rewrite Hf. cbn [negb].
  fold (pakcode_path meta).
  set (w1 := write_file w (pakcode_path meta) body).
  assert (Hfile1 : read_file w1 (pakcode_path meta) = Some body)
    by apply read_file_written.
  change (db (interfere w1 (fun d => d))) with (db w).
  change (db w1) with (db w).
  destruct (find_regulation (db w) (Meta.regulation_id meta)) as [reg|] eqn:E.
  - destruct (find_regulation_Some _ _ _ E) as [Hin Hid].
    cbn [fst snd db commit].
    set (fill := {| Regulation.id := Regulation.id reg |}).
    assert (Hfid : Regulation.id fill = Regulation.id reg) by reflexivity.
    assert (Hfrid : Regulation.regulation_id fill = Regulation.regulation_id reg)
      by reflexivity.
    set (g := fun r' : Regulation.t =>
                if (Regulation.id r' =? Regulation.id fill)%Z then fill else r').
    assert (Hg : forall r', r' ∈ regulations (db w) ->
                 Regulation.regulation_id (g r') = Regulation.regulation_id r'
                 /\ Regulation.id (g r') = Regulation.id r').
    { intros r' Hr'. unfold g.
      destruct (Z.eqb_spec (Regulation.id r') (Regulation.id fill)) as [e|];
        [|split; reflexivity].
      rewrite Hfid in e.
      pose proof (unique_key_row Regulation.id _ _ _ Hpk Hr' Hin e) as ->.
      split; assumption. }
    split; [reflexivity|]. unfold update_regulation. fold g.
    cbn [regulations set_regulations]. split; [|split].
    + rewrite <- list_fmap_compose. apply Forall_fmap_ext_1.
      apply Forall_forall. intros r' Hr'. apply (Hg r' Hr').
    + exists fill. split.
      * unfold find_regulation in *. cbn [regulations set_regulations].
        rewrite find_fmap_test.
        -- rewrite E. cbn [fmap option_fmap option_map]. unfold g.
           rewrite Hfid, Z.eqb_refl. reflexivity.
        -- intros r' Hr'. cbn beta. rewrite (proj1 (Hg r' Hr')). reflexivity.
      * repeat split; exact Hfile1.
    + unfold regulations_pk in *. cbn [regulations set_regulations].
      rewrite <- list_fmap_compose.
      assert (Heq : (Regulation.id ∘ g) <$> regulations (db w)
                    = Regulation.id <$> regulations (db w)).
      { apply Forall_fmap_ext_1. apply Forall_forall. intros r' Hr'. apply (Hg r' Hr'). }
      rewrite Heq. exact Hpk.
  - unfold add_regulation. cbn [Regulation.regulation_id].
    change (db (interfere w1 (fun d => d))) with (db w). rewrite E.
    cbn [fst snd db commit regulations set_regulations].
    split; [reflexivity|]. split; [|split].
    + rewrite fmap_app. reflexivity.
    + eexists. split.
      * unfold find_regulation in *. cbn [regulations set_regulations].
        rewrite (find_app_None _ _ _ E). cbn [List.find Regulation.set_id
          Regulation.regulation_id].
        rewrite (proj2 (str_eqb_eq _ _) eq_refl). reflexivity.
      * repeat split; exact Hfile1.
    + unfold regulations_pk in *. cbn [regulations set_regulations].
      rewrite fmap_app.
      apply NoDup_app. split; [exact Hpk|]. split.
      * intros x Hx Hx'. apply list_elem_of_singleton in Hx'.
        apply next_id_fresh in Hx. cbn [Regulation.set_id Regulation.id] in Hx'.
        lia.
      * apply NoDup_singleton.
Qed.

End PakistanCodeSavePdf.

Section PakistanCodeSavePdfScenario.
Import Py Hashlib AnalysisUtils Models Spiders App Store Scenario.

Lemma pakistan_code_save_pdf_upserts_witness :
  let run := PakistanCode.save_pdf spider (meta_of (lit "PAKCODE") (lit "Act X"))
               [] (lit "%PDF-1.7") (fun d => d) pakcode_world in
  fst run = Ok tt
  /\ length (regulations (db (snd run))) = 1%nat
  /\ read_file (snd run) (pakcode_path (meta_of (lit "PAKCODE") (lit "Act X")))
     = Some (lit "%PDF-1.7").
Proof.
  intros run.
  assert (Hpk : regulations_pk (db pakcode_world)).
  { vm_compute. repeat constructor. intros H. inversion H. }
  destruct (pakistan_code_save_pdf_upserts spider
              (meta_of (lit "PAKCODE") (lit "Act X")) [] (lit "%PDF-1.7")
              pakcode_world eq_refl Hpk) as (H1 & H2 & (row & _ & _ & _ & _ & H3) & _).
  fold run in H1, H2, H3.
  split; [exact H1|]. split; [|exact H3].
  rewrite <- (length_fmap Regulation.regulation_id), H2. vm_compute. reflexivity.
Defined.

End PakistanCodeSavePdfScenario.

(** ** Text extraction: what the gate and the fallback do besides *)

Section ExtractionMore.
Import Py Hashlib AnalysisUtils Models Spiders App Store.

Variable isalnum : char -> bool.
Variable lower : str -> str.

Lemma lstrip_head (s : str) :
  match lstrip s with [] => True | c :: _ => isspace c = false end.
Proof.
  induction s as [|c s IH]; simpl; [exact I|].
  destruct (isspace c) eqn:E; [exact IH|exact E].
Qed.

Lemma lstrip_fixed (s : str) :
  match s with [] => True | c :: _ => isspace c = false end -> lstrip s = s.
Proof. destruct s as [|c s]; simpl; [reflexivity|]. intros ->. reflexivity. Qed.

Lemma lstrip_idem (s : str) : lstrip (lstrip s) = lstrip s.
Proof. apply lstrip_fixed, lstrip_head. Qed.

Lemma rstrip_idem (s : str) : rstrip (rstrip s) = rstrip s.
Proof. unfold rstrip. rewrite reverse_involutive, lstrip_idem. reflexivity. Qed.

Lemma rstrip_head (s : str) :
  match s with [] => True | c :: _ => isspace c = false end ->
  match rstrip s with [] => True | c :: _ => isspace c = false end.
Proof.
  intros H. destruct (rstrip_prefix s) as [k Hk].
  destruct (rstrip s) as [|c l]; [exact I|]. rewrite Hk in H. exact H.
Qed.

Lemma strip_head (s : str) :
  match strip s with [] => True | c :: _ => isspace c = false end.
Proof. unfold strip. apply rstrip_head, lstrip_head. Qed.

Lemma strip_idem (s : str) : strip (strip s) = strip s.
Proof.
  unfold strip at 1. rewrite (lstrip_fixed _ (strip_head s)).
  unfold strip. apply rstrip_idem.
Qed.

(** X11.  The gate looks at the stripped text only: white space around the
    text does not change its answer, and stripping twice is stripping
    once. *)
Theorem needs_ocr_strip :
  forall text : str,
    needs_ocr isalnum lower (strip text) = needs_ocr isalnum lower text
    /\ strip (strip text) = strip text.
Proof.
  intros text. split; [|apply strip_idem].
  unfold needs_ocr. rewrite strip_idem.
  destruct text as [|c text]; [reflexivity|].
  cbn [is_empty]. destruct (strip (c :: text)) eqn:E; reflexivity.
Qed.

Lemma needs_ocr_false_long (text : str) :
  needs_ocr isalnum lower text = false -> (200 <= len (strip text))%Z.
Proof.
  unfold needs_ocr. destruct (is_empty text); [discriminate|].
  destruct (Z.ltb_spec (len (strip text)) 200); [discriminate|]. intros _. lia.
Qed.

Lemma or_None_nonempty (s : str) : or_None s <> Some [].
Proof. destruct s; discriminate. Qed.

Lemma len_nil_iff {A} (s : list A) : (len s = 0)%Z <-> s = [].
Proof. unfold len. destruct s; simpl; split; intros; try congruence; lia. Qed.

(** X12.  [extract_pdf_text] never returns the empty string: the answer is
    None or a text with at least one character, and it is None when there
    is no path, an empty path or no such file.  A caller may test the answer
    for truth or against None alike. *)
Theorem extract_pdf_text_never_empty :
  forall (env : Env) (file_path : option str) (max_chars : Z) (use_ocr : bool),
    extract_pdf_text isalnum lower env file_path max_chars use_ocr <> Some []
    /\ (match file_path with
        | None => True
        | Some p => p = [] \/ path_exists env p = false
        end ->
        extract_pdf_text isalnum lower env file_path max_chars use_ocr = None).
Proof.
  intros env file_path max_chars use_ocr. split.
  - unfold extract_pdf_text. destruct file_path as [p|]; [|discriminate].
    destruct (is_empty p || negb (path_exists env p)); [discriminate|].
    set (primary := pypdf_text env p max_chars).
    destruct (needs_ocr isalnum lower primary) eqn:En.
    + rewrite andb_false_r. destruct use_ocr; cbn [negb].
      * destruct (extract_pdf_text_with_gemini env (Some p) max_chars) as [[|c t]|];
          cbn [is_empty negb]; try apply or_None_nonempty. discriminate.
      * apply or_None_nonempty.
    + pose proof (needs_ocr_false_long _ En) as Hlen.
      destruct primary as [|c primary']; [discriminate En|]. cbn [is_empty negb andb].
      intros H. injection H as H. rewrite H in Hlen. unfold len in Hlen.
      simpl in Hlen. lia.
  - unfold extract_pdf_text. destruct file_path as [p|]; [|reflexivity].
    intros [->|H]; [reflexivity|]. rewrite H, orb_true_r. reflexivity.
Qed.

(** X13.  With the fallback switched off the answer is the stripped PyPDF
    text, or None when that is empty, whether the gate passes or not; so it
    does not depend on the OCR model at all. *)
Theorem extract_pdf_text_without_ocr :
  forall (env env' : Env) (p : str) (max_chars : Z),
    p <> [] -> path_exists env p = true ->
    path_exists env' p = true -> pdf_reader env' p = pdf_reader env p ->
    extract_pdf_text isalnum lower env (Some p) max_chars false
    = or_None (strip (pypdf_text env p max_chars))
    /\ extract_pdf_text isalnum lower env' (Some p) max_chars false
       = extract_pdf_text isalnum lower env (Some p) max_chars false.
Proof.
  intros env env' p max_chars Hp Hex Hex' Hrd.
  assert (H : forall e : Env, path_exists e p = true ->
            extract_pdf_text isalnum lower e (Some p) max_chars false
            = or_None (strip (pypdf_text e p max_chars))).
  { intros e He. unfold extract_pdf_text. rewrite He.
    destruct p as [|c0 p0]; [congruence|]. cbn [is_empty negb orb].
    set (primary := pypdf_text e (c0 :: p0) max_chars).
    destruct (needs_ocr isalnum lower primary) eqn:En.
    - rewrite andb_false_r. reflexivity.
    - pose proof (needs_ocr_false_long _ En) as Hlen.
      destruct primary as [|c primary']; [discriminate En|]. cbn [is_empty negb andb].
      destruct (strip (c :: primary')); [|reflexivity].
      unfold len in Hlen. simpl in Hlen. lia. }
  split; [apply H, Hex|]. rewrite (H env Hex), (H env' Hex').
  unfold pypdf_text. rewrite Hrd. reflexivity.
Qed.

(** X14.  When the PyPDF text passes the gate, the OCR model is not
    consulted: the answer is the same with the fallback on or off and
    whatever the model would have said, it has at least 200 characters, and
    it passes the gate itself. *)
Theorem extract_pdf_text_gate_passed :
  forall (env env' : Env) (p : str) (max_chars : Z) (use_ocr use_ocr' : bool),
    p <> [] -> path_exists env p = true ->
    path_exists env' p = true -> pdf_reader env' p = pdf_reader env p ->
    needs_ocr isalnum lower (pypdf_text env p max_chars) = false ->
    exists text,
      extract_pdf_text isalnum lower env (Some p) max_chars use_ocr = Some text
      /\ extract_pdf_text isalnum lower env' (Some p) max_chars use_ocr' = Some text
      /\ (200 <= len text)%Z
      /\ needs_ocr isalnum lower text = false.
Proof.
  intros env env' p max_chars use_ocr use_ocr' Hp Hex Hex' Hrd Hn.
  exists (strip (pypdf_text env p max_chars)).
  assert (Hpy : pypdf_text env' p max_chars = pypdf_text env p max_chars).
  { unfold pypdf_text. rewrite Hrd. reflexivity. }
  pose proof (needs_ocr_false_long _ Hn) as Hlen.
  assert (He : is_empty (pypdf_text env p max_chars) = false).
  { destruct (pypdf_text env p max_chars); [discriminate Hn|reflexivity]. }
  split; [|split; [|split]].
  - unfold extract_pdf_text. rewrite Hex.
    destruct p; [congruence|]. cbn [is_empty negb orb]. rewrite Hn, He. reflexivity.
  - unfold extract_pdf_text. rewrite Hex', Hpy.
    destruct p; [congruence|]. cbn [is_empty negb orb]. rewrite Hn, He. reflexivity.
  - exact Hlen.
  - rewrite (proj1 (needs_ocr_strip _)). exact Hn.
Qed.

(** X15.  A PyPDF text of white space only, with the model giving nothing:
    with the fallback on, the answer is that white space, unstripped (the
    last return of the function does not strip); with the fallback off it
    is None. *)
Theorem extract_pdf_text_white_space_only :
  forall (env : Env) (p : str) (max_chars : Z),
    p <> [] -> path_exists env p = true ->
    pypdf_text env p max_chars <> [] ->
    strip (pypdf_text env p max_chars) = [] ->
    extract_pdf_text_with_gemini env (Some p) max_chars = None ->
    extract_pdf_text isalnum lower env (Some p) max_chars true
    = Some (pypdf_text env p max_chars)
    /\ extract_pdf_text isalnum lower env (Some p) max_chars false = None.
Proof.
  intros env p max_chars Hp Hex Hne Hs Hocr.
  assert (Hn : needs_ocr isalnum lower (pypdf_text env p max_chars) = true).
  { unfold needs_ocr. rewrite Hs. destruct (is_empty _); reflexivity. }
  unfold extract_pdf_text. rewrite Hex, Hocr, Hn, andb_false_r, Hs.
  destruct p; [congruence|]. cbn [is_empty negb orb or_None].
  destruct (pypdf_text env _ max_chars); [congruence|]. split; reflexivity.
Qed.

Lemma total_len_app (a b : list str) :
  total_len (a ++ b) = (total_len a + total_len b)%Z.
Proof.
  unfold total_len. induction a as [|x a IH]; [reflexivity|].
  rewrite <- app_comm_cons, !fmap_cons. cbn [foldr]. rewrite IH. lia.
Qed.

Lemma total_len_nonneg (a : list str) : (0 <= total_len a)%Z.
Proof.
  unfold total_len. induction a as [|x a IH]; [simpl; lia|].
  rewrite fmap_cons. cbn [foldr]. unfold len at 1. lia.
Qed.

Lemma read_pages_below (texts : list (option str)) (rest : list page)
    (acc : list str) (max_chars : Z) :
  (texts = [] \/ total_len (acc ++ (or_empty <$> texts)) < max_chars)%Z ->
  read_pages ((PageText <$> texts) ++ rest) acc max_chars
  = read_pages rest (acc ++ (or_empty <$> texts)) max_chars.
Proof.
  revert acc. induction texts as [|t texts IH]; intros acc H.
  - simpl. rewrite app_nil_r. reflexivity.
  - destruct H as [H|H]; [discriminate H|].
    rewrite fmap_cons, <- app_comm_cons. cbn [read_pages]. fold (total_len (acc ++ [or_empty t])).
    rewrite fmap_cons, (cons_middle (or_empty t)), app_assoc in H.
    pose proof (total_len_app (acc ++ [or_empty t]) (or_empty <$> texts)) as Ha.
    pose proof (total_len_nonneg (or_empty <$> texts)) as Hb.
    destruct (Z.geb_spec (total_len (acc ++ [or_empty t])) max_chars); [lia|].
    rewrite IH; [|right; exact H].
    rewrite <- app_assoc. reflexivity.
Qed.

Lemma read_pages_reached (texts : list (option str)) (rest : list page)
    (acc : list str) (max_chars : Z) :
  texts <> [] ->
  (max_chars <= total_len (acc ++ (or_empty <$> texts)))%Z ->
  read_pages ((PageText <$> texts) ++ rest) acc max_chars
  = read_pages (PageText <$> texts) acc max_chars.
Proof.
  revert acc. induction texts as [|t texts IH]; intros acc Hne H; [congruence|].
  rewrite fmap_cons, <- app_comm_cons. cbn [read_pages].
  fold (total_len (acc ++ [or_empty t])).
  destruct (Z.geb_spec (total_len (acc ++ [or_empty t])) max_chars); [reflexivity|].
  rewrite fmap_cons, (cons_middle (or_empty t)), app_assoc in H.
  apply IH; [|exact H].
  intros ->. rewrite app_nil_r in H. lia.
Qed.

(** X16.  The PyPDF text is at most [max_chars] long, and it is all or
    nothing: when the reader fails, or a page raises before the pages read
    so far have reached [max_chars], the text of the pages already read is
    dropped and the PyPDF text is empty. *)
Theorem pypdf_text_all_or_nothing :
  forall (env : Env) (p : str) (max_chars : Z),
    (0 <= max_chars)%Z ->
    (len (pypdf_text env p max_chars) <= max_chars)%Z
    /\ (forall e, pdf_reader env p = Raise e -> pypdf_text env p max_chars = [])
    /\ (forall texts e rest,
          pdf_reader env p = Ok ((PageText <$> texts) ++ PageError e :: rest) ->
          (texts = [] \/ total_len (or_empty <$> texts) < max_chars)%Z ->
          pypdf_text env p max_chars = []).
Proof.
  intros env p max_chars Hm. split; [|split].
  - unfold pypdf_text.
    destruct (bind _ _) as [chunks|]; [|unfold len; simpl; lia].
    cbv zeta.
    match goal with
    | |- context [(?a >? ?b)%Z] => destruct (Z.gtb_spec a b)
    end; [apply slice_to_length; exact Hm|lia].
  - intros e He. unfold pypdf_text. rewrite He. reflexivity.
  - intros texts e rest Hr Hlt. unfold pypdf_text. rewrite Hr. cbn [bind].
    rewrite read_pages_below by exact Hlt. reflexivity.
Qed.

(** X17.  Once the pages read have reached [max_chars] no further page is
    read: what follows them in the document, a page that raises included,
    does not change the PyPDF text. *)
Theorem pypdf_text_stops_at_cap :
  forall (env env' : Env) (p : str) (max_chars : Z) (texts : list (option str))
         (rest : list page),
    pdf_reader env p = Ok ((PageText <$> texts) ++ rest) ->
    pdf_reader env' p = Ok (PageText <$> texts) ->
    texts <> [] ->
    (max_chars <= total_len (or_empty <$> texts))%Z ->
    pypdf_text env p max_chars = pypdf_text env' p max_chars.
Proof.
  intros env env' p max_chars texts rest Hr Hr' Hne Hcap.
  unfold pypdf_text. rewrite Hr, Hr'. cbn [bind].
  rewrite read_pages_reached by assumption. reflexivity.
Qed.

(** X18.  The OCR text: for a positive [max_chars], an answer of
    [extract_pdf_text_with_gemini] is never empty, is at most [max_chars]
    long and starts with no white space; and there is no answer without a
    model, without the file, or when the call raises. *)
Theorem extract_pdf_text_with_gemini_bounds :
  forall (env : Env) (file_path : option str) (max_chars : Z),
    (1 <= max_chars)%Z ->
    (forall text,
       extract_pdf_text_with_gemini env file_path max_chars = Some text ->
       text <> [] /\ (len text <= max_chars)%Z
       /\ match text with [] => True | c :: _ => isspace c = false end)
    /\ (gemini_model env = false
        \/ match file_path with
           | None => True
           | Some p => p = [] \/ path_exists env p = false
                       \/ exists e, gemini_text env p = Raise e
           end ->
        extract_pdf_text_with_gemini env file_path max_chars = None).
Proof.
  intros env file_path max_chars Hm. split.
  - intros text. unfold extract_pdf_text_with_gemini.
    destruct (negb (gemini_model env)); [discriminate|].
    destruct file_path as [p|]; [|discriminate].
    destruct (is_empty p || negb (path_exists env p)); [discriminate|].
    destruct (gemini_text env p) as [response_text|]; [|discriminate].
    set (t := strip (or_empty response_text)).
    pose proof (strip_head (or_empty response_text)) as Hh. fold t in Hh.
    destruct t as [|c t'] eqn:Et; [discriminate|]. cbn [is_empty].
    destruct (Z.gtb_spec (len (c :: t')) max_chars) as [Hgt|Hle];
      intros H; injection H as <-.
    + split; [|split].
      * unfold slice_to. destruct (Z.leb_spec 0 max_chars); [|lia].
        destruct (Z.to_nat max_chars) eqn:E; [lia|]. discriminate.
      * apply slice_to_length. lia.
      * unfold slice_to. destruct (Z.leb_spec 0 max_chars); [|lia].
        destruct (Z.to_nat max_chars) eqn:E; [lia|]. exact Hh.
    + split; [discriminate|]. split; [exact Hle|exact Hh].
  - unfold extract_pdf_text_with_gemini. intros [->|H]; [reflexivity|].
    destruct (negb (gemini_model env)); [reflexivity|].
    destruct file_path as [p|]; [|reflexivity].
    destruct H as [->|[H|[e H]]]; [reflexivity| |].
    + rewrite H, orb_true_r. reflexivity.
    + rewrite H. destruct (is_empty p || negb (path_exists env p)); reflexivity.
Qed.

End ExtractionMore.

Section ExtractionMoreWitness.
Import Py Hashlib AnalysisUtils Models Spiders App Store.

Lemma extract_pdf_text_never_empty_witness :
  let env := {| path_exists := fun _ => false;
                pdf_reader := fun _ => Raise OSError;
                gemini_model := true;
                gemini_text := fun _ => Ok (Some (lit "text")) |} in
  extract_pdf_text ascii_isalnum ascii_lower env (Some (lit "gone.pdf")) 12000 true
  = None.
Proof.
  intros env.
  apply (proj2 (extract_pdf_text_never_empty ascii_isalnum ascii_lower env
                  (Some (lit "gone.pdf")) 12000 true)).
  right. reflexivity.
Defined.

Lemma extract_pdf_text_without_ocr_witness :
  let env := {| path_exists := fun _ => true;
                pdf_reader := fun _ => Ok [PageText (Some (lit " stamp "))];
                gemini_model := true;
                gemini_text := fun _ => Ok (Some (lit "scanned text")) |} in
  extract_pdf_text ascii_isalnum ascii_lower env (Some (lit "doc.pdf")) 12000 false
  = Some (lit "stamp").
Proof.
  intros env.
  destruct (extract_pdf_text_without_ocr ascii_isalnum ascii_lower env env
              (lit "doc.pdf") 12000 ltac:(discriminate) eq_refl eq_refl eq_refl)
    as [H _].
  rewrite H. vm_compute. reflexivity.
Defined.

Lemma extract_pdf_text_gate_passed_witness :
  let body := replicate 200 97 in
  let env := {| path_exists := fun _ => true;
                pdf_reader := fun _ => Ok [PageText (Some (32 :: body))];
                gemini_model := true;
                gemini_text := fun _ => Ok (Some (lit "scanned text")) |} in
  extract_pdf_text ascii_isalnum ascii_lower env (Some (lit "doc.pdf")) 12000 true
  = Some body.
Proof.
  intros body env.
  destruct (extract_pdf_text_gate_passed ascii_isalnum ascii_lower env env
              (lit "doc.pdf") 12000 true false ltac:(discriminate) eq_refl eq_refl
              eq_refl) as (text & H1 & H2 & _).
  { vm_compute. reflexivity. }
  rewrite H1. rewrite <- H2. vm_compute. reflexivity.
Defined.

Lemma extract_pdf_text_white_space_only_witness :
  let env := {| path_exists := fun _ => true;
                pdf_reader := fun _ => Ok [PageText (Some (lit "  "))];
                gemini_model := false;
                gemini_text := fun _ => Raise OSError |} in
  extract_pdf_text ascii_isalnum ascii_lower env (Some (lit "doc.pdf")) 12000 true
  = Some (lit "  ")
  /\ extract_pdf_text ascii_isalnum ascii_lower env (Some (lit "doc.pdf")) 12000 false
     = None.
Proof.
  intros env.
  apply (extract_pdf_text_white_space_only ascii_isalnum ascii_lower env
           (lit "doc.pdf") 12000 ltac:(discriminate) eq_refl);
    [discriminate|reflexivity|reflexivity].
Defined.

Lemma pypdf_text_all_or_nothing_witness :
  let env := {| path_exists := fun _ => true;
                pdf_reader := fun _ =>
                  Ok [PageText (Some (lit "page one")); PageError ValueError];
                gemini_model := false;
                gemini_text := fun _ => Raise OSError |} in
  pypdf_text env (lit "doc.pdf") 12000 = [].
Proof.
  intros env.
  destruct (pypdf_text_all_or_nothing env (lit "doc.pdf") 12000 ltac:(lia))
    as (_ & _ & H).
  apply (H [Some (lit "page one")] ValueError []); [reflexivity|].
  right. vm_compute. reflexivity.
Defined.

Lemma pypdf_text_stops_at_cap_witness :
  let env := {| path_exists := fun _ => true;
                pdf_reader := fun _ =>
                  Ok [PageText (Some (lit "page one")); PageError ValueError];
                gemini_model := false;
                gemini_text := fun _ => Raise OSError |} in
  pypdf_text env (lit "doc.pdf") 4 = lit "page".
Proof.
  intros env.
  set (env' := {| path_exists := fun _ => true;
                  pdf_reader := fun _ => Ok [PageText (Some (lit "page one"))];
                  gemini_model := false;
                  gemini_text := fun _ => Raise OSError |}).
  rewrite (pypdf_text_stops_at_cap env env' (lit "doc.pdf") 4
             [Some (lit "page one")] [PageError ValueError] eq_refl eq_refl
             ltac:(discriminate) ltac:(vm_compute; discriminate)).
  vm_compute. reflexivity.
Defined.

Lemma extract_pdf_text_with_gemini_bounds_witness :
  let env := {| path_exists := fun _ => true;
                pdf_reader := fun _ => Ok [];
                gemini_model := true;
                gemini_text := fun _ => Ok (Some (lit "  scanned text ")) |} in
  exists text,
    extract_pdf_text_with_gemini env (Some (lit "doc.pdf")) 7 = Some text
    /\ text <> [] /\ (len text <= 7)%Z.
Proof.
  intros env. exists (lit "scanned").
  assert (H : extract_pdf_text_with_gemini env (Some (lit "doc.pdf")) 7
              = Some (lit "scanned")) by (vm_compute; reflexivity).
  split; [exact H|].
  destruct (extract_pdf_text_with_gemini_bounds env (Some (lit "doc.pdf")) 7
              ltac:(lia)) as [Hb _].
  destruct (Hb _ H) as (H1 & H2 & _). split; assumption.
Defined.

End ExtractionMoreWitness.

(** ** Date parsing: which reading wins *)

Section ParseDateOrder.
Import Py Hashlib AnalysisUtils Models Spiders App Store.

Variable isdecimal : char -> bool.
Variable py_int : str -> result Z.
Variable fromtimestamp : Z -> result date.
Variable strptime : str -> str -> result date.

Lemma try_formats_first (s : str) (pre post : list str) (fmt : str) (d : date) :
  (forall f, f ∈ pre ->
     exists e, strptime s f = Raise e /\ is_ValueError e = true) ->
  strptime s fmt = Ok d ->
  try_formats strptime s (pre ++ fmt :: post) = Ok (Some d).
Proof.
  intros Hpre Hfmt. induction pre as [|f pre IH]; simpl.
  - rewrite Hfmt. reflexivity.
  - destruct (Hpre f ltac:(left)) as (e & -> & ->).
    apply IH. intros f' Hf'. apply Hpre. right. exact Hf'.
Qed.

(** X19.  Which reading of a date text [parse_date] returns.  The
    /Date(ms)/ form, when it gives a date, wins over every format; otherwise
    the answer is the date of the first format of the list, in the order of
    the list, that parses the stripped text, whatever later formats would
    make of it; and white space around the text is ignored. *)
Theorem parse_date_order :
  forall (self : BaseSpider) (s : str),
    s <> [] ->
    let parse := parse_date isdecimal py_int fromtimestamp strptime self in
    (forall digits ms d,
       match_Date isdecimal (strip s) = Some digits ->
       py_int digits = Ok ms -> fromtimestamp ms = Ok d ->
       parse (Some s) = Ok (Some d))
    /\ (forall pre fmt post d,
          date_formats = pre ++ fmt :: post ->
          (match_Date isdecimal (strip s) = None
           \/ exists digits e, match_Date isdecimal (strip s) = Some digits
                /\ bind (py_int digits) fromtimestamp = Raise e) ->
          (forall f, f ∈ pre ->
             exists e, strptime (strip s) f = Raise e /\ is_ValueError e = true) ->
          strptime (strip s) fmt = Ok d ->
          parse (Some s) = Ok (Some d))
    /\ (strip s <> [] -> parse (Some (strip s)) = parse (Some s)).
Proof.
  intros self s Hs parse. subst parse.
  assert (He : is_empty s = false) by (destruct s; [congruence|reflexivity]).
  split; [|split].
  - intros digits ms d Hm Hi Hd. unfold parse_date. rewrite He, Hm, Hi.
    cbn [bind]. rewrite Hd. reflexivity.
  - intros pre fmt post d Hfmts Hms Hpre Hfmt. unfold parse_date. rewrite He.
    rewrite Hfmts.
    destruct Hms as [->|(digits & e & -> & ->)];
      apply try_formats_first; assumption.
  - intros Hne. unfold parse_date. rewrite He, strip_idem.
    destruct (strip s); [congruence|]. reflexivity.
Qed.

End ParseDateOrder.

Section ParseDateOrderWitness.
Import Py Hashlib AnalysisUtils Models Spiders App Store Scenario.

(** An ISO date: the two day-first formats ahead of %Y-%m-%d refuse it. *)
Lemma parse_date_order_witness :
  parse_date Strptime.is_digit Strptime.ascii_int Strptime.utc_fromtimestamp
    Strptime.strptime spider (Some (lit " 2025-07-01 ")) = Ok (Some (Date 2025 7 1)).
Proof.
  destruct (parse_date_order Strptime.is_digit Strptime.ascii_int
              Strptime.utc_fromtimestamp Strptime.strptime spider
              (lit " 2025-07-01 ") ltac:(discriminate)) as (_ & H & _).
  apply (H [lit "%d-%m-%Y"; lit "%d/%m/%Y"] (lit "%Y-%m-%d")
           (lit <$> ["%d.%m.%Y"; "%B %d, %Y"; "%B %d %Y"; "%d %B %Y"; "%d-%b-%Y";
                     "%d %b %Y"; "%b %d %Y"; "%d/%b/%Y"; "%b %d, %Y"]%string)).
  - reflexivity.
  - left. vm_compute. reflexivity.
  - intros f Hf.
    repeat (apply elem_of_cons in Hf as [->|Hf];
            [exists ValueError; vm_compute; split; reflexivity|]).
    inversion Hf.
  - vm_compute. reflexivity.
Defined.

End ParseDateOrderWitness.

(** ** The scraping cycle: the log of the run and the alert payload *)

Section RunCloses.
Import Py Hashlib AnalysisUtils Models Spiders App Store.

Variable crawl_fbr crawl_secp crawl_pcp : World -> result unit * World.
Variable env : Env.
Variable isalnum : char -> bool.
Variable lower : str -> str.
Variable analyze_with_bedrock :
  str -> Regulation.t -> str -> World -> result (option RegulationAnalysis.t) * World.
Variable send_alert :
  list (Regulation.t * option RegulationAnalysis.t) -> ScrapeLog.t -> result unit.
Variable str_of_exn : exn -> str.

(** Neither the analysis call nor a crawler writes the log of runs. *)
Hypothesis analysis_keeps_logs :
  forall text reg kind w,
    scrape_logs (db (snd (analyze_with_bedrock text reg kind w))) = scrape_logs (db w).
Hypothesis crawl_fbr_keeps_logs :
  forall w, scrape_logs (db (snd (crawl_fbr w))) = scrape_logs (db w).
Hypothesis crawl_secp_keeps_logs :
  forall w, scrape_logs (db (snd (crawl_secp w))) = scrape_logs (db w).
Hypothesis crawl_pcp_keeps_logs :
  forall w, scrape_logs (db (snd (crawl_pcp w))) = scrape_logs (db w).

Lemma analyze_new_keeps_logs (regs : list Regulation.t) (n : Z)
    (payload : list (Regulation.t * option RegulationAnalysis.t)) (w : World) :
  scrape_logs
    (db (snd (analyze_new env isalnum lower analyze_with_bedrock regs n payload w)))
  = scrape_logs (db w).
Proof.
  revert n payload w. induction regs as [|reg regs IH]; intros n payload w;
    cbn [analyze_new]; [reflexivity|].
  destruct (reg_text env isalnum lower reg) as [[|c text]|]; try apply IH.
  pose proof (analysis_keeps_logs (c :: text) reg (lit "identify") w) as K1.
  destruct (analyze_with_bedrock (c :: text) reg (lit "identify") w) as [[a|e] w1];
    cbn [snd] in K1; [|exact K1].
  pose proof (analysis_keeps_logs (c :: text) reg (lit "classify") w1) as K2.
  destruct (analyze_with_bedrock (c :: text) reg (lit "classify") w1) as [[a2|e] w2];
    cbn [snd] in K2; [|cbn [snd]; congruence].
  rewrite IH. congruence.
Qed.

Lemma crawls_keep_logs (w : World) :
  scrape_logs (db (snd (run_spiders crawl_fbr crawl_secp crawl_pcp w)))
  = scrape_logs (db w).
Proof.
  unfold run_spiders.
  pose proof (crawl_fbr_keeps_logs w) as K1.
  destruct (crawl_fbr w) as [[[]|e] w1]; cbn [snd] in K1; [|exact K1].
  pose proof (crawl_secp_keeps_logs w1) as K2.
  destruct (crawl_secp w1) as [[[]|e] w2]; cbn [snd] in K2; [|cbn [snd]; congruence].
  rewrite crawl_pcp_keeps_logs. congruence.
Qed.

Lemma update_last_log (pre : list ScrapeLog.t) (nl log : ScrapeLog.t) :
  ScrapeLog.id nl = next_id (ScrapeLog.id <$> pre) ->
  ScrapeLog.id log = ScrapeLog.id nl ->
  (fun l => if (ScrapeLog.id l =? ScrapeLog.id log)%Z then log else l)
  <$> (pre ++ [nl]) = pre ++ [log].
Proof.
  intros Hnl Hlog. rewrite fmap_app. f_equal.
  - rewrite <- (list_fmap_id pre) at 2. apply Forall_fmap_ext_1.
    apply Forall_forall. intros l Hl.
    assert (Hlt : (ScrapeLog.id l < next_id (ScrapeLog.id <$> pre))%Z).
    { apply next_id_fresh. apply list_elem_of_fmap. eauto. }
    destruct (Z.eqb_spec (ScrapeLog.id l) (ScrapeLog.id log)); [lia|reflexivity].
  - cbn. rewrite Hlog, Z.eqb_refl. reflexivity.
Qed.

(** X20.  Every run is closed.  Whatever the crawls and the analysis do,
    fail or not, [scrape_regulations] adds one row to the log of runs and
    leaves the earlier rows as they were; the row carries the start time,
    has a completion time, and its status is success, with the count of new
    documents that the call returns, or failed, with an error message and
    the answer (0, 0): it is never left running. *)
Theorem scrape_regulations_closes_run :
  forall w : World,
    let run :=
      scrape_regulations crawl_fbr crawl_secp crawl_pcp env isalnum lower
        analyze_with_bedrock send_alert str_of_exn w in
    exists log,
      scrape_logs (db (snd run)) = scrape_logs (db w) ++ [log]
      /\ ScrapeLog.started_at log = utcnow w
      /\ ScrapeLog.completed_at log <> None
      /\ ((ScrapeLog.status log = Some (lit "success")
           /\ ScrapeLog.error_message log = None
           /\ ScrapeLog.new_downloads log = fst (fst run))
          \/ (ScrapeLog.status log = Some (lit "failed")
              /\ ScrapeLog.error_message log <> None
              /\ ScrapeLog.new_downloads log = 0%Z
              /\ fst run = (0, 0)%Z)).
Proof.
  intros w run. subst run. unfold scrape_regulations.
  pose proof (crawls_keep_logs (log_started w)) as K1.
  destruct (run_spiders crawl_fbr crawl_secp crawl_pcp (log_started w))
    as [spider_error w1].
  cbn [snd] in K1.
  match goal with
  | |- context [analyze_new _ _ _ _ ?regs ?n ?p ?w0] =>
      pose proof (analyze_new_keeps_logs regs n p w0) as K2;
      destruct (analyze_new env isalnum lower analyze_with_bedrock regs n p w0)
        as [[[n' p']|e] w2]
  end; cbn [snd db commit scrape_logs set_regulations] in K2;
    rewrite K1 in K2; cbn [log_started db commit scrape_logs set_scrape_logs] in K2;
    eexists; (split; [|split; [|split]]);
    try (unfold update_log; cbn [fst snd db commit scrape_logs set_scrape_logs];
         rewrite K2; apply update_last_log; reflexivity);
    try reflexivity; try discriminate.
  - left. repeat split.
  - right. repeat split. discriminate.
Qed.

(** X21.  The alert payload of the loop over the new documents: when the
    loop returns, the payload has gained one entry for each new document,
    in their order, analysed or not; the count of analysed documents has
    grown by the number of entries that carry an analysis; and an entry
    carries one only if a non-empty text was extracted from its file. *)
Theorem analyze_new_payload :
  forall (regs : list Regulation.t) (n : Z)
         (payload : list (Regulation.t * option RegulationAnalysis.t)) (w : World)
         (n' : Z) (payload' : list (Regulation.t * option RegulationAnalysis.t))
         (w' : World),
    analyze_new env isalnum lower analyze_with_bedrock regs n payload w
    = (Ok (n', payload'), w') ->
    exists added,
      payload' = payload ++ added
      /\ fst <$> added = regs
      /\ n' = (n + len (omap snd added))%Z
      /\ (forall reg a, (reg, Some a) ∈ added ->
            exists text, reg_text env isalnum lower reg = Some text /\ text <> []).
Proof.
  induction regs as [|reg regs IH]; intros n payload w n' payload' w';
    cbn [analyze_new].
  - intros H. injection H as <- <- <-. exists []. rewrite app_nil_r.
    repeat split; [unfold len; simpl; lia|]. intros reg a Hin. inversion Hin.
  - assert (Hskip : forall n0 w0,
      analyze_new env isalnum lower analyze_with_bedrock regs n0
        (payload ++ [(reg, None)]) w0 = (Ok (n', payload'), w') ->
      n0 = n ->
      exists added,
        payload' = payload ++ added /\ fst <$> added = reg :: regs
        /\ n' = (n + len (omap snd added))%Z
        /\ (forall reg0 a, (reg0, Some a) ∈ added ->
              exists text, reg_text env isalnum lower reg0 = Some text /\ text <> [])).
    { intros n0 w0 H ->. destruct (IH _ _ _ _ _ _ H) as (added & -> & Hr & Hn & Ht).
      exists ((reg, None) :: added). rewrite <- app_assoc.
      split; [reflexivity|]. split; [rewrite fmap_cons, Hr; reflexivity|].
      split; [exact Hn|]. intros reg0 a Hin.
      apply elem_of_cons in Hin as [Hin|Hin]; [discriminate Hin|eauto]. }
    destruct (reg_text env isalnum lower reg) as [[|c text]|] eqn:Et;
      [intros H; exact (Hskip _ _ H eq_refl)| |intros H; exact (Hskip _ _ H eq_refl)].
    destruct (analyze_with_bedrock (c :: text) reg (lit "identify") w)
      as [[a|e] w1]; [|discriminate].
    destruct (analyze_with_bedrock (c :: text) reg (lit "classify") w1)
      as [[a2|e] w2]; [|discriminate].
    intros H. destruct (IH _ _ _ _ _ _ H) as (added & -> & Hr & Hn & Ht).
    exists ((reg, a) :: added). rewrite <- app_assoc.
    split; [reflexivity|]. split; [rewrite fmap_cons, Hr; reflexivity|]. split.
    + rewrite Hn.
      destruct a as [a|];
        [change (omap snd ((reg, Some a) :: added)) with (a :: omap snd added)
        |change (omap snd ((reg, @None RegulationAnalysis.t) :: added))
           with (omap snd added)];
        unfold len; cbn [length]; lia.
    + intros reg0 a0 Hin. apply elem_of_cons in Hin as [Hin|Hin]; [|eauto].
      injection Hin as -> _. exists (c :: text). split; [exact Et|discriminate].
Qed.

End RunCloses.

Section RunClosesScenario.
Import Py Hashlib AnalysisUtils Models Spiders App Store Scenario Cases.

(** A run whose analysis fails is closed as failed. *)
Lemma scrape_regulations_closes_run_witness :
  exists log,
    scrape_logs (db (snd run_analysis_fails)) = [log]
    /\ ScrapeLog.status log = Some (lit "failed")
    /\ fst run_analysis_fails = (0, 0)%Z.
Proof.
  destruct (scrape_regulations_closes_run
              (crawl_one (lit "FBR") (lit "SRO 1437")) (fun w => (Ok tt, w))
              (fun w => (Ok tt, w))
              readable_files ascii_isalnum ascii_lower failing_analysis no_alert
              exn_name
              ltac:(intros; reflexivity)
              (crawl_one_keeps_logs _ _)
              ltac:(intros; reflexivity)
              ltac:(intros; reflexivity)
              world0) as (log & H1 & _ & _ & H2).
  exists log. split; [exact H1|].
  destruct H2 as [(Hs & _ & _)|(Hs & _ & _ & Hr)].
  - exfalso. assert (Hl : last (scrape_logs (db (snd run_analysis_fails))) = Some log).
    { fold run_analysis_fails in H1. rewrite H1. reflexivity. }
    vm_compute in Hl. injection Hl as <-. discriminate Hs.
  - split; [exact Hs|exact Hr].
Defined.

Lemma analyze_new_payload_witness :
  let regs := regulations (db (snd (crawl_one (lit "FBR") (lit "SRO 1437") world0))) in
  exists added,
    fst (analyze_new no_files ascii_isalnum ascii_lower no_analysis regs 0 [] world0)
    = Ok (0%Z, added)
    /\ fst <$> added = regs.
Proof.
  intros regs.
  destruct (analyze_new no_files ascii_isalnum ascii_lower no_analysis regs 0 []
              world0) as [[[n' p']|e] w'] eqn:E; [|vm_compute in E; discriminate E].
  destruct (analyze_new_payload no_files ascii_isalnum ascii_lower no_analysis
              regs 0 [] world0 n' p' w' E) as (added & Hp & Hr & _ & _).
  exists added. cbn [fst]. split; [|exact Hr].
  rewrite Hp. cbn [app]. f_equal. f_equal.
  vm_compute in E. injection E as <- _ _. reflexivity.
Defined.

End RunClosesScenario.

(** ** The purge: what it selects and what it leaves *)

Section PurgeSelection.
Import Py Hashlib AnalysisUtils Models Spiders App Store.

Lemma elem_of_insert_by {A} (before : A -> A -> bool) (x z : A) (l : list A) :
  z ∈ insert_by before x l <-> z = x \/ z ∈ l.
Proof.
  induction l as [|y l IH]; cbn [insert_by].
  - rewrite list_elem_of_singleton. split; [auto|]. intros [H|H]; [exact H|inversion H].
  - destruct (before y x).
    + rewrite !elem_of_cons, IH. tauto.
    + rewrite !elem_of_cons. tauto.
Qed.

Lemma elem_of_order_by {A} (before : A -> A -> bool) (z : A) (l : list A) :
  z ∈ order_by before l <-> z ∈ l.
Proof.
  unfold order_by.
  assert (H : forall acc,
            z ∈ foldl (fun acc x => insert_by before x acc) acc l <-> z ∈ acc \/ z ∈ l).
  { induction l as [|x l IH]; intros acc; cbn [foldl].
    - split; [auto|]. intros [H|H]; [exact H|inversion H].
    - rewrite IH, elem_of_insert_by, elem_of_cons. tauto. }
  rewrite H. split; [|auto]. intros [Hn|Hl]; [inversion Hn|exact Hl].
Qed.

Lemma elem_of_limit {A} (n : Z) (z : A) (l : list A) : z ∈ limit n l -> z ∈ l.
Proof.
  unfold limit. destruct (n <? 0)%Z; [auto|]. apply subseteq_take.
Qed.

Lemma limit_length {A} (n : Z) (l : list A) :
  (0 <= n)%Z -> (len (limit n l) <= n)%Z.
Proof.
  intros Hn. unfold limit, len. destruct (Z.ltb_spec n 0); [lia|].
  rewrite length_take. lia.
Qed.

Lemma limit_prefix {A} (n : Z) (l : list A) : exists rest, l = limit n l ++ rest.
Proof.
  unfold limit. destruct (n <? 0)%Z.
  - exists []. rewrite app_nil_r. reflexivity.
  - exists (drop (Z.to_nat n) l). symmetry. apply take_drop.
Qed.

Lemma latest_of_source_stored (d : DB) (count : Z) (s : str) (r : Regulation.t) :
  r ∈ latest_of_source d count s -> r ∈ regulations d /\ Regulation.source r = s.
Proof.
  unfold latest_of_source. intros H. apply elem_of_limit in H.
  apply elem_of_order_by in H. apply elem_of_filter_bool in H.
  destruct H as [H1 H2]. apply str_eqb_eq in H2. auto.
Qed.

Lemma bind_length_le {A B} (f : A -> list B) (l : list A) (k : Z) :
  (0 <= k)%Z -> (forall x, len (f x) <= k)%Z -> (len (l ≫= f) <= k * len l)%Z.
Proof.
  intros Hk Hf. unfold len in *. induction l as [|x l IH]; [simpl; lia|].
  change ((x :: l) ≫= f) with (f x ++ (l ≫= f)).
  rewrite length_app. specialize (Hf x). cbn [length]. lia.
Qed.

Lemma selected_ids (d : DB) (count : Z) (sources : list str) (i : Z) :
  i ∈ (Regulation.id <$> (sources ≫= latest_of_source d count)) ->
  exists r s, r ∈ latest_of_source d count s /\ s ∈ sources /\ Regulation.id r = i.
Proof.
  intros H. apply list_elem_of_fmap in H. destruct H as (r & -> & Hr).
  apply list_elem_of_bind in Hr. destruct Hr as (s & Hr & Hs). eauto.
Qed.

(** X22.  What the purge selects and what it leaves.  Every purged id is
    the primary key of a stored document of one of the sources asked for;
    for a non-negative [count] there are at most [count] of them for each
    source asked for; when none is selected nothing is written at all; and
    on a table with unique primary keys every document of a source that was
    not asked for is kept.  The log of runs is never touched. *)
Theorem simulate_new_regulations_selection :
  forall (count : Z) (sources : list str) (w : World),
    let reg_ids := fst (simulate_new_regulations count sources w) in
    let w' := snd (simulate_new_regulations count sources w) in
    (forall i, i ∈ reg_ids ->
       exists r, r ∈ regulations (db w) /\ Regulation.id r = i
                 /\ Regulation.source r ∈ sources)
    /\ ((0 <= count)%Z -> (len reg_ids <= count * len sources)%Z)
    /\ (reg_ids = [] -> w' = w)
    /\ (regulations_pk (db w) ->
        forall r, r ∈ regulations (db w) -> Regulation.source r ∉ sources ->
                  r ∈ regulations (db w'))
    /\ scrape_logs (db w') = scrape_logs (db w).
Proof.
  intros count sources w reg_ids w'. subst reg_ids w'.
  unfold simulate_new_regulations.
  set (regs := sources ≫= latest_of_source (db w) count).
  assert (Hsel : forall i, i ∈ (Regulation.id <$> regs) ->
            exists r, r ∈ regulations (db w) /\ Regulation.id r = i
                      /\ Regulation.source r ∈ sources).
  { intros i Hi. apply selected_ids in Hi. destruct Hi as (r & s & Hr & Hs & Hid).
    apply latest_of_source_stored in Hr. destruct Hr as [Hr <-]. eauto. }
  assert (Hlen : (0 <= count)%Z -> (len (Regulation.id <$> regs) <= count * len sources)%Z).
  { intros Hc. unfold len. rewrite length_fmap.
    apply (bind_length_le _ _ _ Hc). intros s. unfold latest_of_source.
    apply limit_length, Hc. }
  destruct (is_empty regs) eqn:He; cbn [fst snd].
  - apply is_empty_nil in He. rewrite He in Hlen.
    split; [intros i Hi; inversion Hi|]. split; [exact Hlen|]. auto.
  - split; [exact Hsel|]. split; [exact Hlen|]. split; [|split; [|reflexivity]].
    + intros H. apply fmap_nil_inv in H. rewrite H in He. discriminate He.
    + intros Hpk r Hr Hsrc. cbn [db commit].
      unfold delete_page_hashes_like_FBR, delete_regulations_in, delete_analyses_in.
      cbn [regulations set_page_hashes set_regulations set_regulation_analyses].
      apply elem_of_filter_bool. split; [exact Hr|].
      apply negb_true_iff. destruct (mem_id _ _) eqn:Em; [|reflexivity].
      apply mem_id_elem in Em. destruct (Hsel _ Em) as (r0 & Hr0 & Hid & Hs0).
      pose proof (unique_key_row Regulation.id _ _ _ Hpk Hr0 Hr Hid) as ->.
      contradiction.
Qed.

Lemma date_ltb_iff (a b : date) :
  date_ltb a b = true <->
  year a < year b
  \/ (year a = year b
      /\ (month a < month b \/ (month a = month b /\ day a < day b))).
Proof.
  unfold date_ltb.
  rewrite !orb_true_iff, !andb_true_iff, !orb_true_iff, !andb_true_iff,
    !N.ltb_lt, !N.eqb_eq. tauto.
Qed.

Lemma date_eqb_iff (a b : date) :
  date_eqb a b = true <-> year a = year b /\ month a = month b /\ day a = day b.
Proof.
  unfold date_eqb. rewrite !andb_true_iff, !N.eqb_eq. tauto.
Qed.

Ltac latest_first_props :=
  unfold latest_first;
  repeat match goal with
  | |- context [Regulation.issue_date ?r] =>
      let d := fresh "d" in
      generalize (Regulation.issue_date r); intros d
  | |- context [Regulation.discovered_at ?r] =>
      let t := fresh "t" in
      generalize (Regulation.discovered_at r); intros t
  end;
  repeat match goal with
  | d : option date |- _ => destruct d
  end;
  cbn [opt_date_ltb opt_date_eqb orb andb];
  rewrite ?orb_true_iff, ?andb_true_iff, ?orb_false_iff, ?andb_false_iff;
  rewrite <- ?not_true_iff_false;
  rewrite ?date_ltb_iff, ?date_eqb_iff, ?Z.leb_le.

Lemma latest_first_total (y x : Regulation.t) :
  latest_first y x = false -> latest_first x y = true.
Proof. latest_first_props; try tauto; try discriminate; try lia. Qed.

Lemma latest_first_trans (z y x : Regulation.t) :
  latest_first z y = true -> latest_first y x = true -> latest_first z x = true.
Proof. latest_first_props; try tauto; try discriminate; try lia. Qed.

Lemma latest_first_not_later (y x : Regulation.t) :
  latest_first y x = true ->
  opt_date_ltb (Regulation.issue_date y) (Regulation.issue_date x) = false.
Proof. latest_first_props; try tauto; try discriminate; try lia. Qed.

Lemma insert_by_sorted (x : Regulation.t) (l : list Regulation.t) :
  StronglySorted (fun a b => latest_first a b = true) l ->
  StronglySorted (fun a b => latest_first a b = true) (insert_by latest_first x l).
Proof.
  induction 1 as [|y l Hs IH Hy]; cbn [insert_by].
  - repeat constructor.
  - destruct (latest_first y x) eqn:E.
    + constructor; [exact IH|]. apply Forall_forall. intros z Hz.
      apply elem_of_insert_by in Hz. destruct Hz as [->|Hz]; [exact E|].
      rewrite Forall_forall in Hy. apply Hy, Hz.
    + apply latest_first_total in E. constructor; [constructor; assumption|].
      constructor; [exact E|]. eapply Forall_impl; [exact Hy|].
      intros z Hz. cbn beta in *. eapply latest_first_trans; eassumption.
Qed.

Lemma order_by_sorted (l : list Regulation.t) :
  StronglySorted (fun a b => latest_first a b = true) (order_by latest_first l).
Proof.
  unfold order_by.
  assert (H : forall acc, StronglySorted (fun a b => latest_first a b = true) acc ->
            StronglySorted (fun a b => latest_first a b = true)
              (foldl (fun acc x => insert_by latest_first x acc) acc l)).
  { induction l as [|x l IH]; intros acc Hacc; cbn [foldl]; [exact Hacc|].
    apply IH, insert_by_sorted, Hacc. }
  apply H. constructor.
Qed.

Lemma sorted_app_order {A} (R : A -> A -> Prop) (l1 l2 : list A) (a b : A) :
  StronglySorted R (l1 ++ l2) -> a ∈ l1 -> b ∈ l2 -> R a b.
Proof.
  induction l1 as [|x l1 IH]; intros Hs Ha Hb; [inversion Ha|].
  rewrite <- app_comm_cons in Hs. apply StronglySorted_inv in Hs.
  destruct Hs as [Hs Hx]. apply elem_of_cons in Ha. destruct Ha as [->|Ha].
  - rewrite Forall_forall in Hx. apply Hx. apply elem_of_app. right. exact Hb.
  - apply IH; assumption.
Qed.

(** The documents of a source that the query leaves out are not later than
    those it selects. *)
Lemma latest_of_source_latest (d : DB) (count : Z) (s : str) (r r' : Regulation.t) :
  r ∈ latest_of_source d count s ->
  r' ∈ regulations d -> Regulation.source r' = s ->
  r' ∉ latest_of_source d count s ->
  latest_first r r' = true.
Proof.
  unfold latest_of_source. fold latest_first.
  set (sorted := order_by latest_first _).
  intros Hr Hr' Hs Hout.
  destruct (limit_prefix count sorted) as [rest Hrest].
  assert (Hin : r' ∈ sorted).
  { apply elem_of_order_by, elem_of_filter_bool. split; [exact Hr'|].
    apply str_eqb_eq, Hs. }
  rewrite Hrest in Hin. apply elem_of_app in Hin. destruct Hin as [Hin|Hin];
    [contradiction|].
  pose proof (order_by_sorted
                (List.filter (fun r => str_eqb (Regulation.source r) s)
                   (regulations d))) as Hsorted.
  fold sorted in Hsorted. rewrite Hrest in Hsorted.
  exact (sorted_app_order _ _ _ _ _ Hsorted Hr Hin).
Qed.

(** X23.  The purge takes the latest documents of each source: on a table
    with unique primary keys, no document that is kept has a later issue
    date than a purged document of the same source (a missing issue date
    counting as the earliest). *)
Theorem simulate_new_regulations_takes_latest :
  forall (count : Z) (sources : list str) (w : World) (r r' : Regulation.t),
    let w' := snd (simulate_new_regulations count sources w) in
    regulations_pk (db w) ->
    r ∈ regulations (db w) -> r ∉ regulations (db w') ->
    r' ∈ regulations (db w') ->
    Regulation.source r' = Regulation.source r ->
    opt_date_ltb (Regulation.issue_date r) (Regulation.issue_date r') = false.
Proof.
  intros count sources w r r' w' Hpk Hr Hgone Hkept Hsrc. subst w'.
  unfold simulate_new_regulations in *.
  set (regs := sources ≫= latest_of_source (db w) count) in *.
  destruct (is_empty regs); cbn [snd] in *; [contradiction|].
  cbn [db commit] in *.
  unfold delete_page_hashes_like_FBR, delete_regulations_in, delete_analyses_in in *.
  cbn [regulations set_page_hashes set_regulations set_regulation_analyses] in *.
  assert (Hsel : mem_id (Regulation.id r) (Regulation.id <$> regs) = true).
  { destruct (mem_id _ _) eqn:E; [reflexivity|]. exfalso. apply Hgone.
    apply elem_of_filter_bool. rewrite E. auto. }
  apply mem_id_elem, selected_ids in Hsel.
  destruct Hsel as (r0 & s & Hr0 & Hs & Hid).
  destruct (latest_of_source_stored _ _ _ _ Hr0) as [Hst Hs0].
  pose proof (unique_key_row Regulation.id _ _ _ Hpk Hst Hr Hid) as ->.
  apply elem_of_filter_bool in Hkept. destruct Hkept as [Hkept Hn].
  apply negb_true_iff in Hn.
  apply latest_first_not_later.
  apply (latest_of_source_latest (db w) count s); [exact Hr0|exact Hkept|congruence|].
  intros Hin. assert (Hm : mem_id (Regulation.id r') (Regulation.id <$> regs) = true).
  { apply mem_id_elem. apply list_elem_of_fmap. exists r'. split; [reflexivity|].
    apply list_elem_of_bind. eauto. }
  congruence.
Qed.

End PurgeSelection.

Section PurgeSelectionScenario.
Import Py Hashlib AnalysisUtils Models Spiders App Store Scenario.

Lemma simulate_new_regulations_selection_witness :
  fst (simulate_new_regulations 1 [lit "SECP"] analysed_world) = []
  /\ snd (simulate_new_regulations 1 [lit "SECP"] analysed_world) = analysed_world
  /\ (len (fst (simulate_new_regulations 1 [lit "FBR"] analysed_world)) <= 1)%Z.
Proof.
  destruct (simulate_new_regulations_selection 1 [lit "SECP"] analysed_world)
    as (_ & _ & H & _).
  destruct (simulate_new_regulations_selection 1 [lit "FBR"] analysed_world)
    as (_ & Hlen & _).
  assert (He : fst (simulate_new_regulations 1 [lit "SECP"] analysed_world) = [])
    by (vm_compute; reflexivity).
  split; [exact He|]. split; [exact (H He)|].
  etrans; [apply Hlen; lia|]. vm_compute. discriminate.
Defined.

(** Of two FBR documents of one issue date the purge of one takes one and
    keeps the other. *)
Lemma simulate_new_regulations_takes_latest_witness :
  let w' := snd (simulate_new_regulations 1 [lit "FBR"] analysed_world) in
  match regulations (db analysed_world), regulations (db w') with
  | [purged; _], [kept] =>
      opt_date_ltb (Regulation.issue_date purged) (Regulation.issue_date kept) = false
  | _, _ => False
  end.
Proof.
  intros w'.
  destruct (regulations (db analysed_world)) as [|purged [|other [|]]] eqn:Ea;
    try (vm_compute in Ea; discriminate Ea).
  destruct (regulations (db w')) as [|kept [|]] eqn:Ew;
    try (vm_compute in Ew; discriminate Ew).
  apply (simulate_new_regulations_takes_latest 1 [lit "FBR"] analysed_world
           purged kept).
  - vm_compute. repeat constructor; intros H;
      repeat (apply elem_of_cons in H as [H|H]; [discriminate H|]); inversion H.
  - rewrite Ea. left.
  - fold w'. rewrite Ew. vm_compute in Ea, Ew.
    injection Ea as <- <-. injection Ew as <-.
    intros H. apply elem_of_cons in H as [H|H]; [discriminate H|inversion H].
  - fold w'. rewrite Ew. left.
  - vm_compute in Ea, Ew. injection Ea as <- <-. injection Ew as <-. reflexivity.
Defined.

End PurgeSelectionScenario.

(** ** One row of an FBR listing *)

Section ListingRow.
Import Py Hashlib AnalysisUtils Models Spiders App Store.

Variable isdecimal : char -> bool.
Variable py_int : str -> result Z.
Variable fromtimestamp : Z -> result date.
Variable strptime : str -> str -> result date.
Variable generate_fallback_ref : str -> str.

Lemma take_while_last (f : char -> bool) (l : str) (c : char) :
  f c = false -> (length (take_while f (l ++ [c])) <= length l)%nat.
Proof.
  intros Hc. induction l as [|x l IH]; cbn [take_while app].
  - rewrite Hc. simpl. lia.
  - destruct (f x); cbn [length]; lia.
Qed.

Lemma rstrip_slash_nonempty (c : char) (s : str) :
  c <> 47 -> rstrip_slash (c :: s) <> [].
Proof.
  intros Hc H. apply (f_equal length) in H. revert H.
  unfold rstrip_slash. rewrite length_reverse, length_drop, reverse_cons.
  assert (Hf : (c =? 47) = false) by (apply N.eqb_neq, Hc).
  pose proof (take_while_last (fun c => c =? 47) (reverse s) c Hf) as Hl.
  rewrite length_app, length_reverse in *. cbn [length] in *. lia.
Qed.

Lemma row_url_nonempty (r : FbrRow) : row_url r <> [].
Proof.
  unfold row_url. destruct (is_prefix (lit "http") (UploadedFile1 r)) eqn:Ep.
  - destruct (UploadedFile1 r); [discriminate Ep|discriminate].
  - apply rstrip_slash_nonempty. discriminate.
Qed.

(** X24.  What [parse_api] makes of one row of the listing whose date and
    id can be computed.  A download is requested exactly when the document
    is not stored and its issue date is missing or not before the cutoff;
    the request is for the address of the row, carries the id, the
    reference and the date of the row, and nothing is written.  The address
    is never empty: a row that names no file has the address of the
    download directory.  A stored document is passed over and nothing is
    written.  A document that is not stored and is dated before the cutoff
    is requested nowhere and is added to the table as tracked_no_pdf, with
    no file. *)
Theorem parse_api_row_outcome :
  forall (self : BaseSpider) (target : Target) (six_months_ago : date)
         (r : FbrRow) (w : World) (issue_date : option date) (rid : str),
    flask_app self = true ->
    row_issue_date isdecimal py_int fromtimestamp strptime self r = Ok issue_date ->
    generate_regulation_id self (lit "FBR") (row_ref generate_fallback_ref r)
      (opt_date_arg issue_date) = Ok rid ->
    let run :=
      parse_api_row isdecimal py_int fromtimestamp strptime generate_fallback_ref
        self target six_months_ago r w in
    let stored := regulation_exists self w rid in
    let old :=
      match issue_date with
      | Some d => date_ltb d six_months_ago
      | None => false
      end in
    row_url r <> []
    /\ (UploadedFile1 r = [] -> row_url r = lit "https://download1.fbr.gov.pk/Docs")
    /\ ((exists req, fst run = Ok (Some req)) <-> stored = Ok false /\ old = false)
    /\ (forall req, fst run = Ok (Some req) ->
          snd run = w
          /\ url req = row_url r
          /\ Meta.document_url (meta req) = row_url r
          /\ Meta.regulation_id (meta req) = rid
          /\ Meta.source (meta req) = lit "FBR"
          /\ Meta.reference_number (meta req) = row_ref generate_fallback_ref r
          /\ Meta.issue_date (meta req) = issue_date)
    /\ (stored = Ok true -> run = (Ok None, w))
    /\ (stored = Ok false -> old = true ->
        fst run = Ok None
        /\ exists row,
             regulations (db (snd run)) = regulations (db w) ++ [row]
             /\ Regulation.regulation_id row = rid
             /\ Regulation.reference_number row = row_ref generate_fallback_ref r
             /\ Regulation.issue_date row = issue_date
             /\ Regulation.document_url row = Some (row_url r)
             /\ Regulation.status row = Some (lit "tracked_no_pdf")
             /\ Regulation.file_path row = None).
Proof.
  intros self target cutoff r w issue_date rid Hf Hdate Hid run stored old.
  pose proof (row_url_nonempty r) as Hurl.
  split; [exact Hurl|]. split; [intros H; unfold row_url; rewrite H; reflexivity|].
  assert (He : is_empty (row_url r) = false).
  { destruct (row_url r); [congruence|reflexivity]. }
  assert (Hrun : run =
    match stored with
    | Raise e => (Raise e, w)
    | Ok true => (Ok None, w)
    | Ok false =>
        if negb old then
          (Ok (Some {| url := row_url r;
                       meta := {| Meta.regulation_id := rid;
                                  Meta.source := lit "FBR";
                                  Meta.page_url :=
                                    lit "https://www.fbr.gov.pk/ShowSROs?Department="
                                    ++ ((fun c => if c =? 32 then 43 else c)
                                        <$> department target);
                                  Meta.document_url := row_url r;
                                  Meta.reference_number :=
                                    row_ref generate_fallback_ref r;
                                  Meta.title :=
                                    if is_empty (strip (Title r))
                                    then lit "FBR " ++ row_ref generate_fallback_ref r
                                    else take 200 (strip (Title r));
                                  Meta.issue_date := issue_date;
                                  Meta.category := target_category target;
                                  Meta.document_type := doc_type target |} |}), w)
        else
          match add_regulation (db w)
                  {| Regulation.id := 0;
                     Regulation.regulation_id := rid;
                     Regulation.source := lit "FBR";
                     Regulation.page_url :=
                       lit "https://www.fbr.gov.pk/ShowSROs?Department="
                       ++ ((fun c => if c =? 32 then 43 else c)
                           <$> department target);
                     Regulation.document_url := Some (row_url r);
                     Regulation.reference_number := row_ref generate_fallback_ref r;
                     Regulation.title :=
                       if is_empty (strip (Title r))
                       then lit "FBR " ++ row_ref generate_fallback_ref r
                       else take 200 (strip (Title r));
                     Regulation.issue_date := issue_date;
                     Regulation.effective_date := None;
                     Regulation.category := Some (target_category target);
                     Regulation.document_type := Some (doc_type target);
                     Regulation.domain := None;
                     Regulation.content_hash := None;
                     Regulation.file_path := None;
                     Regulation.status := Some (lit "tracked_no_pdf");
                     Regulation.discovered_at := utcnow w;
                     Regulation.last_checked := None |}
          with
          | Ok pending => (Ok None, commit w pending)
          | Raise e => (Raise e, w)
          end
    end).
  { subst run stored old. unfold parse_api_row.
    unfold row_issue_date in Hdate. unfold row_ref in Hid |- *.
    unfold row_url in He |- *.
    rewrite Hdate, Hid. destruct (regulation_exists self w rid) as [[|]|e];
      try reflexivity.
    rewrite He. cbn [negb]. rewrite andb_true_r.
    destruct issue_date as [d|]; reflexivity. }
  assert (Hst : stored = Ok true \/ stored = Ok false).
  { subst stored. unfold regulation_exists. rewrite Hf. cbn [negb].
    destruct (find_regulation (db w) rid); auto. }
  split; [|split; [|split]].
  - rewrite Hrun. split.
    + intros [req H]. destruct Hst as [Hs|Hs]; rewrite Hs in H |- *;
        [discriminate H|]. destruct old; [|auto]. cbn [negb] in H.
      destruct (add_regulation _ _); discriminate H.
    + intros [Hs Ho]. rewrite Hs, Ho. cbn [negb fst]. eauto.
  - intros req H. rewrite Hrun in H |- *.
    destruct Hst as [Hs|Hs]; rewrite Hs in H |- *; [discriminate H|].
    destruct old; cbn [negb] in H |- *;
      [destruct (add_regulation _ _); discriminate H|].
    cbn [fst snd] in H |- *. injection H as <-. repeat split.
  - intros Hs. rewrite Hrun, Hs. reflexivity.
  - intros Hs Ho. rewrite Hrun, Hs, Ho. cbn [negb].
    unfold add_regulation. cbn [Regulation.regulation_id].
    assert (Hnone : find_regulation (db w) rid = None).
    { subst stored. unfold regulation_exists in Hs. rewrite Hf in Hs.
      cbn [negb] in Hs. destruct (find_regulation (db w) rid);
        [injection Hs as Hs; discriminate Hs|reflexivity]. }
    rewrite Hnone. cbn [fst snd db commit regulations set_regulations].
    split; [reflexivity|]. eexists. split; [reflexivity|]. repeat split.
Qed.

End ListingRow.

Section ListingRowScenario.
Import Py Hashlib AnalysisUtils Models Spiders App Store Scenario.

(** A recent row that names no file, on an empty store: the download
    directory is requested. *)
Lemma parse_api_row_outcome_witness :
  exists req,
    fst (parse_api_row Strptime.is_digit Strptime.ascii_int
           Strptime.utc_fromtimestamp Strptime.strptime (fun u => u) spider
           income_tax (Date 2025 4 1)
           {| SRONumber := lit "SRO 9"; Title := lit "Notice";
              CreationDate := lit "01-07-2025"; UploadedFile1 := [] |} world0)
    = Ok (Some req)
    /\ url req = lit "https://download1.fbr.gov.pk/Docs".
Proof.
  set (r := {| SRONumber := lit "SRO 9"; Title := lit "Notice";
               CreationDate := lit "01-07-2025"; UploadedFile1 := [] |}).
  destruct (generate_regulation_id spider (lit "FBR") (row_ref (fun u => u) r)
              (opt_date_arg (Some (Date 2025 7 1)))) as [rid|e] eqn:Eid;
    [|vm_compute in Eid; discriminate Eid].
  destruct (parse_api_row_outcome Strptime.is_digit Strptime.ascii_int
              Strptime.utc_fromtimestamp Strptime.strptime (fun u => u) spider
              income_tax (Date 2025 4 1) r world0 (Some (Date 2025 7 1)) rid
              eq_refl ltac:(vm_compute; reflexivity) Eid)
    as (_ & Hdir & Hiff & Hreq & _).
  destruct (proj2 Hiff) as [req Hr].
  { split; [|vm_compute; reflexivity].
    unfold regulation_exists. reflexivity. }
  exists req. split; [exact Hr|].
  destruct (Hreq req Hr) as (_ & -> & _). apply Hdir. reflexivity.
Defined.

End ListingRowScenario.

(** ** Cleaning again *)

Section CleaningAgain.
Import Py Hashlib AnalysisUtils Models Spiders App Store.

Lemma strip_last (s : str) :
  match last (strip s) with Some c => isspace c = false | None => True end.
Proof.
  unfold strip, rstrip. rewrite last_reverse.
  pose proof (lstrip_head (reverse (lstrip s))) as H.
  destruct (lstrip (reverse (lstrip s))); [exact I|exact H].
Qed.

Lemma clean_char_fixed (c : char) : c = 32 \/ word_char c -> clean_char c = c.
Proof.
  intros [->|(_ & Hge & Hne)]; [reflexivity|]. unfold clean_char.
  destruct ((c =? 10) || (c =? 9)); [reflexivity|].
  destruct (N.ltb_spec c 32); [lia|]. destruct (N.eqb_spec c 127); [lia|].
  reflexivity.
Qed.

Lemma split_aux_blank (s : str) :
  Forall (fun c => isspace c = true) s -> split_aux [] s = [].
Proof.
  induction 1 as [|c s Hc _ IH]; [reflexivity|]. cbn [split_aux]. rewrite Hc. exact IH.
Qed.

(** A text of words separated by single spaces is what [split] and [join]
    rebuild. *)
Lemma split_aux_join (s cur : str) :
  Forall (fun c => isspace c = false) cur ->
  Forall (fun c => c = 32 \/ isspace c = false) s ->
  (forall l1 l2, s <> l1 ++ [32; 32] ++ l2) ->
  (cur = [] -> match s with c :: _ => isspace c = false | [] => True end) ->
  match last s with Some c => isspace c = false | None => True end ->
  join [32] (split_aux cur s) = reverse cur ++ s.
Proof.
  revert cur. induction s as [|c s IH]; intros cur Hcur Hs Hdbl Hhead Hlast.
  - cbn [split_aux]. rewrite app_nil_r. destruct cur; reflexivity.
  - inversion Hs as [|? ? Hc Hs']; subst. cbn [split_aux].
    assert (Hdbl' : forall l1 l2, s <> l1 ++ [32; 32] ++ l2).
    { intros l1 l2 ->. apply (Hdbl (c :: l1) l2). reflexivity. }
    assert (Hlast' : match last s with Some c => isspace c = false | None => True end).
    { destruct s as [|c' s']; [exact I|]. exact Hlast. }
    destruct (isspace c) eqn:E.
    + destruct Hc as [->|Hc]; [|congruence].
      destruct cur as [|x cur]; [specialize (Hhead eq_refl); discriminate Hhead|].
      destruct s as [|c' s']; [discriminate Hlast|].
      assert (Hc' : isspace c' = false).
      { inversion Hs' as [|? ? [->|H] _]; subst; [|exact H].
        exfalso. apply (Hdbl [] s'). reflexivity. }
      assert (Hrec : join [32] (split_aux [] (c' :: s')) = c' :: s').
      { apply (IH []); try assumption; [constructor|]. intros _. exact Hc'. }
      rewrite join_space_cons.
      * rewrite Hrec. reflexivity.
      * intros Hnil. rewrite Hnil in Hrec. discriminate Hrec.
    + rewrite IH; try assumption.
      * rewrite reverse_cons, <- app_assoc. reflexivity.
      * constructor; assumption.
      * discriminate.
Qed.

(** A text of words separated by single spaces, within the budget, is left
    as it is. *)
Lemma clean_for_bedrock_fixed (out : str) (max_chars : Z) :
  (len out <= max_chars)%Z ->
  Forall (fun c => c = 32 \/ word_char c) out ->
  (forall l1 l2, out <> l1 ++ [32; 32] ++ l2) ->
  match out with c :: _ => isspace c = false | [] => True end ->
  match last out with Some c => isspace c = false | None => True end ->
  strip out = out ->
  clean_for_bedrock out max_chars = out.
Proof.
  intros Hlen Hchars Hdbl Hhead Hlast Hstrip.
  unfold clean_for_bedrock. destruct (is_empty out) eqn:Ee.
  { symmetry. apply is_empty_nil, Ee. }
  change (lit " ") with [32].
  assert (Hfix : clean_char <$> out = out).
  { rewrite <- (list_fmap_id out) at 2. apply Forall_fmap_ext_1.
    eapply Forall_impl; [exact Hchars|]. intros c Hc. apply clean_char_fixed, Hc. }
  rewrite Hfix. unfold split.
  assert (Hj : join [32] (split_aux [] out) = out).
  { apply (split_aux_join out []); try assumption; [constructor| |auto].
    eapply Forall_impl; [exact Hchars|]. intros c [->|[H _]]; auto. }
  change (@join char) with (@join N) in *. change (list char) with (list N) in *.
  rewrite !Hj.
  destruct (Z.gtb_spec (len out) max_chars); [lia|]. exact Hstrip.
Qed.

(** X25.  [clean_for_bedrock] is idempotent: cleaning a cleaned text again,
    with the same or a larger budget, changes nothing.  And a text with
    nothing but white space and control characters is cleaned to the empty
    text. *)
Theorem clean_for_bedrock_idempotent :
  forall (text : str) (max_chars max_chars' : Z),
    (0 <= max_chars <= max_chars')%Z ->
    clean_for_bedrock (clean_for_bedrock text max_chars) max_chars'
    = clean_for_bedrock text max_chars
    /\ (Forall (fun c => isspace (clean_char c) = true) text ->
        clean_for_bedrock text max_chars = []).
Proof.
  intros text max_chars max_chars' Hmax. split.
  - unfold clean_for_bedrock at 2 3.
    destruct (is_empty text); [reflexivity|].
    change (lit " ") with [32].
    set (ws := split (clean_char <$> text)).
    set (J := join [32] ws).
    set (X := if (len J >? max_chars)%Z then slice_to J max_chars else J).
    assert (Hws : Forall (fun w => w <> [] /\ Forall word_char w) ws).
    { apply split_aux_words; [constructor|].
      apply Forall_fmap, Forall_forall. intros c _. exact (clean_char_word c). }
    assert (HP : ~ word_char 32) by (intros [H _]; discriminate H).
    assert (HX : exists q, J = X ++ q).
    { subst X. destruct (len J >? max_chars)%Z; [apply slice_to_prefix|].
      exists []. symmetry. apply app_nil_r. }
    destruct HX as [q HX]. destruct (strip_infix X) as (p & q' & HS).
    assert (HJ : J = p ++ strip X ++ (q' ++ q)).
    { rewrite HX, HS at 1. rewrite <- !app_assoc. reflexivity. }
    assert (Hlen : (len (strip X) <= max_chars')%Z).
    { assert (HlenX : (len X <= max_chars)%Z).
      { subst X. destruct (Z.gtb_spec (len J) max_chars) as [Hgt|Hle];
          [apply slice_to_length; lia|exact Hle]. }
      apply Z.le_trans with (len X); [apply Nat2Z.inj_le, strip_length|lia]. }
    assert (Hchars : Forall (fun c => c = 32 \/ word_char c) (strip X)).
    { pose proof (join_chars word_char ws Hws) as Hc. fold J in Hc.
      rewrite HJ, !Forall_app in Hc. tauto. }
    assert (Hdbl : forall l1 l2, strip X <> l1 ++ [32; 32] ++ l2).
    { intros l1 l2 Heq.
      apply (join_single_spaced word_char ws HP Hws (p ++ l1) (l2 ++ q' ++ q)).
      fold J. rewrite HJ, Heq, <- !app_assoc. reflexivity. }
    apply clean_for_bedrock_fixed; try assumption;
      [apply strip_head|apply strip_last|apply strip_idem].
  - intros Hblank. unfold clean_for_bedrock. destruct (is_empty text); [reflexivity|].
    unfold split. rewrite split_aux_blank; [|apply Forall_fmap; exact Hblank].
    cbn [join]. unfold slice_to. rewrite !take_nil.
    destruct (_ >? _)%Z; [destruct (_ <=? _)%Z|]; reflexivity.
Qed.

End CleaningAgain.

Section CleaningAgainWitness.
Import Py Hashlib AnalysisUtils Models Spiders App Store.

Lemma clean_for_bedrock_idempotent_witness :
  clean_for_bedrock (clean_for_bedrock [97; 10; 10; 9; 98; 7; 99; 32; 32; 100] 6) 8000
  = lit "a b c"
  /\ clean_for_bedrock [10; 7; 32; 9] 6 = [].
Proof.
  destruct (clean_for_bedrock_idempotent [97; 10; 10; 9; 98; 7; 99; 32; 32; 100]
              6 8000 ltac:(lia)) as [H _].
  destruct (clean_for_bedrock_idempotent [10; 7; 32; 9] 6 6 ltac:(lia)) as [_ H'].
  split; [rewrite H; vm_compute; reflexivity|].
  apply H'. repeat constructor.
Defined.

End CleaningAgainWitness.

(** ** models.py: the latest analysis and the text shown for it *)

Section ViewsProperties.
Import Py Hashlib AnalysisUtils Models Spiders App Store Views.

Lemma max_by_first {A} (key : A -> Z) (xs : list A) (best : A) :
  exists pre post,
    best :: xs = pre ++ max_by key best xs :: post
    /\ Forall (fun x => (key x < key (max_by key best xs))%Z) pre
    /\ Forall (fun x => (key x <= key (max_by key best xs))%Z) post
    /\ (key best <= key (max_by key best xs))%Z.
Proof.
  revert best. induction xs as [|x xs IH]; intros best; cbn [max_by].
  - exists [], []. repeat split; try constructor. lia.
  - destruct (Z.gtb_spec (key x) (key best)) as [Hgt|Hle].
    + destruct (IH x) as (pre & post & Heq & Hpre & Hpost & Hb).
      exists (best :: pre), post. rewrite Heq. repeat split; try assumption; [|lia].
      constructor; [lia|exact Hpre].
    + destruct (IH best) as (pre & post & Heq & Hpre & Hpost & Hb).
      destruct pre as [|b pre].
      * injection Heq as Hm Hxs. exists [], (x :: xs). rewrite <- Hm in *.
        split; [reflexivity|]. split; [constructor|]. split; [|lia].
        constructor; [exact Hle|]. rewrite Hxs at 1. exact Hpost.
      * injection Heq as <- Hxs. exists (best :: x :: pre), post.
        apply Forall_cons in Hpre. destruct Hpre as [Hbest Hpre].
        split; [cbn [app]; do 2 f_equal; exact Hxs|]. split; [|split; assumption].
        constructor; [exact Hbest|]. constructor; [lia|exact Hpre].
Qed.

(** X26.  [latest_analysis] is None exactly when no analysis refers to the
    regulation; otherwise it is an analysis of the regulation with the
    greatest creation time, and of those with that time the first in the
    order of the table. *)
Theorem latest_analysis_latest :
  forall (d : DB) (self : Regulation.t),
    match latest_analysis d self with
    | None =>
        forall a, a ∈ regulation_analyses d ->
                  RegulationAnalysis.regulation_id a <> Regulation.id self
    | Some a =>
        a ∈ regulation_analyses d
        /\ RegulationAnalysis.regulation_id a = Regulation.id self
        /\ (forall a', a' ∈ regulation_analyses d ->
              RegulationAnalysis.regulation_id a' = Regulation.id self ->
              (RegulationAnalysis.created_at a' <= RegulationAnalysis.created_at a)%Z)
        /\ exists pre post,
             analyses d self = pre ++ a :: post
             /\ Forall (fun x => (RegulationAnalysis.created_at x
                                  < RegulationAnalysis.created_at a)%Z) pre
    end.
Proof.
  intros d self. unfold latest_analysis.
  destruct (analyses d self) as [|a0 rest] eqn:E.
  - intros a Ha Hid.
    assert (Hin : a ∈ analyses d self).
    { unfold analyses. apply elem_of_filter_bool. split; [exact Ha|].
      apply Z.eqb_eq, Hid. }
    rewrite E in Hin. inversion Hin.
  - destruct (max_by_first RegulationAnalysis.created_at rest a0)
      as (pre & post & Heq & Hpre & Hpost & _).
    set (a := max_by RegulationAnalysis.created_at a0 rest) in *.
    assert (Hin : a ∈ analyses d self).
    { rewrite E, Heq. apply elem_of_app. right. left. }
    unfold analyses in Hin. apply elem_of_filter_bool in Hin.
    destruct Hin as [Hin Hid]. apply Z.eqb_eq in Hid.
    split; [exact Hin|]. split; [exact Hid|]. split; [|eauto].
    intros a' Ha' Hid'.
    assert (Hin' : a' ∈ analyses d self).
    { unfold analyses. apply elem_of_filter_bool. split; [exact Ha'|].
      apply Z.eqb_eq, Hid'. }
    rewrite E, Heq in Hin'. apply elem_of_app in Hin'.
    rewrite Forall_forall in Hpre, Hpost.
    destruct Hin' as [H|H]; [specialize (Hpre _ H); lia|].
    apply elem_of_cons in H. destruct H as [->|H]; [lia|]. apply Hpost, H.
Qed.

Lemma is_prefix_split (p s : str) :
  is_prefix p s = true <-> exists q, s = p ++ q.
Proof.
  revert s. induction p as [|a p IH]; intros s; cbn [is_prefix].
  - split; [eauto|reflexivity].
  - destruct s as [|b s]; [split; [discriminate|intros [q H]; discriminate H]|].
    rewrite andb_true_iff, N.eqb_eq, IH. split.
    + intros [-> [q ->]]. eauto.
    + intros [q H]. injection H as -> ->. eauto.
Qed.

Lemma contains_split (p s : str) :
  contains p s = true <-> exists k q, s = k ++ p ++ q.
Proof.
  induction s as [|c s IH]; cbn [contains].
  - rewrite orb_false_r, is_prefix_split. split.
    + intros [q H]. exists [], q. exact H.
    + intros (k & q & H). destruct k; [eauto|discriminate H].
  - rewrite orb_true_iff, is_prefix_split, IH. split.
    + intros [[q H]|(k & q & H)]; [exists [], q; exact H|].
      exists (c :: k), q. rewrite H. reflexivity.
    + intros (k & q & H). destruct k as [|c' k]; [left; eauto|].
      right. injection H as _ H. eauto.
Qed.

Lemma find_from_found (needle hay : str) (i : Z) :
  contains needle hay = true ->
  exists k, find_from needle hay i = (i + Z.of_nat k)%Z
            /\ is_prefix needle (drop k hay) = true
            /\ (forall j, (j < k)%nat -> is_prefix needle (drop j hay) = false).
Proof.
  revert i. induction hay as [|c hay IH]; intros i; cbn [contains find_from].
  - rewrite orb_false_r. intros H. rewrite H. exists 0%nat.
    split; [lia|]. split; [exact H|]. intros j Hj. lia.
  - destruct (is_prefix needle (c :: hay)) eqn:E.
    + intros _. exists 0%nat. split; [lia|]. split; [exact E|]. intros j Hj. lia.
    + cbn [orb]. intros H. destruct (IH (i + 1)%Z H) as (k & Hk & Hp & Hmin).
      exists (S k). split; [lia|]. split; [exact Hp|].
      intros [|j] Hj; [exact E|]. apply Hmin. lia.
Qed.

Lemma find_from_missing (needle hay : str) (i : Z) :
  contains needle hay = false -> find_from needle hay i = (-1)%Z.
Proof.
  revert i. induction hay as [|c hay IH]; intros i; cbn [contains find_from].
  - rewrite orb_false_r. intros ->. reflexivity.
  - intros H. apply orb_false_iff in H. destruct H as [-> H]. apply IH, H.
Qed.

Lemma lstrip_spaces (s : str) :
  exists k, s = k ++ lstrip s /\ Forall (fun c => isspace c = true) k.
Proof.
  induction s as [|c s (k & IH & Hk)]; [exists []; split; [reflexivity|constructor]|].
  cbn [lstrip]. destruct (isspace c) eqn:E.
  - exists (c :: k). split; [cbn; f_equal; exact IH|constructor; assumption].
  - exists []. split; [reflexivity|constructor].
Qed.

Lemma rstrip_spaces (s : str) :
  exists k, s = rstrip s ++ k /\ Forall (fun c => isspace c = true) k.
Proof.
  unfold rstrip. destruct (lstrip_spaces (reverse s)) as (k & Hk & Hs).
  exists (reverse k). split; [|apply Forall_reverse, Hs].
  apply (inj reverse). rewrite reverse_app, !reverse_involutive. exact Hk.
Qed.

(** Stripping keeps a prefix that begins and ends with a character that is
    no white space. *)
Lemma strip_keeps_prefix (c c' : char) (p0 s : str) :
  isspace c = false -> isspace c' = false ->
  is_prefix (c :: p0 ++ [c']) s = true ->
  is_prefix (c :: p0 ++ [c']) (strip s) = true.
Proof.
  intros Hc Hc' Hp. apply is_prefix_split in Hp. destruct Hp as [q ->].
  unfold strip. cbn [app lstrip]. rewrite Hc.
  set (s := c :: (p0 ++ [c']) ++ q).
  destruct (rstrip_spaces s) as (k & Hk & Hsp).
  apply is_prefix_split.
  change s with ((c :: p0 ++ [c']) ++ q) in Hk at 1.
  apply app_eq_app in Hk. destruct Hk as [l [[H1 H2]|[H1 H2]]].
  - destruct l as [|x l _] using rev_ind.
    + rewrite app_nil_r in H1. exists []. rewrite app_nil_r. symmetry. exact H1.
    + exfalso. rewrite app_assoc in H1.
      change (c :: p0 ++ [c']) with ((c :: p0) ++ [c']) in H1.
      apply app_inj_tail in H1. destruct H1 as [_ <-].
      rewrite H2 in Hsp. rewrite !Forall_app in Hsp.
      destruct Hsp as [[_ Hx] _]. inversion Hx; subst. congruence.
  - exists l. exact H1.
Qed.

(** X27.  The text [general_idea_and_impact] shows for an analysis with a
    summary.  It is never None.  When the summary has the marker
    7. General Idea, the text is the summary from the first occurrence of
    the marker on, stripped, so it begins with the marker, even if a 7.
    occurs before it; otherwise, when the summary has a 7. anywhere, it is
    the summary from the first 7. on, stripped; and with no 7. at all it is
    the stripped summary. *)
Theorem general_idea_and_impact_marker :
  forall self : RegulationAnalysis.t,
    RegulationAnalysis.summary self <> [] ->
    let text := RegulationAnalysis.summary self in
    let first_at (needle : str) (k : nat) :=
      is_prefix needle (drop k text) = true
      /\ (forall j, (j < k)%nat -> is_prefix needle (drop j text) = false) in
    exists out,
      general_idea_and_impact self = Some out
      /\ (exists p q, text = p ++ out ++ q)
      /\ (contains (lit "7. General Idea") text = true ->
          (exists k, first_at (lit "7. General Idea") k
                     /\ out = strip (drop k text))
          /\ is_prefix (lit "7. General Idea") out = true)
      /\ (contains (lit "7. General Idea") text = false ->
          contains (lit "7.") text = true ->
          exists k, first_at (lit "7.") k /\ out = strip (drop k text))
      /\ (contains (lit "7.") text = true -> is_prefix (lit "7.") out = true)
      /\ (contains (lit "7.") text = false -> out = strip text).
Proof.
  intros self Hne text first_at. unfold general_idea_and_impact. fold text.
  assert (He : is_empty text = false).
  { subst text. destruct (RegulationAnalysis.summary self); [congruence|reflexivity]. }
  rewrite He. unfold str_find.
  assert (Hsub : contains (lit "7. General Idea") text = true ->
                 contains (lit "7.") text = true).
  { rewrite !contains_split. intros (k & q & H).
    exists k, (lit " General Idea" ++ q). rewrite H. reflexivity. }
  assert (Hpiece : forall k, exists p q, text = p ++ strip (drop k text) ++ q).
  { intros k. destruct (strip_infix (drop k text)) as (p & q & H).
    exists (take k text ++ p), q. rewrite <- app_assoc, <- H. symmetry.
    apply take_drop. }
  assert (Hfound : forall (c c' : char) (p0 : str),
    isspace c = false -> isspace c' = false ->
    contains (c :: p0 ++ [c']) text = true ->
    exists k, find_from (c :: p0 ++ [c']) text 0 = Z.of_nat k
              /\ first_at (c :: p0 ++ [c']) k
              /\ is_prefix (c :: p0 ++ [c']) (strip (drop k text)) = true).
  { intros c c' p0 Hc Hc' H.
    destruct (find_from_found _ _ 0%Z H) as (k & Hk & Hp & Hmin).
    exists k. split; [lia|]. split; [split; assumption|].
    apply strip_keeps_prefix; assumption. }
  destruct (contains (lit "7. General Idea") text) eqn:Em.
  - destruct (Hfound 55 97 (lit ". General Ide") eq_refl eq_refl Em)
      as (k & Hk & Hfirst & Hp).
    change (55 :: lit ". General Ide" ++ [97]) with (lit "7. General Idea")
      in Hk, Hfirst, Hp.
    rewrite Hk. destruct (Z.eqb_spec (Z.of_nat k) (-1)); [lia|].
    destruct (Z.eqb_spec (Z.of_nat k) (-1)); [lia|]. rewrite Nat2Z.id.
    eexists. split; [reflexivity|]. split; [apply Hpiece|].
    split; [intros _; split; [exists k; split; [exact Hfirst|reflexivity]|exact Hp]|].
    split; [discriminate|]. split.
    + intros _. apply is_prefix_split in Hp. destruct Hp as [q Hq].
      rewrite Hq. reflexivity.
    + intros H. rewrite (Hsub eq_refl) in H. discriminate H.
  - rewrite (find_from_missing _ _ 0%Z Em). rewrite Z.eqb_refl.
    destruct (contains (lit "7.") text) eqn:E7.
    + destruct (Hfound 55 46 [] eq_refl eq_refl E7) as (k & Hk & Hfirst & Hp).
      change (55 :: [] ++ [46]) with (lit "7.") in Hk, Hfirst, Hp.
      rewrite Hk. destruct (Z.eqb_spec (Z.of_nat k) (-1)); [lia|]. rewrite Nat2Z.id.
      eexists. split; [reflexivity|]. split; [apply Hpiece|].
      split; [discriminate|].
      split; [intros _ _; exists k; split; [exact Hfirst|reflexivity]|].
      split; [intros _; exact Hp|discriminate].
    + rewrite (find_from_missing _ _ 0%Z E7). rewrite Z.eqb_refl.
      eexists. split; [reflexivity|]. split; [apply strip_infix|].
      split; [discriminate|]. split; [discriminate|].
      split; [discriminate|reflexivity].
Qed.

End ViewsProperties.

Section ViewsWitness.
Import Py Hashlib AnalysisUtils Models Spiders App Store Views.

(** A summary whose reference number has a 7. before the marker. *)
Lemma general_idea_and_impact_marker_witness :
  general_idea_and_impact
    {| RegulationAnalysis.id := 1%Z; RegulationAnalysis.regulation_id := 1%Z;
       RegulationAnalysis.model_id := lit "model";
       RegulationAnalysis.created_at := 0%Z;
       RegulationAnalysis.summary := lit "6. Reference: 1437.(I) 7. General Idea: x ";
       RegulationAnalysis.raw_response := None |}
  = Some (lit "7. General Idea: x").
Proof.
  destruct (general_idea_and_impact_marker
              {| RegulationAnalysis.id := 1%Z;
                 RegulationAnalysis.regulation_id := 1%Z;
                 RegulationAnalysis.model_id := lit "model";
                 RegulationAnalysis.created_at := 0%Z;
                 RegulationAnalysis.summary :=
                   lit "6. Reference: 1437.(I) 7. General Idea: x ";
                 RegulationAnalysis.raw_response := None |}
              ltac:(discriminate)) as (out & H & _).
  rewrite H. vm_compute in H. injection H as <-. reflexivity.
Defined.

End ViewsWitness.

(** ** email_utils.py: recipients and the counts of the alert *)

Section EmailProperties.
Import Py Hashlib AnalysisUtils Models Spiders App Store EmailUtils.

Lemma split_on_pieces (sep : char) (s cur : str) :
  sep ∉ cur -> Forall (fun e => sep ∉ e) (split_on sep cur s).
Proof.
  revert cur. induction s as [|c s IH]; intros cur Hcur; cbn [split_on].
  - constructor; [|constructor]. rewrite elem_of_reverse. exact Hcur.
  - destruct (N.eqb_spec c sep) as [->|Hne].
    + constructor; [rewrite elem_of_reverse; exact Hcur|].
      apply IH. intros H. inversion H.
    + apply IH. intros H. apply elem_of_cons in H. destruct H as [H|H]; auto.
Qed.

Lemma split_on_app (sep : char) (x rest cur : str) :
  sep ∉ x ->
  split_on sep cur (x ++ rest) = split_on sep (reverse x ++ cur) rest.
Proof.
  revert cur. induction x as [|c x IH]; intros cur Hx; [reflexivity|].
  cbn [app split_on].
  destruct (N.eqb_spec c sep) as [->|Hne]; [exfalso; apply Hx; left|].
  rewrite IH; [|intros H; apply Hx; right; exact H].
  rewrite reverse_cons, <- app_assoc. reflexivity.
Qed.

Lemma split_on_join (sep : char) (es : list str) :
  es <> [] -> Forall (fun e => sep ∉ e) es ->
  split_on sep [] (join [sep] es) = es.
Proof.
  intros Hne Hes. induction Hes as [|e es He Hes IH]; [congruence|].
  destruct es as [|e' es].
  - cbn [join]. rewrite <- (app_nil_r e) at 1.
    rewrite split_on_app by exact He. cbn [split_on].
    rewrite app_nil_r, reverse_involutive. reflexivity.
  - change (join [sep] (e :: e' :: es)) with (e ++ sep :: join [sep] (e' :: es)).
    rewrite split_on_app by exact He. cbn [split_on]. rewrite N.eqb_refl.
    rewrite app_nil_r, reverse_involutive, IH; [reflexivity|discriminate].
Qed.

(** X28.  The recipients of the alert are the pieces of ALERT_EMAILS
    between commas, stripped, without the blank ones: no recipient is empty,
    has a comma or has white space around it; without the variable there is
    none; and a list of addresses joined with commas is read back as it was
    written, white space around an address and blank entries dropped. *)
Theorem get_alert_recipients_pieces :
  forall (ALERT_EMAILS : option str) (es : list str),
    Forall (fun e => 44 ∉ e) es ->
    Forall (fun e => e <> [] /\ (44 ∉ e) /\ strip e = e)
      (get_alert_recipients ALERT_EMAILS)
    /\ get_alert_recipients None = []
    /\ get_alert_recipients (Some (join [44] es))
       = strip <$> List.filter (fun e => negb (is_empty (strip e))) es
    /\ (Forall (fun e => e <> [] /\ strip e = e) es ->
        get_alert_recipients (Some (join [44] es)) = es).
Proof.
  intros ALERT_EMAILS es Hes.
  assert (Hjoin : get_alert_recipients (Some (join [44] es))
                  = strip <$> List.filter (fun e => negb (is_empty (strip e))) es).
  { unfold get_alert_recipients.
    destruct es as [|e es]; [reflexivity|].
    change (default [] (Some (join [44] (e :: es)))) with (join [44] (e :: es)).
    rewrite split_on_join; [reflexivity|discriminate|exact Hes]. }
  split; [|split; [reflexivity|split; [exact Hjoin|]]].
  - unfold get_alert_recipients. apply Forall_fmap, Forall_forall.
    intros e He. apply elem_of_filter_bool in He. destruct He as [He Hne].
    cbn beta. split; [|split].
    + destruct (strip e); [discriminate Hne|discriminate].
    + pose proof (split_on_pieces 44 (default [] ALERT_EMAILS) []
                    ltac:(intros H; inversion H)) as Hp.
      rewrite Forall_forall in Hp. specialize (Hp e He).
      destruct (strip_infix e) as (p & q & Hpq). intros Hin. apply Hp.
      rewrite Hpq, !elem_of_app. auto.
    + apply strip_idem.
  - intros Hclean. rewrite Hjoin. clear Hjoin Hes.
    induction Hclean as [|e es [Hne Hs] _ IH]; [reflexivity|].
    cbn [List.filter]. rewrite Hs.
    destruct e; [congruence|]. cbn [is_empty negb]. rewrite fmap_cons, Hs, IH.
    reflexivity.
Qed.

Lemma get_count_up (k k' : str) (acc : list (str * Z)) :
  get (count_up k acc) k'
  = if str_eqb k k' then Some (default 0%Z (get acc k) + 1)%Z else get acc k'.
Proof.
  unfold get. induction acc as [|[k0 v] acc IH]; cbn [count_up List.find fst].
  - destruct (str_eqb k k'); reflexivity.
  - destruct (str_eqb k0 k) eqn:E0.
    + apply str_eqb_eq in E0. subst k0. cbn [List.find fst].
      destruct (str_eqb k k'); reflexivity.
    + cbn [List.find fst]. destruct (str_eqb k0 k') eqn:E1.
      * apply str_eqb_eq in E1. subst k0.
        destruct (str_eqb k k') eqn:E2; [|reflexivity].
        apply str_eqb_eq in E2. subst k'.
        rewrite (proj2 (str_eqb_eq k k) eq_refl) in E0. discriminate E0.
      * exact IH.
Qed.

Lemma keys_count_up (k : str) (acc : list (str * Z)) :
  NoDup (fst <$> acc) -> NoDup (fst <$> count_up k acc)
  /\ (forall k', k' ∈ (fst <$> count_up k acc) <-> k' = k \/ k' ∈ (fst <$> acc)).
Proof.
  induction acc as [|[k0 v] acc IH]; intros Hnd; cbn [count_up].
  - split; [repeat constructor; intros H; inversion H|].
    intros k'. cbn. rewrite list_elem_of_singleton. split; [auto|].
    intros [H|H]; [exact H|inversion H].
  - rewrite fmap_cons in Hnd. apply NoDup_cons in Hnd. destruct Hnd as [Hk0 Hnd].
    destruct (str_eqb k0 k) eqn:E0.
    + apply str_eqb_eq in E0. subst k0. split.
      * rewrite fmap_cons. apply NoDup_cons. auto.
      * intros k'. rewrite !fmap_cons, !elem_of_cons. cbn [fst]. tauto.
    + destruct (IH Hnd) as [IH1 IH2]. split.
      * rewrite fmap_cons. apply NoDup_cons. split; [|exact IH1].
        cbn [fst]. rewrite IH2. intros [->|H]; [|contradiction].
        rewrite (proj2 (str_eqb_eq k k) eq_refl) in E0. discriminate E0.
      * intros k'. rewrite !fmap_cons, !elem_of_cons, IH2. cbn [fst]. tauto.
Qed.

Lemma sum_count_up (k : str) (acc : list (str * Z)) :
  foldr Z.add 0%Z (snd <$> count_up k acc) = (foldr Z.add 0%Z (snd <$> acc) + 1)%Z.
Proof.
  induction acc as [|[k0 v] acc IH]; cbn [count_up]; [reflexivity|].
  destruct (str_eqb k0 k); rewrite !fmap_cons; cbn [foldr snd]; [lia|].
  rewrite IH. lia.
Qed.

(** X29.  The breakdown of the alert by source: the keys are the sources
    of the new documents, each once; the count under a source is the number
    of new documents of that source, a source without documents having no
    entry; and the counts add up to the total that the subject announces. *)
Theorem by_source_counts :
  forall (new_regs_with_analysis : list (Regulation.t * option RegulationAnalysis.t)),
    let of_source k :=
      len (List.filter (fun ra => str_eqb (Regulation.source (fst ra)) k)
             new_regs_with_analysis) in
    NoDup (fst <$> by_source new_regs_with_analysis)
    /\ (forall k, k ∈ (fst <$> by_source new_regs_with_analysis)
                  <-> k ∈ (Regulation.source ∘ fst <$> new_regs_with_analysis))
    /\ (forall k, get (by_source new_regs_with_analysis) k
                  = if (of_source k =? 0)%Z then None else Some (of_source k))
    /\ foldr Z.add 0%Z (snd <$> by_source new_regs_with_analysis)
       = total new_regs_with_analysis.
Proof.
  intros l. cbv zeta. unfold by_source, total.
  induction l as [|x l IH] using rev_ind.
  - cbn. split; [constructor|]. split; [reflexivity|]. split; reflexivity.
  - rewrite foldl_app. cbn [foldl].
    destruct IH as (Hnd & Hkeys & Hget & Hsum).
    destruct (keys_count_up (Regulation.source (fst x)) _ Hnd) as [Hnd' Hkeys'].
    split; [exact Hnd'|]. split; [|split].
    + intros k. rewrite Hkeys', Hkeys, fmap_app, elem_of_app. cbn.
      rewrite list_elem_of_singleton. tauto.
    + intros k. rewrite get_count_up, !Hget.
      unfold len. rewrite !List.filter_app, !length_app. cbn [List.filter].
      destruct (str_eqb (Regulation.source (fst x)) k) eqn:E.
      * apply str_eqb_eq in E. subst k. cbn [length].
        set (n := length _).
        destruct (Z.eqb_spec (Z.of_nat n) 0); cbn [default from_option id];
          destruct (Z.eqb_spec (Z.of_nat (n + 1)) 0); try lia; f_equal; lia.
      * cbn [length]. rewrite Nat.add_0_r. reflexivity.
    + rewrite sum_count_up, Hsum. unfold len. rewrite length_app. cbn [length]. lia.
Qed.

End EmailProperties.

Section EmailWitness.
Import Py Hashlib AnalysisUtils Models Spiders App Store EmailUtils.

Lemma get_alert_recipients_pieces_witness :
  get_alert_recipients (Some (lit "a@x.pk, b@y.pk ,, "))
  = [lit "a@x.pk"; lit "b@y.pk"].
Proof.
  destruct (get_alert_recipients_pieces None
              [lit "a@x.pk"; lit " b@y.pk "; []; lit " "]) as (_ & _ & H & _).
  { repeat constructor; intros H;
      repeat (apply elem_of_cons in H as [H|H]; [discriminate H|]); inversion H. }
  etrans; [exact H|]. vm_compute. reflexivity.
Defined.

End EmailWitness.

(** ** A reading of a listing that fails *)

Section ListingFailure.
Import Py Hashlib AnalysisUtils Models Spiders App Store.

Variable isdecimal : char -> bool.
Variable py_int : str -> result Z.
Variable fromtimestamp : Z -> result date.
Variable strptime : str -> str -> result date.
Variable generate_fallback_ref : str -> str.

Lemma parse_api_row_keeps_digests (self : BaseSpider) (target : Target)
    (six_months_ago : date) (r : FbrRow) (w : World) :
  page_hashes
    (db (snd (parse_api_row isdecimal py_int fromtimestamp strptime
                generate_fallback_ref self target six_months_ago r w)))
  = page_hashes (db w).
Proof.
  unfold parse_api_row.
  destruct (if is_empty (strip (CreationDate r)) then _ else _) as [issue|e];
    [|reflexivity].
  destruct (generate_regulation_id _ _ _ _) as [rid|e]; [|reflexivity].
  destruct (regulation_exists self w rid) as [[|]|e]; try reflexivity.
  destruct (_ && _); [reflexivity|].
  unfold add_regulation. destruct (find_regulation _ _); reflexivity.
Qed.

Lemma parse_api_rows_keeps_digests (self : BaseSpider) (target : Target)
    (six_months_ago : date) (rows : list FbrRow) (w : World) :
  page_hashes
    (db (snd (parse_api_rows isdecimal py_int fromtimestamp strptime
                generate_fallback_ref self target six_months_ago rows w)))
  = page_hashes (db w).
Proof.
  revert w. induction rows as [|r rows IH]; intros w; cbn [parse_api_rows];
    [reflexivity|].
  pose proof (parse_api_row_keeps_digests self target six_months_ago r w) as Hr.
  destruct (parse_api_row _ _ _ _ _ _ _ _ r w) as [[req|e] w'];
    cbn [snd] in Hr |- *; [|exact Hr].
  specialize (IH w').
  destruct (parse_api_rows _ _ _ _ _ _ _ _ rows w') as [[reqs res] w''].
  cbn [snd] in IH |- *. congruence.
Qed.

(** X30.  A reading of an FBR listing that fails is not recorded as read:
    when [parse_api] raises, the table of digests is as it was, so the
    digest of the listing is not the stored one and the next crawl reads
    the listing again.  Unless the digest itself could not be computed, the
    failure came from a row, after the gate had let the listing through. *)
Theorem parse_api_failure_retried :
  forall (self : BaseSpider) (target : Target) (six_months_ago : date)
         (rows : list FbrRow) (w w1 : World) (reqs : list Request) (e : exn),
    flask_app self = true ->
    parse_api isdecimal py_int fromtimestamp strptime generate_fallback_ref
      self target six_months_ago rows w = ((reqs, Raise e), w1) ->
    page_hashes (db w1) = page_hashes (db w)
    /\ get_stored_hash self w1 (listing_key target)
       = get_stored_hash self w (listing_key target)
    /\ ((hash_urls (listing_ids rows) = Raise e /\ w1 = w)
        \/ exists h stored,
             hash_urls (listing_ids rows) = Ok h
             /\ get_stored_hash self w1 (listing_key target) = Ok stored
             /\ page_unchanged stored h = false).
Proof.
  intros self target c rows w w1 reqs e Hf H.
  assert (Hget : forall wa wb, page_hashes (db wa) = page_hashes (db wb) ->
            get_stored_hash self wa (listing_key target)
            = get_stored_hash self wb (listing_key target)).
  { intros wa wb Hp. unfold get_stored_hash, find_page_hash. rewrite Hp. reflexivity. }
  unfold parse_api in H. fold (listing_ids rows) in H. fold (listing_key target) in H.
  destruct (is_empty rows); [discriminate H|].
  destruct (hash_urls (listing_ids rows)) as [h|e0] eqn:Eh.
  2: { injection H as _ <- <-. split; [reflexivity|]. split; [reflexivity|].
       left. split; reflexivity. }
  destruct (get_stored_hash self w (listing_key target)) as [stored|e0] eqn:Eg.
  2: { unfold get_stored_hash in Eg. rewrite Hf in Eg. discriminate Eg. }
  destruct (page_unchanged stored h) eqn:Ep; [discriminate H|].
  pose proof (parse_api_rows_keeps_digests self target c rows w) as Hk.
  destruct (parse_api_rows _ _ _ _ _ _ _ _ rows w) as [[reqs' [u|e']] wm];
    cbn [snd] in Hk.
  - exfalso. unfold store_hash in H. rewrite Hf in H. cbn [negb] in H.
    destruct (find_page_hash (db wm) (listing_key target)); discriminate H.
  - injection H as _ _ <-. split; [exact Hk|].
    split; [rewrite (Hget wm w Hk); exact Eg|]. right. exists h, stored.
    split; [reflexivity|]. split; [|exact Ep].
    rewrite (Hget wm w Hk). exact Eg.
Qed.

End ListingFailure.

Section ListingFailureScenario.
Import Py Hashlib AnalysisUtils Models Spiders App Store Scenario.

(** A listing whose second row has a reference that cannot be encoded: the
    first row is requested, the reading fails, no digest is stored. *)
Lemma parse_api_failure_retried_witness :
  let run :=
    parse_api Strptime.is_digit Strptime.ascii_int Strptime.utc_fromtimestamp
      Strptime.strptime (fun _ => [55296]) spider income_tax (Date 2025 4 1)
      [sro_1437;
       {| SRONumber := []; Title := lit "Notice"; CreationDate := [];
          UploadedFile1 := lit "n.pdf" |}] world0 in
  snd (fst run) = Raise UnicodeEncodeError
  /\ page_hashes (db (snd run)) = [].
Proof.
  intros run.
  destruct run as [[reqs res] w1] eqn:E.
  assert (Hres : res = Raise UnicodeEncodeError).
  { apply (f_equal (fun x => snd (fst x))) in E. cbn [fst snd] in E.
    rewrite <- E. vm_compute. reflexivity. }
  subst res. cbn [fst snd]. split; [reflexivity|].
  destruct (parse_api_failure_retried Strptime.is_digit Strptime.ascii_int
              Strptime.utc_fromtimestamp Strptime.strptime (fun _ => [55296])
              spider income_tax (Date 2025 4 1) _ world0 w1 reqs
              UnicodeEncodeError eq_refl E) as (H & _).
  exact H.
Defined.

End ListingFailureScenario.
